(** * fake_user_agent: cache refresh, fallback selection and their JSON store

    A shallow embedding of [user_agent.py] (the lenient selector with its
    [parse] / [dump] / [remove] / [load_and_random] / [main]) and of
    [fake_useragent/utils.py] (the strict selector [get_fake_useragent] with
    [get] / [get_browser_versions] / [load] / [write] / [read]), together
    with the parts of the Python runtime both files lean on: [str] as a
    sequence of code points, [json.dumps] / [json.loads], [random.choices],
    a file system and the exceptions that travel through the code. The
    command line of [user_agent.py], the search [find_tempfile] of
    [settings.py] and the way [get_browser_versions] takes the entries from
    the body of a page follow them. *)

From Stdlib Require Import NArith ZArith QArith Qround Lqa Lia List String Ascii Bool DecimalString.
From stdpp Require Import base option list strings gmap.

Local Open Scope N_scope.

(** ** Python [str]: a sequence of code points *)

Definition pystr := list N.

Definition ch (a : ascii) : N := N_of_ascii a.

(** A literal of the source, written as a Rocq string of ASCII characters. *)
Definition py (s : string) : pystr := map N_of_ascii (list_ascii_of_string s).

(** Code points that decoding a byte stream can produce: Unicode scalar
    values, that is, everything up to U+10FFFF except the surrogates. *)
Definition scalar (c : N) : Prop := c < 0x110000 /\ ~ (0xd800 <= c <= 0xdfff).

Definition scalarb (c : N) : bool :=
  (c <? 0x110000) && negb ((0xd800 <=? c) && (c <=? 0xdfff)).

Definition pystr_eqb (a b : pystr) : bool := bool_decide (a = b).

(** The rest of a list from its first element that fails [f]. *)
Fixpoint drop_while {A} (f : A -> bool) (l : list A) : list A :=
  match l with
  | [] => []
  | x :: l' => if f x then drop_while f l' else l
  end.

(** ** Exceptions and results *)

(** The key of a failed subscript: a [str], an [int] position, or [None]. *)
Inductive pykey :=
| KStr (s : pystr)
| KInt (i : Z)
| KNone.

Inductive exn :=
| OSError
| JSONDecodeError
| KeyError (key : pykey)
| IndexError
| TypeError
| ValueError
| AttributeError
| UnboundLocalError (name : string)
| FakeUserAgentError (msg : string)
| SystemExit (code : Z).

(** A call returns, raises, or (only for a loop that is cut off by its
    fuel) has not finished. *)
Inductive result (A : Type) :=
| Ok (a : A)
| Raise (e : exn)
| OutOfFuel.
Arguments Ok {A} a.
Arguments Raise {A} e.
Arguments OutOfFuel {A}.

(** What the operating system sees when the interpreter ends: [sys.exit(n)]
    gives [n], an exception nobody caught gives 1, a normal end gives 0; a
    run that has not ended has no status. *)
Definition exit_status {A} (r : result A) : option Z :=
  match r with
  | Ok _ => Some 0%Z
  | Raise (SystemExit n) => Some n
  | Raise _ => Some 1%Z
  | OutOfFuel => None
  end.

(** ** [json]: values, [dumps] and [loads] *)

Module Json.

Unset Elimination Schemes.
Inductive value :=
| Null
| Bool (b : bool)
| Str (s : pystr)
| Arr (items : list value)
| Obj (members : list (pystr * value)).
Set Elimination Schemes.

(** Induction that reaches the values nested in arrays and objects. *)
Section value_ind.
Variable P : value -> Prop.
Hypothesis HNull : P Null.
Hypothesis HBool : forall b, P (Bool b).
Hypothesis HStr : forall s, P (Str s).
Hypothesis HArr : forall l, Forall P l -> P (Arr l).
Hypothesis HObj : forall m, Forall (fun kv => P (snd kv)) m -> P (Obj m).

Fixpoint value_ind (v : value) : P v :=
  match v with
  | Null => HNull
  | Bool b => HBool b
  | Str s => HStr s
  | Arr l =>
      HArr l ((fix go (l : list value) : Forall P l :=
                 match l with
                 | [] => @List.Forall_nil _ P
                 | x :: l' => @List.Forall_cons _ P x l' (value_ind x) (go l')
                 end) l)
  | Obj m =>
      HObj m ((fix go (m : list (pystr * value)) : Forall (fun kv => P (snd kv)) m :=
                 match m with
                 | [] => @List.Forall_nil _ _
                 | kv :: m' => @List.Forall_cons _ _ kv m' (value_ind (snd kv)) (go m')
                 end) m)
  end.
End value_ind.

(** *** Encoder: [json.dumps] with its defaults ([ensure_ascii=True],
    separators [", "] and [": "]) *)

Definition hex_digit (d : N) : N := if d <? 10 then 48 + d else 87 + d.

(** ['\\u{0:04x}'.format(n)] *)
Definition u_escape (n : N) : pystr :=
  [92; ch "u"; hex_digit (n / 4096 mod 16); hex_digit (n / 256 mod 16);
   hex_digit (n / 16 mod 16); hex_digit (n mod 16)].

(** [replace] inside [py_encode_basestring_ascii]: [ESCAPE_DCT] first, then
    the [\uXXXX] form, with a surrogate pair above the basic plane. Only
    the characters matched by [ESCAPE_ASCII] (a backslash, a double quote,
    anything outside [' '..'~']) are replaced. *)
Definition escape_char (c : N) : pystr :=
  if c =? 92 then [92; 92]
  else if c =? 34 then [92; 34]
  else if c =? 8 then [92; ch "b"]
  else if c =? 12 then [92; ch "f"]
  else if c =? 10 then [92; ch "n"]
  else if c =? 13 then [92; ch "r"]
  else if c =? 9 then [92; ch "t"]
  else if (32 <=? c) && (c <=? 126) then [c]
  else if c <? 0x10000 then u_escape c
  else
    let n := c - 0x10000 in
    let s1 := N.lor 0xd800 (N.land (N.shiftr n 10) 0x3ff) in
    let s2 := N.lor 0xdc00 (N.land n 0x3ff) in
    u_escape s1 ++ u_escape s2.

Definition encode_basestring_ascii (s : pystr) : pystr :=
  34 :: flat_map escape_char s ++ [34].

Fixpoint dumps (v : value) : pystr :=
  match v with
  | Null => py "null"
  | Bool true => py "true"
  | Bool false => py "false"
  | Str s => encode_basestring_ascii s
  | Arr l =>
      match l with
      | [] => py "[]"
      | x :: l' =>
          ch "[" :: dumps x ++
          (fix rest (l : list value) : pystr :=
             match l with
             | [] => [ch "]"]
             | y :: l'' => py ", " ++ dumps y ++ rest l''
             end) l'
      end
  | Obj m =>
      match m with
      | [] => py "{}"
      | kv :: m' =>
          ch "{" :: encode_basestring_ascii (fst kv) ++ py ": " ++ dumps (snd kv) ++
          (fix rest (m : list (pystr * value)) : pystr :=
             match m with
             | [] => [ch "}"]
             | kv' :: m'' =>
                 py ", " ++ encode_basestring_ascii (fst kv') ++ py ": " ++
                 dumps (snd kv') ++ rest m''
             end) m'
      end
  end.

(** *** Decoder: [json.loads] *)

(** A scan either yields a value and the text left after it, fails (the
    library raises [JSONDecodeError]), or has used up its fuel. *)
Inductive pres (A : Type) :=
| POk (a : A) (rest : pystr)
| PErr
| PFuel.
Arguments POk {A} a rest.
Arguments PErr {A}.
Arguments PFuel {A}.

Definition pmap {A B} (f : A -> B) (r : pres A) : pres B :=
  match r with
  | POk a rest => POk (f a) rest
  | PErr => PErr
  | PFuel => PFuel
  end.

Definition is_ws (c : N) : bool :=
  (c =? 32) || (c =? 9) || (c =? 10) || (c =? 13).

(** [WHITESPACE.match(s, end).end()] *)
Fixpoint skip_ws (s : pystr) : pystr :=
  match s with
  | c :: t => if is_ws c then skip_ws t else s
  | [] => []
  end.

Definition hex_val (c : N) : option N :=
  if (48 <=? c) && (c <=? 57) then Some (c - 48)
  else if (97 <=? c) && (c <=? 102) then Some (c - 87)
  else if (65 <=? c) && (c <=? 70) then Some (c - 55)
  else None.

(** [_decode_uXXXX]: four hexadecimal digits after the [u]. *)
Definition decode_uXXXX (s : pystr) : option (N * pystr) :=
  match s with
  | a :: b :: c :: d :: rest =>
      match hex_val a, hex_val b, hex_val c, hex_val d with
      | Some x, Some y, Some z, Some w => Some (((x * 16 + y) * 16 + z) * 16 + w, rest)
      | _, _, _, _ => None
      end
  | _ => None
  end.

(** The [BACKSLASH] table of the decoder. *)
Definition backslash_tbl (esc : N) : option N :=
  if esc =? 34 then Some 34
  else if esc =? 92 then Some 92
  else if esc =? ch "/" then Some (ch "/")
  else if esc =? ch "b" then Some 8
  else if esc =? ch "f" then Some 12
  else if esc =? ch "n" then Some 10
  else if esc =? ch "r" then Some 13
  else if esc =? ch "t" then Some 9
  else None.

(** [scanstring] (strict): the loop over chunks, entered after the opening
    quote. Every round consumes at least one character. *)
Fixpoint scan_chunks (fuel : nat) (s : pystr) : pres pystr :=
  match fuel with
  | O => PFuel
  | S n =>
      match s with
      | [] => PErr
      | c :: t =>
          if c =? 34 then POk [] t
          else if c =? 92 then
            match t with
            | [] => PErr
            | esc :: t' =>
                if esc =? ch "u" then
                  match decode_uXXXX t' with
                  | None => PErr
                  | Some (uni, t2) =>
                      if (0xd800 <=? uni) && (uni <=? 0xdbff) then
                        match t2 with
                        | b :: u :: t3 =>
                            if (b =? 92) && (u =? ch "u") then
                              match decode_uXXXX t3 with
                              | None => PErr
                              | Some (uni2, t4) =>
                                  if (0xdc00 <=? uni2) && (uni2 <=? 0xdfff) then
                                    pmap (cons (0x10000 +
                                                N.lor (N.shiftl (uni - 0xd800) 10)
                                                      (uni2 - 0xdc00)))
                                         (scan_chunks n t4)
                                  else pmap (cons uni) (scan_chunks n t2)
                              end
                            else pmap (cons uni) (scan_chunks n t2)
                        | _ => pmap (cons uni) (scan_chunks n t2)
                        end
                      else pmap (cons uni) (scan_chunks n t2)
                  end
                else
                  match backslash_tbl esc with
                  | Some c' => pmap (cons c') (scan_chunks n t')
                  | None => PErr
                  end
            end
          else if c <? 32 then PErr
          else pmap (cons c) (scan_chunks n t)
      end
  end.

Definition scanstring (s : pystr) : pres pystr := scan_chunks (S (length s)) s.

(** [dict(pairs)]: a later pair with a key already seen replaces the value
    and keeps the key's first position. *)
Fixpoint dict_set {V} (k : pystr) (v : V) (m : list (pystr * V)) : list (pystr * V) :=
  match m with
  | [] => [(k, v)]
  | (k', v') :: m' =>
      if pystr_eqb k' k then (k', v) :: m' else (k', v') :: dict_set k v m'
  end.

Definition dict_of_pairs {V} (pairs : list (pystr * V)) : list (pystr * V) :=
  fold_left (fun m kv => dict_set (fst kv) (snd kv) m) pairs [].

Fixpoint dict_get {V} (k : pystr) (m : list (pystr * V)) : option V :=
  match m with
  | [] => None
  | (k', v') :: m' => if pystr_eqb k' k then Some v' else dict_get k m'
  end.

Definition starts_with (p s : pystr) : option pystr :=
  if bool_decide (take (length p) s = p) then Some (drop (length p) s) else None.

(** [scan_once], [JSONArray] and [JSONObject]. Numbers are outside the
    fragment: a cache written by [dump] or [write] holds none, and a text
    that starts a value with a digit or a minus sign is reported as an
    error here. *)
Fixpoint scan_once (fuel : nat) (s : pystr) {struct fuel} : pres value :=
  match fuel with
  | O => PFuel
  | S n =>
      match s with
      | [] => PErr
      | c :: t =>
          if c =? 34 then pmap Str (scanstring t)
          else if c =? ch "{" then
            match skip_ws t with
            | c' :: t' =>
                if c' =? ch "}" then POk (Obj []) t'
                else pmap (fun pairs => Obj (dict_of_pairs pairs)) (object_items n (c' :: t'))
            | [] => PErr
            end
          else if c =? ch "[" then
            match skip_ws t with
            | c' :: t' =>
                if c' =? ch "]" then POk (Arr []) t'
                else pmap Arr (array_items n (c' :: t'))
            | [] => PErr
            end
          else
            match starts_with (py "null") s, starts_with (py "true") s,
                  starts_with (py "false") s with
            | Some r, _, _ => POk Null r
            | _, Some r, _ => POk (Bool true) r
            | _, _, Some r => POk (Bool false) r
            | _, _, _ => PErr
            end
      end
  end
with array_items (fuel : nat) (s : pystr) {struct fuel} : pres (list value) :=
  match fuel with
  | O => PFuel
  | S n =>
      match scan_once n s with
      | POk v r =>
          match skip_ws r with
          | c :: r' =>
              if c =? ch "]" then POk [v] r'
              else if c =? ch "," then pmap (cons v) (array_items n (skip_ws r'))
              else PErr
          | [] => PErr
          end
      | PErr => PErr
      | PFuel => PFuel
      end
  end
with object_items (fuel : nat) (s : pystr) {struct fuel} : pres (list (pystr * value)) :=
  match fuel with
  | O => PFuel
  | S n =>
      match s with
      | c :: t =>
          if c =? 34 then
            match scanstring t with
            | POk key r =>
                match skip_ws r with
                | c2 :: r2 =>
                    if c2 =? ch ":" then
                      match scan_once n (skip_ws r2) with
                      | POk v r3 =>
                          match skip_ws r3 with
                          | c3 :: r4 =>
                              if c3 =? ch "}" then POk [(key, v)] r4
                              else if c3 =? ch "," then
                                pmap (cons (key, v)) (object_items n (skip_ws r4))
                              else PErr
                          | [] => PErr
                          end
                      | PErr => PErr
                      | PFuel => PFuel
                      end
                    else PErr
                | [] => PErr
                end
            | PErr => PErr
            | PFuel => PFuel
            end
          else PErr
      | [] => PErr
      end
  end.

(** [JSONDecoder.decode]: leading white space, one value, trailing white
    space, and nothing else. A level of nesting takes two units of fuel and
    at least one character. *)
Definition decode (s : pystr) : pres value :=
  match scan_once (S (2 * length s)) (skip_ws s) with
  | POk v r => match skip_ws r with [] => POk v [] | _ => PErr end
  | PErr => PErr
  | PFuel => PFuel
  end.

Definition loads (s : pystr) : result value :=
  match decode s with
  | POk v _ => Ok v
  | PErr => Raise JSONDecodeError
  | PFuel => OutOfFuel
  end.

(** The separators written after the first item of an array or object. *)
Definition arr_rest : list value -> pystr :=
  fix rest l :=
    match l with
    | [] => [ch "]"]
    | y :: l' => py ", " ++ dumps y ++ rest l'
    end.

Definition obj_rest : list (pystr * value) -> pystr :=
  fix rest m :=
    match m with
    | [] => [ch "}"]
    | kv :: m' =>
        py ", " ++ encode_basestring_ascii (fst kv) ++ py ": " ++ dumps (snd kv) ++ rest m'
    end.

(** Values a harvest can build: strings of scalar values, objects with
    pairwise distinct keys. *)
Fixpoint wfb (v : value) : bool :=
  match v with
  | Null | Bool _ => true
  | Str s => forallb scalarb s
  | Arr l => forallb wfb l
  | Obj m =>
      bool_decide (NoDup (map fst m)) &&
      forallb (fun kv => forallb scalarb (fst kv) && wfb (snd kv)) m
  end.

Definition wf (v : value) : Prop := wfb v = true.

(** [v] is read back from its text, whatever text follows it. *)
Definition reads (v : value) : Prop :=
  forall fuel rest, (length (dumps v) <= fuel)%nat ->
    scan_once fuel (dumps v ++ rest) = POk v rest.

(** A scan that came to an end, and with it consumed something of [s]. *)
Definition finishes {A} (r : pres A) (s : pystr) : Prop :=
  match r with
  | POk _ rest => (length rest < length s)%nat
  | PErr => True
  | PFuel => False
  end.

Definition members_ok (m : list (pystr * value)) : Prop :=
  NoDup (map fst m) /\ Forall (fun kv => Forall scalar (fst kv) /\ wf (snd kv)) m.

End Json.

(** ** The file system and the monad of the code that touches it *)

Inductive node :=
| Dir
| File (data : pystr).

(** File operations that went through, in the order they happened. *)
Inductive event :=
| EvWrite (path : string) (data : pystr)
| EvRead (path : string)
| EvRemove (path : string)
| EvMkdir (path : string).

Record world := World {
  fs : gmap string node;
  trace : list event
}.

Definition M (A : Type) : Type := world -> result A * world.

Definition ret {A} (a : A) : M A := fun w => (Ok a, w).

Definition raise {A} (e : exn) : M A := fun w => (Raise e, w).

Definition bind {A B} (m : M A) (k : A -> M B) : M B :=
  fun w =>
    match m w with
    | (Ok a, w') => k a w'
    | (Raise e, w') => (Raise e, w')
    | (OutOfFuel, w') => (OutOfFuel, w')
    end.

Notation "'let*' x ':=' m 'in' k" := (bind m (fun x => k))
  (at level 10, x pattern, m at level 100, k at level 200).

Definition lift {A} (r : result A) : M A := fun w => (r, w).

(** [try: m / except Exception as error: h error]. [SystemExit] is not an
    [Exception] and passes through. *)
Definition try_except {A} (m : M A) (h : exn -> M A) : M A :=
  fun w =>
    match m w with
    | (Raise (SystemExit n), w') => (Raise (SystemExit n), w')
    | (Raise e, w') => h e w'
    | r => r
    end.

Definition log (e : event) (w : world) : world :=
  {| fs := fs w; trace := trace w ++ [e] |}.

Module Os.

Definition is_slash (a : ascii) : bool := Ascii.eqb a "/".

(** [posixpath.dirname]: everything up to the last slash, without the
    trailing slashes unless there is nothing else. *)
Definition dirname (p : string) : string :=
  let head_rev := drop_while (fun a => negb (is_slash a)) (rev (list_ascii_of_string p)) in
  if forallb is_slash head_rev then string_of_list_ascii (rev head_rev)
  else string_of_list_ascii (rev (drop_while is_slash head_rev)).

(** Paths are compared as written: an entry is known by the spelling it
    was made under, and another spelling of the same place ([./c.json] for
    [c.json]) is another key, so that what is stated about a path holds for
    calls that spell it alike. The current directory ["."] and the root are
    always there. *)
Definition is_root (p : string) : bool :=
  negb (String.eqb p EmptyString) && forallb is_slash (list_ascii_of_string p).

Definition isdir (m : gmap string node) (p : string) : bool :=
  String.eqb p "." || is_root p ||
  match m !! p with Some Dir => true | _ => false end.

Definition isfile (m : gmap string node) (p : string) : bool :=
  match m !! p with Some (File _) => true | _ => false end.

Definition path_exists (m : gmap string node) (p : string) : bool :=
  isdir m p || isfile m p.

(** The directory a new entry [p] goes into is usable: the current
    directory for a bare name, a directory otherwise. *)
Definition parent_ok (m : gmap string node) (p : string) : bool :=
  String.eqb (dirname p) EmptyString || isdir m (dirname p).

(** The names of a path, between its slashes, in their order; [cur_rev]
    is the name at hand, backwards. *)
Fixpoint components (l : list ascii) (cur_rev : list ascii) : list string :=
  match l with
  | [] => [string_of_list_ascii (rev cur_rev)]
  | a :: l' =>
      if is_slash a then string_of_list_ascii (rev cur_rev) :: components l' []
      else components l' (a :: cur_rev)
  end.

Definition proper_name (c : string) : bool :=
  negb (String.eqb c EmptyString) && negb (String.eqb c ".") && negb (String.eqb c "..").

(** A path that ends in a slash, or in [.] or [..], names a directory:
    there is no file to open under it. *)
Definition names_directory (p : string) : bool :=
  negb (proper_name (List.last (components (list_ascii_of_string p) []) EmptyString)).

(** A path that is spelled in the one way the file system of the model
    knows an entry by: names that are neither empty nor [.] nor [..], with
    one slash between them and, for an absolute path, one in front. *)
Definition canonical (p : string) : bool :=
  negb (names_directory p) &&
  match components (list_ascii_of_string p) [] with
  | [] => false
  | first :: rest =>
      match rest with
      | [] => proper_name first
      | _ => (String.eqb first EmptyString || proper_name first) && forallb proper_name rest
      end
  end.

(** [with open(path, encoding="utf-8") as f: f.read()] *)
Definition read_text (path : string) : M pystr :=
  fun w =>
    match fs w !! path with
    | Some (File data) => (Ok data, log (EvRead path) w)
    | _ => (Raise OSError, w)
    end.

(** [with open(path, encoding="utf-8", mode="wt") as f: f.write(data)] *)
Definition write_text (path : string) (data : pystr) : M unit :=
  fun w =>
    if String.eqb path EmptyString || names_directory path || isdir (fs w) path
       || negb (parent_ok (fs w) path)
    then (Raise OSError, w)
    else (Ok tt, log (EvWrite path data)
                     {| fs := <[path := File data]> (fs w); trace := trace w |}).

(** [os.remove] *)
Definition remove (path : string) : M unit :=
  fun w =>
    if isfile (fs w) path
    then (Ok tt, log (EvRemove path) {| fs := delete path (fs w); trace := trace w |})
    else (Raise OSError, w).

Definition mkdir (name : string) : M unit :=
  fun w =>
    if String.eqb name EmptyString || path_exists (fs w) name || negb (parent_ok (fs w) name)
    then (Raise OSError, w)
    else (Ok tt, log (EvMkdir name) {| fs := <[name := Dir]> (fs w); trace := trace w |}).

(** [os.makedirs(name, exist_ok=True)]: the missing ancestors first, then
    the directory itself; an existing directory is accepted. *)
Fixpoint makedirs (fuel : nat) (name : string) : M unit :=
  match fuel with
  | O => fun w => (OutOfFuel, w)
  | S n =>
      let head := dirname name in
      let* _ :=
        (fun w =>
           if negb (String.eqb head EmptyString) && negb (String.eqb head name)
              && negb (path_exists (fs w) head)
           then makedirs n head w
           else (Ok tt, w)) in
      try_except (mkdir name)
        (fun e w => if isdir (fs w) name then (Ok tt, w) else (Raise e, w))
  end.

End Os.

(** ** [str] methods and [random] *)

(** [str.isspace] on one character. *)
Definition is_space (c : N) : bool :=
  ((9 <=? c) && (c <=? 13)) || ((28 <=? c) && (c <=? 32)) ||
  (c =? 0x85) || (c =? 0xa0) || (c =? 0x1680) ||
  ((0x2000 <=? c) && (c <=? 0x200a)) ||
  (c =? 0x2028) || (c =? 0x2029) || (c =? 0x202f) || (c =? 0x205f) || (c =? 0x3000).

Definition strip (s : pystr) : pystr :=
  rev (drop_while is_space (rev (drop_while is_space s))).

(** [str.lower] on one character: ASCII, Latin-1 and the Kelvin sign. Any
    other cased letter lowers to code points outside ASCII and is left as it
    is, which changes no comparison with the ASCII names of the code. *)
Definition lower_cp (c : N) : N :=
  if (65 <=? c) && (c <=? 90) then c + 32
  else if (0xc0 <=? c) && (c <=? 0xde) && negb (c =? 0xd7) then c + 32
  else if c =? 0x212a then 107
  else c.

Definition lower (s : pystr) : pystr := map lower_cp s.

(** [needle in hay] for two strings. *)
Fixpoint contains (needle hay : pystr) : bool :=
  bool_decide (take (length needle) hay = needle) ||
  match hay with
  | [] => false
  | _ :: hay' => contains needle hay'
  end.

Module Random.

(** [itertools.accumulate]: running sums. *)
Fixpoint accumulate_from (acc : Z) (l : list Z) : list Z :=
  match l with
  | [] => []
  | x :: l' => (acc + x)%Z :: accumulate_from (acc + x)%Z l'
  end.

Definition accumulate (l : list Z) : list Z := accumulate_from 0 l.

(** [bisect.bisect_right(a, x, lo, hi)]: the loop halves [hi - lo]. *)
Fixpoint bisect (fuel : nat) (a : list Z) (x : Q) (lo hi : nat) : nat :=
  match fuel with
  | O => lo
  | S n =>
      if (lo <? hi)%nat then
        let mid := ((lo + hi) / 2)%nat in
        if negb (Qle_bool (inject_Z (nth mid a 0%Z)) x)
        then bisect n a x lo mid
        else bisect n a x (S mid) hi
      else lo
  end.

(** The double nearest to a rational, ties to the even mantissa: what
    [float(n)] makes of an integer and what the product of two doubles is
    rounded to. A mantissa of 53 bits is cut out and rounded; the exponent
    is left as it comes, since the magnitudes at hand (a draw that is a
    multiple of 2^-53, weights that are integers) stay clear of the
    subnormal doubles and of overflow. *)
Definition round_double (x : Q) : Q :=
  let n := Z.abs (Qnum x) in
  let d := Zpos (Qden x) in
  if (n =? 0)%Z then 0
  else
    let e0 := (Z.log2 n - Z.log2 d - 53)%Z in
    let mantissa (e : Z) :=
      if (0 <=? e)%Z then (n / (d * 2 ^ e))%Z else (n * 2 ^ (- e) / d)%Z in
    let e := if (mantissa e0 <? 2 ^ 53)%Z then e0 else (e0 + 1)%Z in
    let num := if (0 <=? e)%Z then n else (n * 2 ^ (- e))%Z in
    let den := if (0 <=? e)%Z then (d * 2 ^ e)%Z else d in
    let q := (num / den)%Z in
    let r := (num mod den)%Z in
    let q' :=
      if (den <? 2 * r)%Z then (q + 1)%Z
      else if (2 * r =? den)%Z then (if Z.even q then q else q + 1)%Z
      else q in
    let m := (Z.sgn (Qnum x) * q')%Z in
    if (0 <=? e)%Z then inject_Z (m * 2 ^ e) else Qmake m (Z.to_pos (2 ^ (- e))).

(** The draw of [random.choices] once the cumulative weights are there:
    [total = cum_weights[-1] + 0.0] and
    [population[bisect(cum_weights, random() * total, 0, hi)]], where [u]
    is the double [random()] returns. *)
Definition weighted_draw {A} (population : list A) (cum_weights : list Z) (u : Q) : result A :=
  let n := length population in
  if negb (length cum_weights =? n)%nat then Raise ValueError
  else
    match last cum_weights with
    | None => Raise IndexError
    | Some total =>
        if (total <=? 0)%Z then Raise ValueError
        else
          match population !! bisect (length cum_weights) cum_weights
                                     (round_double (u * round_double (inject_Z total)))
                                     0 (n - 1) with
          | Some x => Ok x
          | None => Raise IndexError
          end
    end.

(** [random.choices(population, weights, cum_weights=cum_weights, k=1)[0]],
    where [u] is the value [random()] returns. *)
Definition choices {A} (population : list A) (weights cum_weights : option (list Z))
    (u : Q) : result A :=
  match cum_weights, weights with
  | None, None =>
      match population !! Z.to_nat (Qfloor (round_double
                (u * round_double (inject_Z (Z.of_nat (length population)))))) with
      | Some x => Ok x
      | None => Raise IndexError
      end
  | None, Some weights => weighted_draw population (accumulate weights) u
  | Some _, Some _ => Raise TypeError
  | Some cum_weights, None => weighted_draw population cum_weights u
  end.

(** [random.choice(seq)] on a list, where [r] is the integer the generator
    supplies, brought below [len(seq)]. *)
Definition choice {A} (seq : list A) (r : nat) : result A :=
  match seq !! (r mod length seq)%nat with
  | Some x => Ok x
  | None => Raise IndexError
  end.

End Random.

(** ** Subscripts and [random.choice] on values read from a cache *)

(** [obj[key]] on values that came out of [json.loads]. A [dict] of the
    cache has [str] keys only; a [bool] is an [int] and indexes a sequence;
    a [list] or a [dict] is no key at all. *)
Definition subscript (obj key : Json.value) : result Json.value :=
  match obj, key with
  | Json.Obj m, Json.Str k =>
      match Json.dict_get k m with
      | Some v => Ok v
      | None => Raise (KeyError (KStr k))
      end
  | Json.Obj m, Json.Bool b => Raise (KeyError (KInt (if b then 1 else 0)%Z))
  | Json.Obj m, Json.Null => Raise (KeyError KNone)
  | Json.Arr l, Json.Bool b =>
      match l !! (if b then 1 else 0)%nat with
      | Some v => Ok v
      | None => Raise IndexError
      end
  | Json.Str s, Json.Bool b =>
      match s !! (if b then 1 else 0)%nat with
      | Some c => Ok (Json.Str [c])
      | None => Raise IndexError
      end
  | _, _ => Raise TypeError
  end.

(** [random.choice] on such a value: any sequence will do, a [str]
    included; a [dict] is subscripted with the position drawn. *)
Definition choice_value (seq : Json.value) (r : nat) : result Json.value :=
  match seq with
  | Json.Arr l => Random.choice l r
  | Json.Str s => Random.choice (map (fun c => Json.Str [c]) s) r
  | Json.Obj [] => Raise IndexError
  | Json.Obj m => Raise (KeyError (KInt (Z.of_nat (r mod length m))))
  | _ => Raise TypeError
  end.

(** A [browser] argument as a caller can pass it. *)
Inductive pyarg :=
| ANone
| AStr (s : pystr)
| AInt (i : Z).

(** ** [user_agent.py]: the lenient selector *)

Module UserAgent.

Definition BACKUP_FILE : string := "fake_useragent.json".

Definition FIXED_UA : pystr :=
  py "Mozilla/5.0 (Windows NT 6.1; WOW64) AppleWebKit/537.36 (KHTML, like Gecko) Chrome/29.0.1547.62 Safari/537.36".

Definition BROWSERS : list pystr :=
  [py "chrome"; py "edge"; py "firefox"; py "safari"; py "opera"].

Definition RANDOM_CUM_WEIGHTS : list Z := [80; 86; 93; 97; 100]%Z.

(** What one [session.get] of a browser's page ends in: a
    [ServerTimeoutError], another exception, or the text of the page. A
    text [etree.HTML] makes a tree of is given by the text nodes that the
    XPath of [parse] selects in it, in document order; how [lxml] gets at
    them is not part of the model. Of an empty text it makes no tree and
    returns [None]: this is [Blank]. *)
Inductive reply :=
| Timeout
| Failed
| Page (nodes : list pystr)
| Blank.

(** What [etree.HTML] returns for the text the loop of [parse] is left
    with. *)
Inductive document :=
| NoTree
| Tree (nodes : list pystr).

(** The surroundings of a call: the answer to the [k]-th request for a
    browser's page within one fetch, [expanduser] after [expandvars], and
    the numbers the random generator hands out: the double that
    [random.random()] returns, as the rational it is, and the integer behind
    [random.choice]. *)
Record env := Env {
  pages : pystr -> nat -> reply;
  expand : string -> string;
  rnd_float : Q;
  rnd_int : nat
}.

Section Code.
Context (E : env).

(** [call_on_error]: the count of failed attempts goes up by one; the
    rest of it is logging. *)
Definition call_on_error (attempt : Z) : Z := (attempt + 1)%Z.

(** The [while True] loop of [parse]: [None] when it is left with
    [result is None]. *)
Fixpoint fetch_loop (fuel : nat) (browser : pystr) (attempt : Z) : result (option document) :=
  match fuel with
  | O => OutOfFuel
  | S n =>
      match pages E browser (Z.to_nat attempt) with
      | Page nodes => Ok (Some (Tree nodes))
      | Blank => Ok (Some NoTree)
      | Timeout =>
          let attempt := call_on_error attempt in
          if (attempt =? 3)%Z then Ok None
          else fetch_loop n browser attempt
      | Failed => Ok None
      end
  end.

(** [parse]: the second component of the pair it returns; the first is
    [browser] itself. Where [etree.HTML] returned [None], the call of
    [xpath] on it raises [AttributeError], outside the [try]. *)
Definition parse (browser : pystr) : result (option (list pystr)) :=
  match fetch_loop 3 browser 0 with
  | Ok None => Ok None
  | Ok (Some NoTree) => Raise AttributeError
  | Ok (Some (Tree nodes)) =>
      let browser_num := 50%nat in
      let versions := take browser_num nodes in
      match versions with
      | [] => Ok None
      | _ => Ok (Some versions)
      end
  | Raise e => Raise e
  | OutOfFuel => OutOfFuel
  end.

(** [die]: the error is logged, then [sys.exit(1)]. *)
Definition die {A} : M A := raise (SystemExit 1).

(** [asyncio.gather] over the tasks: every browser is fetched, whatever
    the others end in, and an exception of one of them is handed on. *)
Fixpoint gather (browsers : list pystr) : result (list (pystr * option (list pystr))) :=
  match browsers with
  | [] => Ok []
  | b :: rest =>
      match parse b, gather rest with
      | Ok r, Ok rs => Ok ((b, r) :: rs)
      | Raise e, _ => Raise e
      | OutOfFuel, _ => OutOfFuel
      | _, Raise e => Raise e
      | _, OutOfFuel => OutOfFuel
      end
  end.

(** The loop of [dump] over the results, with [all_browsers] built up. *)
Fixpoint collect (results : list (pystr * option (list pystr)))
    (all_browsers : list (pystr * Json.value)) : result (list (pystr * Json.value)) :=
  match results with
  | [] => Ok all_browsers
  | (browser, None) :: _ => Raise (SystemExit 1)
  | (browser, Some versions) :: rest =>
      collect rest (Json.dict_set browser (Json.Arr (map Json.Str versions)) all_browsers)
  end.

(** The catalog of [dump], up to [json.dumps]. *)
Definition harvest : result Json.value :=
  match gather BROWSERS with
  | Ok results =>
      match results with
      | [] => Raise (SystemExit 1)
      | _ =>
          match collect results [] with
          | Ok all_browsers => Ok (Json.Obj all_browsers)
          | Raise e => Raise e
          | OutOfFuel => OutOfFuel
          end
      end
  | Raise e => Raise e
  | OutOfFuel => OutOfFuel
  end.

Definition dump (cache_path : string) : M unit :=
  let* all_browsers := lift harvest in
  let dumped := Json.dumps all_browsers in
  let dir_name := Os.dirname cache_path in
  let* cache_path :=
    (if negb (String.eqb dir_name EmptyString) && negb (String.eqb dir_name ".") then
       let cache_path := expand E cache_path in
       let dir_name := Os.dirname cache_path in
       fun w =>
         if negb (Os.path_exists (fs w) dir_name) then
           try_except (let* _ := Os.makedirs (S (String.length dir_name)) dir_name in
                       ret cache_path)
                      (fun error => die) w
         else (Ok cache_path, w)
     else ret cache_path) in
  try_except (Os.write_text cache_path dumped) (fun error => die).

(** [remove]. In the branch for a missing directory the name [error] is
    read before anything is bound to it, so that [die] is not reached. *)
Definition remove (cache_path : string) : M unit :=
  let dir_name := Os.dirname cache_path in
  let* cache_path :=
    (if negb (String.eqb dir_name EmptyString) && negb (String.eqb dir_name ".") then
       let cache_path := expand E cache_path in
       let dir_name := Os.dirname cache_path in
       fun w =>
         if negb (Os.path_exists (fs w) dir_name)
         then (Raise (UnboundLocalError "error"), w)
         else (Ok cache_path, w)
     else ret cache_path) in
  try_except (Os.remove cache_path) (fun error => die).

(** [load_and_random]: the [try] holds the opening and the reading of the
    file; the decoding, the subscript and the choice stand in the [else]
    branch. *)
Definition load_and_random (browser : pystr) (cache_path : string) : M Json.value :=
  fun w =>
    match Os.read_text cache_path w with
    | (Ok data, w') =>
        (match Json.loads data with
         | Ok v =>
             match subscript v (Json.Str browser) with
             | Ok versions => choice_value versions (rnd_int E)
             | Raise e => Raise e
             | OutOfFuel => OutOfFuel
             end
         | Raise e => Raise e
         | OutOfFuel => OutOfFuel
         end, w')
    | (Raise (SystemExit n), w') => (Raise (SystemExit n), w')
    | (Raise _, w') => (Ok (Json.Str FIXED_UA), w')
    | (OutOfFuel, w') => (OutOfFuel, w')
    end.

(** [main]. After an unsupported name [new_browser] is drawn and logged,
    and [browser] stays what it was. *)
Definition main (browser : pyarg) (use_cache : bool) (cache_path : string) : M Json.value :=
  let* browser :=
    match browser with
    | ANone => lift (Random.choices BROWSERS (Some RANDOM_CUM_WEIGHTS) None (rnd_float E))
    | AStr browser =>
        let browser := lower (strip browser) in
        if negb (bool_decide (browser ∈ BROWSERS)) then
          let* new_browser := lift (Random.choices BROWSERS (Some RANDOM_CUM_WEIGHTS) None (rnd_float E)) in
          ret browser
        else ret browser
    | AInt _ => raise AttributeError
    end in
  if negb use_cache then
    let* versions := lift (parse browser) in
    match versions with
    | None => load_and_random browser cache_path
    | Some versions => lift (Random.choice (map Json.Str versions) (rnd_int E))
    end
  else load_and_random browser cache_path.

End Code.
End UserAgent.

(** ** [fake_useragent/utils.py]: the strict selector *)

Module Utils.

(** [settings.SHORTCUTS] *)
Definition SHORTCUTS : list (pystr * pystr) :=
  [(py "internet explorer", py "edge");
   (py "ie", py "edge");
   (py "google", py "chrome");
   (py "googlechrome", py "chrome");
   (py "ff", py "firefox")].

Definition BROWSERS_COUNT_LIMIT : nat := 50.

(** The settings [utils.py] reads that depend on the installation ([DB],
    built from the temporary directory and the version) or are set outside
    the files at hand ([HTTP_RETRIES]). *)
Record settings := Settings {
  DB : string;
  HTTP_RETRIES : Z
}.

(** What one [urlopen] ends in: a [URLError] or [OSError], or the body. *)
Inductive reply (A : Type) :=
| NetError
| Body (a : A).
Arguments NetError {A}.
Arguments Body {A} a.

(** The surroundings of a call. The body of a browser's page is given by
    what the pattern of [get_browser_versions] finds in it: nothing when
    the [<div id='liste'>] is not there, else the bytes of every
    [group(1)] in order. The cache server answers with a text. *)
Record env := Env {
  pages : pystr -> nat -> reply (option (list string));
  cache_server : nat -> reply pystr;
  rnd_first : nat;
  rnd_second : nat
}.

Section Code.
Context (cfg : settings) (E : env).

(** The loop of [get], over the answers of one address. *)
Fixpoint get_loop {A} (source : nat -> reply A) (fuel : nat) (attempt : Z) : result A :=
  match fuel with
  | O => OutOfFuel
  | S n =>
      let attempt := (attempt + 1)%Z in
      match source (Z.to_nat (attempt - 1)) with
      | Body b => Ok b
      | NetError =>
          if (attempt =? HTTP_RETRIES cfg)%Z
          then Raise (FakeUserAgentError "Maximum amount of retries reached")
          else get_loop source n attempt
      end
  end.

(** [get]: [attempt] starts at 0. *)
Definition get {A} (source : nat -> reply A) (fuel : nat) : result A :=
  get_loop source fuel 0.

(** The loop of [get_browser_versions] over the matches. *)
Fixpoint scan_matches (groups : list pystr) (browsers : list pystr) : list pystr :=
  match groups with
  | [] => browsers
  | g :: rest =>
      if contains (py "more") (lower g) then scan_matches rest browsers
      else
        let browsers := browsers ++ [g] in
        if (length browsers =? BROWSERS_COUNT_LIMIT)%nat then browsers
        else scan_matches rest browsers
  end.

(** [get_browser_versions]. The bytes are decoded as ISO-8859-1, one code
    point a byte. The argument formatted into the last message is left
    out. *)
Definition get_browser_versions (fuel : nat) (browser : pystr) : result (list pystr) :=
  match get (pages E browser) fuel with
  | Ok None => Raise IndexError
  | Ok (Some groups) =>
      match scan_matches (map py groups) [] with
      | [] => Raise (FakeUserAgentError "No browsers version found")
      | browsers => Ok browsers
      end
  | Raise e => Raise e
  | OutOfFuel => OutOfFuel
  end.

(** [get_cache_server] *)
Definition get_cache_server (fuel : nat) : result Json.value :=
  match get (cache_server E) fuel with
  | Ok data =>
      match Json.loads data with
      | Raise JSONDecodeError => Raise (FakeUserAgentError "Can not load data from cache server")
      | r => r
      end
  | Raise e => Raise e
  | OutOfFuel => OutOfFuel
  end.

(** [str(n)] *)
Definition str_of_nat (n : nat) : pystr := py (NilZero.string_of_uint (Nat.to_uint n)).

(** [for _ in range(count): randomize_dict[str(len(randomize_dict))] = browser] *)
Fixpoint add_randomize (count : nat) (browser : pystr)
    (randomize_dict : list (pystr * Json.value)) : list (pystr * Json.value) :=
  match count with
  | O => randomize_dict
  | S n =>
      add_randomize n browser
        (Json.dict_set (str_of_nat (length randomize_dict)) (Json.Str browser) randomize_dict)
  end.

(** The table local to [load]; the percentages as exact fractions.
    [int(float(percent) * 10)] is 807, 56, 61, 37 and 24 in binary floating
    point as well. *)
Definition get_browsers : list (pystr * Q) :=
  [(py "Chrome", 807 # 10); (py "Edge", 56 # 10); (py "Firefox", 61 # 10);
   (py "Safari", 37 # 10); (py "Opera", 24 # 10)]%Q.

(** The [try] body of [load]. *)
Fixpoint harvest_loop (fuel : nat) (items : list (pystr * Q))
    (browsers_dict randomize_dict : list (pystr * Json.value))
    : result (list (pystr * Json.value) * list (pystr * Json.value)) :=
  match items with
  | [] => Ok (browsers_dict, randomize_dict)
  | (browser, percent) :: rest =>
      let browser := lower (strip browser) in
      match get_browser_versions fuel browser with
      | Ok versions =>
          harvest_loop fuel rest
            (Json.dict_set browser (Json.Arr (map Json.Str versions)) browsers_dict)
            (add_randomize (Z.to_nat (Qfloor (percent * 10))) browser randomize_dict)
      | Raise e => Raise e
      | OutOfFuel => OutOfFuel
      end
  end.

(** What the [else] branch of [load] returns after a [try] body that went
    through. *)
Definition harvest (fuel : nat) : result Json.value :=
  match harvest_loop fuel get_browsers [] [] with
  | Ok (browsers_dict, randomize_dict) =>
      Ok (Json.Obj [(py "browsers", Json.Obj browsers_dict);
                    (py "randomize", Json.Obj randomize_dict)])
  | Raise e => Raise e
  | OutOfFuel => OutOfFuel
  end.

(** [load]: any exception of the [try] body sends it to the cache server,
    unless [use_cache_server] is off. *)
Definition load (fuel : nat) (use_cache_server : bool) : result Json.value :=
  match harvest fuel with
  | Raise (SystemExit n) => Raise (SystemExit n)
  | Raise exc => if negb use_cache_server then Raise exc else get_cache_server fuel
  | r => r
  end.

(** [write] and [read] *)
Definition write (path : string) (data : Json.value) : M unit :=
  Os.write_text path (Json.dumps data).

Definition read (path : string) : M Json.value :=
  let* data := Os.read_text path in
  lift (Json.loads data).

(** [dict.get(key, default)] on the alias table. *)
Definition shortcut (browser : pystr) : pystr :=
  match Json.dict_get browser SHORTCUTS with
  | Some b => b
  | None => browser
  end.

(** [list(d.values())] and [list(d.keys())] *)
Definition values (d : Json.value) : result (list Json.value) :=
  match d with
  | Json.Obj m => Ok (map snd m)
  | _ => Raise AttributeError
  end.

Definition keys (d : Json.value) : result (list pystr) :=
  match d with
  | Json.Obj m => Ok (map fst m)
  | _ => Raise AttributeError
  end.

(** Lines 179 to 190 of [get_fake_useragent]: where [data] comes from. *)
Definition obtain_data (fuel : nat) (use_cache : bool) : M Json.value :=
  if use_cache then
    let path := DB cfg in
    fun w =>
      if Os.isfile (fs w) path then read path w
      else (let* data := lift (load fuel true) in
            let* _ := write path data in
            read path) w
  else lift (load fuel true).

(** [get_fake_useragent]: the value it prints. *)
Definition get_fake_useragent (fuel : nat) (browser : pyarg) (use_cache : bool)
    : M Json.value :=
  let* data := obtain_data fuel use_cache in
  let* browsers := lift (subscript data (Json.Str (py "browsers"))) in
  let* randomize_dict := lift (subscript data (Json.Str (py "randomize"))) in
  let* randomize := lift (values randomize_dict) in
  let* browser :=
    match browser with
    | AStr browser =>
        let browser := lower (strip browser) in
        let browser := shortcut browser in
        let* names := lift (keys browsers) in
        if negb (bool_decide (browser ∈ names))
        then raise (FakeUserAgentError "This browser is not supported.")
        else ret (Json.Str browser)
    | ANone => lift (Random.choice randomize (rnd_first E))
    | AInt _ => raise (FakeUserAgentError "Please use a valid browser name.")
    end in
  let* versions := lift (subscript browsers browser) in
  lift (choice_value versions (rnd_second E)).

End Code.
End Utils.

(** ** Notions used in the statements *)

Module Notions.

(** What [parse] makes of a page that arrived. *)
Definition versions_of (nodes : list pystr) : option (list pystr) :=
  match take 50 nodes with
  | [] => None
  | versions => Some versions
  end.

(** An entry that passes the test of [get_browser_versions]. *)
Definition unmarked (s : pystr) : Prop := contains (py "more") (lower s) = false.

(** A text within ISO-8859-1. There [lower] is [str.lower] to the letter;
    beyond it Python lowers letters that [lower] leaves as they are. *)
Definition latin1 (s : pystr) : bool := forallb (fun c => c <? 256) s.

(** A double that [random.random()] can return, as the rational it is: a
    multiple of 2^-53 in [0, 1). *)
Definition unit_double (u : Q) : bool :=
  Qle_bool 0 u && negb (Qle_bool 1 u) && (2 ^ 53 mod Zpos (Qden (Qred u)) =? 0)%Z.

(** Text nodes as [lxml] hands them over: decoded from UTF-8, so that
    every code point is a scalar value. *)
Definition scalar_pages (E : UserAgent.env) : Prop :=
  forall b k nodes, UserAgent.pages E b k = UserAgent.Page nodes ->
                    Forall (Forall scalar) nodes.

(** The path [dump] and [remove] end up working on. *)
Definition target (E : UserAgent.env) (cache_path : string) : string :=
  let dir_name := Os.dirname cache_path in
  if negb (String.eqb dir_name EmptyString) && negb (String.eqb dir_name ".")
  then UserAgent.expand E cache_path else cache_path.

(** The arguments [get_fake_useragent] accepts on a harvested catalog, and
    the name each of them stands for. *)
Definition supported (browser : pyarg) : Prop :=
  match browser with
  | ANone => True
  | AStr s => Utils.shortcut (lower (strip s)) ∈ UserAgent.BROWSERS
  | AInt _ => False
  end.

(** The name at position [i] of the [randomize] table of [load]. *)
Definition by_share (i : nat) : pystr :=
  if (i <? 807)%nat then py "chrome"
  else if (i <? 863)%nat then py "edge"
  else if (i <? 924)%nat then py "firefox"
  else if (i <? 961)%nat then py "safari"
  else py "opera".

(** The name [get_fake_useragent] goes on with on a harvested catalog: for
    a string the name it stands for, for [None] the entry of the
    [randomize] table at the place the generator points to. *)
Definition resolves (N : Utils.env) (browser : pyarg) (b : pystr) : Prop :=
  match browser with
  | ANone => b = by_share (Utils.rnd_first N mod 985)
  | AStr s => b = Utils.shortcut (lower (strip s))
  | AInt _ => False
  end.

(** The [randomize] table of a harvest: the counted names, whatever the
    pages hold. *)
Definition RANDOMIZE : list (pystr * Json.value) :=
  Eval vm_compute in
  Utils.add_randomize 24 (py "opera")
    (Utils.add_randomize 37 (py "safari")
       (Utils.add_randomize 61 (py "firefox")
          (Utils.add_randomize 56 (py "edge")
             (Utils.add_randomize 807 (py "chrome") [])))).

Definition browsers_dict (v1 v2 v3 v4 v5 : list pystr) : list (pystr * Json.value) :=
  [(py "chrome", Json.Arr (map Json.Str v1));
   (py "edge", Json.Arr (map Json.Str v2));
   (py "firefox", Json.Arr (map Json.Str v3));
   (py "safari", Json.Arr (map Json.Str v4));
   (py "opera", Json.Arr (map Json.Str v5))].

(** The fetch as the specification words it: every error of an attempt,
    a timeout or another network error, is followed by a new attempt, up to
    [attempts] of them; [k] is the attempt at hand. *)
Fixpoint retrying_fetch (attempts : nat) (replies : nat -> UserAgent.reply) (k : nat)
    : option (list pystr) :=
  match attempts with
  | O => None
  | S n =>
      match replies k with
      | UserAgent.Page nodes => Some nodes
      | UserAgent.Blank => Some []
      | _ => retrying_fetch n replies (S k)
      end
  end.

End Notions.

(** ** Sample surroundings *)

Module Examples.

Definition ua1 : pystr :=
  py "Mozilla/5.0 (X11; Linux x86_64) AppleWebKit/537.36 (KHTML, like Gecko) Chrome/96.0.4664.45 Safari/537.36".

Definition ua2 : pystr :=
  py "Mozilla/5.0 (Windows NT 10.0; Win64; x64; rv:94.0) Gecko/20100101 Firefox/94.0".

(** Every page answers at once. *)
Definition E_live : UserAgent.env :=
  {| UserAgent.pages := fun _ _ => UserAgent.Page [ua1; ua2];
     UserAgent.expand := fun p => p;
     UserAgent.rnd_float := 1 # 2;
     UserAgent.rnd_int := 1 |}.

(** No page ever answers in time. *)
Definition E_down : UserAgent.env :=
  {| UserAgent.pages := fun _ _ => UserAgent.Timeout;
     UserAgent.expand := fun p => p;
     UserAgent.rnd_float := 1 # 2;
     UserAgent.rnd_int := 1 |}.

(** The connection is reset once, then the page is there. *)
Definition E_reset : UserAgent.env :=
  {| UserAgent.pages := fun _ k =>
       match k with
       | O => UserAgent.Failed
       | _ => UserAgent.Page [ua1]
       end;
     UserAgent.expand := fun p => p;
     UserAgent.rnd_float := 1 # 2;
     UserAgent.rnd_int := 1 |}.

(** Two timeouts, then the page. *)
Definition E_slow : UserAgent.env :=
  {| UserAgent.pages := fun _ k =>
       match k with
       | 0%nat | 1%nat => UserAgent.Timeout
       | _ => UserAgent.Page [ua1; ua2]
       end;
     UserAgent.expand := fun p => p;
     UserAgent.rnd_float := 1 # 2;
     UserAgent.rnd_int := 1 |}.


(** Every page lists one entry, the name of its browser. *)
Definition E_named : UserAgent.env :=
  {| UserAgent.pages := fun b _ => UserAgent.Page [b];
     UserAgent.expand := fun p => p;
     UserAgent.rnd_float := 1 # 2;
     UserAgent.rnd_int := 0 |}.

(** The page of one browser has an empty list. *)
Definition E_edge_empty : UserAgent.env :=
  {| UserAgent.pages := fun b _ =>
       if bool_decide (b = py "edge") then UserAgent.Page [] else UserAgent.Page [ua1];
     UserAgent.expand := fun p => p;
     UserAgent.rnd_float := 1 # 2;
     UserAgent.rnd_int := 1 |}.

(** The page of one browser has an empty list, and the text of another
    is empty. *)
Definition E_safari_blank : UserAgent.env :=
  {| UserAgent.pages := fun b _ =>
       if bool_decide (b = py "edge") then UserAgent.Page []
       else if bool_decide (b = py "safari") then UserAgent.Blank
       else UserAgent.Page [ua1];
     UserAgent.expand := fun p => p;
     UserAgent.rnd_float := 1 # 2;
     UserAgent.rnd_int := 1 |}.

Definition w_empty : world := World ∅ [].

Definition w_tmp : world := World {[ "/tmp"%string := Dir ]} [].

(** A cache whose writing was cut off after the opening brace. *)
Definition w_truncated : world :=
  World {[ UserAgent.BACKUP_FILE := File (py "{") ]} [].

(** A cache as [dump] leaves it. *)
Definition w_cache : world := snd (UserAgent.dump E_live UserAgent.BACKUP_FILE w_empty).

Definition S0 : Utils.settings :=
  {| Utils.DB := "/tmp/fake_useragent_0.1.11.json"; Utils.HTTP_RETRIES := 2 |}.

(** The first request for a page fails, the second brings three matches. *)
Definition N_live : Utils.env :=
  {| Utils.pages := fun _ k =>
       match k with
       | O => Utils.NetError
       | _ => Utils.Body (Some ["Mozilla/5.0 one"; "Show more"; "Mozilla/5.0 two"]%string)
       end;
     Utils.cache_server := fun _ => Utils.NetError;
     Utils.rnd_first := 900;
     Utils.rnd_second := 1 |}.

(** Nothing can be reached. *)
Definition N_down : Utils.env :=
  {| Utils.pages := fun _ _ => Utils.NetError;
     Utils.cache_server := fun _ => Utils.NetError;
     Utils.rnd_first := 900;
     Utils.rnd_second := 1 |}.

Definition data0 : Json.value :=
  match Utils.harvest S0 N_live 5 with
  | Ok data => data
  | _ => Json.Null
  end.

(** The cache of the strict selector, cut off after the opening brace. *)
Definition w_db_truncated : world :=
  World (<[Utils.DB S0 := File (py "{")]> {[ "/tmp"%string := Dir ]}) [].

End Examples.

(** ** [user_agent.py]: the entry points and the command line *)

Module Cli.
Import UserAgent.

Definition VERSION : pystr := py "2.3.0".

(** [user_agent], called where no event loop is running: [asyncio.run]
    drives [main] to its end and hands on what it returns or raises. *)
Definition user_agent (E : env) (browser : pyarg) (use_cache : bool) (cache_path : string)
    : M Json.value :=
  main E browser use_cache cache_path.

(** [aio_user_agent], awaited by a coroutine: the loop it finds is running,
    and the task it makes of [main] is awaited. *)
Definition aio_user_agent (E : env) (browser : pyarg) (use_cache : bool) (cache_path : string)
    : M Json.value :=
  main E browser use_cache cache_path.

(** The namespace [parser.parse_args()] returns. [loadcache] and
    [removecache] are [None] or a list of one path. *)
Record args := Args {
  browser : pystr;
  debug : bool;
  nocache : bool;
  loadcache : option string;
  removecache : option string;
  version : bool
}.

(** What a run leaves behind: the values handed to [print], in order, and
    the way the block ended. *)
Record outcome := Outcome {
  printed : list Json.value;
  ended : result unit
}.

(** The call is over, and [sys.exit()] follows it. Its [SystemExit] carries
    [None], which ends the process with status 0. *)
Definition then_exit (r : result unit * world) : outcome * world :=
  match r with
  | (Ok _, w) => (Outcome [] (Raise (SystemExit 0)), w)
  | (Raise e, w) => (Outcome [] (Raise e), w)
  | (OutOfFuel, w) => (Outcome [] OutOfFuel, w)
  end.

(** The block under [if __name__ == "__main__"], after the arguments are
    parsed. [--debug] sets the level of the logger and nothing else; no
    [KeyboardInterrupt] arises here, so that its handler is left out. *)
Definition run (E : env) (a : args) (w : world) : outcome * world :=
  if version a then
    (Outcome [Json.Str (py "fake_user_agent " ++ VERSION)] (Raise (SystemExit 0)), w)
  else
    match loadcache a with
    | Some path => then_exit (dump E path w)
    | None =>
        match removecache a with
        | Some path => then_exit (remove E path w)
        | None =>
            let browser := match browser a with [] => ANone | s => AStr s end in
            let use_cache := if nocache a then false else true in
            match main E browser use_cache BACKUP_FILE w with
            | (Ok result, w') => (Outcome [result] (Ok tt), w')
            | (Raise e, w') => (Outcome [] (Raise e), w')
            | (OutOfFuel, w') => (Outcome [] OutOfFuel, w')
            end
        end
    end.

End Cli.

(** ** Further notions used in the statements *)

Module Terms.

(** The browser the body of [main] goes on with, for the argument it was
    given: the name, stripped and lowered, whether it is one of [BROWSERS]
    or not, and for [None] the name that is drawn. *)
Definition settled (E : UserAgent.env) (browser : pyarg) (b : pystr) : Prop :=
  match browser with
  | AStr s => b = lower (strip s)
  | ANone =>
      Random.choices UserAgent.BROWSERS (Some UserAgent.RANDOM_CUM_WEIGHTS) None
        (UserAgent.rnd_float E) = Ok b
  | AInt _ => False
  end.

(** The same for a call as Python can make it: a name that, stripped, lies
    within ISO-8859-1, so that [lower] lowers it as [str.lower] does, or
    [None] with a draw that [random.random()] can return. *)
Definition named (E : UserAgent.env) (browser : pyarg) (b : pystr) : Prop :=
  settled E browser b /\
  match browser with
  | AStr s => Notions.latin1 (strip s) = true
  | ANone => Notions.unit_double (UserAgent.rnd_float E) = true
  | AInt _ => True
  end.

(** [main] gets to [load_and_random]: the cache is asked for, or the fetch
    of [b] came back with the failure marker. *)
Definition reads_cache (E : UserAgent.env) (use_cache : bool) (b : pystr) : Prop :=
  use_cache = true \/ UserAgent.parse E b = Ok None.

(** From [m] to [m'] nothing is lost and no file is touched: an entry is
    what it was, or it is a directory that was not there before. *)
Definition only_adds_dirs (m m' : gmap string node) : Prop :=
  forall p, m' !! p = m !! p \/ (m !! p = None /\ m' !! p = Some Dir).

(** The test of [get_browser_versions] on one match, and the list it makes
    of the matches of a page: the first [BROWSERS_COUNT_LIMIT] of those
    that pass. *)
Definition kept (g : pystr) : bool := negb (contains (py "more") (lower g)).

Definition listed (groups : list pystr) : list pystr :=
  take Utils.BROWSERS_COUNT_LIMIT (List.filter kept groups).

End Terms.

(** ** Further sample surroundings *)

Module Samples.

(** A cache whose list for opera is empty. *)
Definition empty_entry : Json.value := Json.Obj [(py "opera", Json.Arr [])].

Definition w_empty_entry : world :=
  World {[ UserAgent.BACKUP_FILE := File (Json.dumps empty_entry) ]} [].

(** The catalog [dump] builds from pages of two entries each. *)
Definition members : list (pystr * Json.value) :=
  Notions.browsers_dict [Examples.ua1; Examples.ua2] [Examples.ua1; Examples.ua2]
    [Examples.ua1; Examples.ua2] [Examples.ua1; Examples.ua2] [Examples.ua1; Examples.ua2].

Definition catalog : Json.value := Json.Obj members.

(** The temporary directory with such a catalog where the strict selector
    looks for its cache. *)
Definition w_foreign : world :=
  World (<[Utils.DB Examples.S0 := File (Json.dumps catalog)]> {[ "/tmp"%string := Dir ]}) [].

(** The temporary directory after the strict selector wrote its cache. *)
Definition w_db : world :=
  snd (Utils.write (Utils.DB Examples.S0) Examples.data0 Examples.w_tmp).

End Samples.

(** ** [settings.py]: the search for a cache in the temporary directory *)

Module Settings.

(** A directory as [os.walk] finds it: the names of its entries that are
    no directories and its directories with what is in them, both in the
    order of the listing. *)
Unset Elimination Schemes.
Inductive tree :=
| Node (files : list string) (dirs : list (string * tree)).
Set Elimination Schemes.

(** Induction that reaches the directories inside a directory. *)
Section tree_ind.
Variable P : tree -> Prop.
Hypothesis HNode : forall files dirs, Forall (fun d => P (snd d)) dirs -> P (Node files dirs).

Fixpoint tree_ind (t : tree) : P t :=
  match t with
  | Node files dirs =>
      HNode files dirs
        ((fix go (ds : list (string * tree)) : Forall (fun d => P (snd d)) ds :=
            match ds with
            | [] => @List.Forall_nil _ _
            | d :: ds' => @List.Forall_cons _ _ d ds' (tree_ind (snd d)) (go ds')
            end) dirs)
  end.
End tree_ind.

(** [re.search(r'^fake_useragent_', f)] *)
Definition is_cache_name (f : string) : bool := String.prefix "fake_useragent_" f.

(** The two loops of [find_tempfile]: the first file name that passes, top
    down, a directory before the directories in it. *)
Fixpoint search (t : tree) : option string :=
  match t with
  | Node files dirs =>
      match List.find is_cache_name files with
      | Some f => Some f
      | None =>
          (fix search_dirs (ds : list (string * tree)) : option string :=
             match ds with
             | [] => None
             | d :: ds' =>
                 match search (snd d) with
                 | Some f => Some f
                 | None => search_dirs ds'
                 end
             end) dirs
      end
  end.

Definition ends_with_slash (p : string) : bool :=
  match rev (list_ascii_of_string p) with
  | a :: _ => Ascii.eqb a "/"
  | [] => false
  end.

(** [os.path.join(dir, f)] for the name of a directory entry, which holds
    no slash. *)
Definition join (dir f : string) : string :=
  if String.eqb dir EmptyString || ends_with_slash dir then dir ++ f
  else dir ++ "/" ++ f.

(** [find_tempfile(dir)], where [top] is what [os.walk(dir)] goes through:
    nothing when [dir] cannot be listed. The name found is joined to [dir]
    itself. *)
Definition find_tempfile (dir : string) (top : option tree) : string :=
  match top with
  | None => EmptyString
  | Some t =>
      match search t with
      | Some f => join dir f
      | None => EmptyString
      end
  end.

(** [DB], from the temporary directory and the version of the package. *)
Definition DB (temp_dir version : string) : string :=
  join temp_dir ("fake_useragent_" ++ version ++ ".json").

(** The file names of a directory in the order [os.walk] yields them. *)
Fixpoint walk (t : tree) : list string :=
  match t with
  | Node files dirs => files ++ flat_map (fun d => walk (snd d)) dirs
  end.

End Settings.

(** ** [get_browser_versions]: from the body of a page to its matches *)

Module Scrape.

(** [s.startswith(p)] *)
Fixpoint starts (p s : pystr) : bool :=
  match p, s with
  | [], _ => true
  | a :: p', c :: s' => (a =? c) && starts p' s'
  | _ :: _, [] => false
  end.

(** What lies before and after the first occurrence of [sep] in [s]. *)
Fixpoint cut (sep s : pystr) : option (pystr * pystr) :=
  if starts sep s then Some ([], drop (length sep) s)
  else
    match s with
    | [] => None
    | c :: t =>
        match cut sep t with
        | Some (a, b) => Some (c :: a, b)
        | None => None
        end
    end.

(** [s.split(sep)[0]] and [s.split(sep)[1]] for a separator that is not
    empty; the second is missing when [sep] does not occur. *)
Definition piece_0 (sep s : pystr) : pystr :=
  match cut sep s with
  | Some (a, _) => a
  | None => s
  end.

Definition piece_1 (sep s : pystr) : option pystr :=
  match cut sep s with
  | Some (_, rest) => Some (piece_0 sep rest)
  | None => None
  end.

(** [\d] on a text decoded from ISO-8859-1: the ten ASCII digits are the
    only decimal digits below U+0100. *)
Definition is_digit (c : N) : bool := (48 <=? c) && (c <=? 57).

(** [\d+]: it takes every digit there is, since the quote that has to
    follow is none. *)
Definition after_digits (s : pystr) : option pystr :=
  match s with
  | c :: t => if is_digit c then Some (drop_while is_digit t) else None
  | [] => None
  end.

(** [(.+?)</a]: the shortest run of one character or more, none of them a
    line feed, that is followed by [</a]; the run and what comes after the
    [</a]. *)
Fixpoint group_1 (s : pystr) : option (pystr * pystr) :=
  match s with
  | [] => None
  | c :: t =>
      if c =? 10 then None
      else if starts (py "</a") t then Some ([c], drop 3 t)
      else
        match group_1 t with
        | Some (g, rest) => Some (c :: g, rest)
        | None => None
        end
  end.

(** A match of [\?id=\d+\'>(.+?)</a] that begins with the first character
    of [s]: its [group(1)] and the text after the match. No part of the
    pattern leaves a choice, so that there is one way to match or none. *)
Definition match_here (s : pystr) : option (pystr * pystr) :=
  if starts (py "?id=") s then
    match after_digits (drop 4 s) with
    | Some s1 => if starts (py "'>") s1 then group_1 (drop 2 s1) else None
    | None => None
    end
  else None.

(** [re.finditer]: the matches from left to right, each search taken up
    where the match before ended; [skip] counts the characters of the
    match at hand that are still to be passed. *)
Fixpoint finditer_from (s : pystr) (skip : nat) : list pystr :=
  match s with
  | [] => []
  | _ :: t =>
      match skip with
      | S k => finditer_from t k
      | O =>
          match match_here s with
          | Some (g, rest) => g :: finditer_from t (length t - length rest)
          | None => finditer_from t 0
          end
      end
  end.

Definition finditer (s : pystr) : list pystr := finditer_from s 0.

(** Lines 97 to 101 of [get_browser_versions], on a text decoded from
    ISO-8859-1: the [group(1)] of every match, or nothing when the text
    has no [<div id='liste'>] and the subscript raises [IndexError]. *)
Definition groups (html : pystr) : option (list pystr) :=
  match piece_1 (py "<div id='liste'>") html with
  | Some html => Some (finditer (piece_0 (py "</div>") html))
  | None => None
  end.

(** The same on the body of the answer, decoded as ISO-8859-1: one code
    point a byte. *)
Definition matches (body : string) : option (list pystr) := groups (py body).

(** A text of ISO-8859-1 back as bytes. *)
Definition unpy (s : pystr) : string := string_of_list_ascii (map ascii_of_N s).

(** The surroundings of a call in which the pages are given by their
    bodies. *)
Definition env_of (bodies : pystr -> nat -> Utils.reply string)
    (cache_server : nat -> Utils.reply pystr) (rnd_first rnd_second : nat) : Utils.env :=
  {| Utils.pages := fun browser k =>
       match bodies browser k with
       | Utils.NetError => Utils.NetError
       | Utils.Body body => Utils.Body (option_map (map unpy) (matches body))
       end;
     Utils.cache_server := cache_server;
     Utils.rnd_first := rnd_first;
     Utils.rnd_second := rnd_second |}.

(** One entry of the list of a page, as the site writes it. *)
Definition item (id ua : pystr) : pystr :=
  py "<li><a href='/index.php?id=" ++ id ++ py "'>" ++ ua ++ py "</a></li>".

(** A page with its list. *)
Definition listing (before : pystr) (entries : list (pystr * pystr)) (after : pystr) : pystr :=
  before ++ py "<div id='liste'>" ++ flat_map (fun e => item (fst e) (snd e)) entries
  ++ py "</div>" ++ after.

(** An entry as the site lists it: a number, and a text with no line feed
    and no [<] in it. *)
Definition plain_entry (e : pystr * pystr) : Prop :=
  fst e <> [] /\ Forall (fun c => is_digit c = true) (fst e) /\
  snd e <> [] /\ Forall (fun c => c <> 10 /\ c <> 60) (snd e).

Definition plain_entryb (e : pystr * pystr) : bool :=
  negb (bool_decide (fst e = [])) && forallb is_digit (fst e) &&
  negb (bool_decide (snd e = [])) &&
  forallb (fun c => negb (c =? 10) && negb (c =? 60)) (snd e).

(** What [cut] yields with [a] put in front of the part before. *)
Definition push (a : pystr) (o : option (pystr * pystr)) : option (pystr * pystr) :=
  match o with
  | Some (x, y) => Some (a ++ x, y)
  | None => None
  end.

(** No occurrence of [sep] begins inside [a], whatever follows it. *)
Definition free (sep a : pystr) : Prop :=
  forall r, cut sep (a ++ r) = push a (cut sep r).

(** [p] and [s] differ at a place that both have. *)
Fixpoint clash (p s : pystr) : bool :=
  match p, s with
  | a :: p', c :: s' => negb (a =? c) || clash p' s'
  | _, _ => false
  end.

(** [sep] differs so from what begins at any place of [a]. *)
Fixpoint all_clash (sep a : pystr) : bool :=
  match a with
  | [] => true
  | _ :: a' => clash sep a && all_clash sep a'
  end.

End Scrape.

(** ** Sample pages and directories *)

Module Pages.

Definition entries : list (pystr * pystr) :=
  [(py "19842", py "Mozilla/5.0 one"); (py "7", py "Show more"); (py "21", py "Mozilla/5.0 two")].

(** The body of a page with three entries. *)
Definition body : string :=
  "<html><body><div id='top'></div><div id='liste'><li><a href='/index.php?id=19842'>Mozilla/5.0 one</a></li><li><a href='/index.php?id=7'>Show more</a></li><li><a href='/index.php?id=21'>Mozilla/5.0 two</a></li></div><p><a href='/?id=3'>more</a></p></body></html>".

(** The first request of any page is answered with that body. *)
Definition bodies (browser : pystr) (k : nat) : Utils.reply string := Utils.Body body.

Definition N_bodies : Utils.env :=
  Scrape.env_of bodies (fun _ => Utils.NetError) 900 1.

End Pages.

(** * Proofs *)

Ltac Zify.zify_post_hook ::= Z.to_euclidean_division_equations.

(** Decide every comparison in sight, keep the arithmetic facts. *)
Ltac cmp :=
  repeat match goal with
    | |- context [N.eqb ?a ?b] => destruct (N.eqb_spec a b)
    | |- context [N.leb ?a ?b] => destruct (N.leb_spec a b)
    | |- context [N.ltb ?a ?b] => destruct (N.ltb_spec a b)
    end; cbn [andb orb negb]; try lia.

(** * Facts about the JSON codec *)
Module JsonFacts.
Import Json.

Lemma hex_val_digit d : d < 16 -> hex_val (hex_digit d) = Some d.
Proof.
  intros Hd. unfold hex_val, hex_digit. cmp; f_equal; lia.
Qed.

Lemma decode_u_escape n rest :
  n < 0x10000 ->
  exists t, u_escape n ++ rest = 92 :: ch "u" :: t /\ decode_uXXXX t = Some (n, rest).
Proof.
  intros Hn. eexists; split; [reflexivity|].
  cbn [decode_uXXXX app].
  rewrite !hex_val_digit by (apply N.mod_lt; lia).
  assert (E : ((n / 4096 mod 16 * 16 + n / 256 mod 16) * 16 + n / 16 mod 16) * 16 + n mod 16 = n) by lia.
  now rewrite E.
Qed.

Lemma land_shiftl_low a b k : b < 2 ^ k -> N.land (N.shiftl a k) b = 0.
Proof.
  intros Hb. apply N.bits_inj_0. intros m. rewrite N.land_spec.
  destruct (N.lt_ge_cases m k) as [Hm|Hm].
  - now rewrite N.shiftl_spec_low.
  - destruct (N.eq_dec b 0) as [->|Hb0]; [now rewrite N.bits_0, andb_false_r|].
    rewrite (N.bits_above_log2 b m), andb_false_r; [reflexivity|].
    apply N.lt_le_trans with k; [|exact Hm].
    apply N.log2_lt_pow2; lia.
Qed.

Lemma lor_shiftl_low a b k : b < 2 ^ k -> N.lor (N.shiftl a k) b = a * 2 ^ k + b.
Proof.
  intros Hb. rewrite <- N.lxor_lor, <- N.add_nocarry_lxor by now apply land_shiftl_low.
  now rewrite N.shiftl_mul_pow2.
Qed.

(** The two halves of a surrogate pair, as the encoder computes them. *)
Lemma surrogates_of n :
  n < 0x100000 ->
  N.lor 0xd800 (N.land (N.shiftr n 10) 0x3ff) = 0xd800 + n / 1024 /\
  N.lor 0xdc00 (N.land n 0x3ff) = 0xdc00 + n mod 1024.
Proof.
  intros Hn.
  change 0x3ff with (N.ones 10). rewrite !N.land_ones, N.shiftr_div_pow2.
  change 0xd800 with (N.shiftl 54 10). change 0xdc00 with (N.shiftl 55 10).
  change (2 ^ 10) with 1024.
  rewrite !lor_shiftl_low by (change (2 ^ 10) with 1024; lia).
  change (2 ^ 10) with 1024. rewrite !N.shiftl_mul_pow2. change (2 ^ 10) with 1024. lia.
Qed.

Lemma join_surrogates a b :
  a < 1024 -> b < 1024 ->
  0x10000 + N.lor (N.shiftl (0xd800 + a - 0xd800) 10) (0xdc00 + b - 0xdc00)
  = 0x10000 + (a * 1024 + b).
Proof.
  intros Ha Hb. replace (0xd800 + a - 0xd800) with a by lia.
  replace (0xdc00 + b - 0xdc00) with b by lia.
  now rewrite lor_shiftl_low by (change (2 ^ 10) with 1024; lia).
Qed.

Lemma pmap_cons_ok {A} (x : A) (r : pres (list A)) l rest :
  r = POk l rest -> pmap (cons x) r = POk (x :: l) rest.
Proof. now intros ->. Qed.

(** One character: whatever follows, the scanner reads back an escaped
    scalar value and goes on with the rest. *)
Lemma scan_chunks_escape_char c tl n :
  scalar c ->
  scan_chunks (S n) (escape_char c ++ tl) = pmap (cons c) (scan_chunks n tl).
Proof.
  intros [Hc Hs]. unfold escape_char.
  destruct (N.eqb_spec c 92) as [->|?]; [reflexivity|].
  destruct (N.eqb_spec c 34) as [->|?]; [reflexivity|].
  destruct (N.eqb_spec c 8) as [->|?]; [reflexivity|].
  destruct (N.eqb_spec c 12) as [->|?]; [reflexivity|].
  destruct (N.eqb_spec c 10) as [->|?]; [reflexivity|].
  destruct (N.eqb_spec c 13) as [->|?]; [reflexivity|].
  destruct (N.eqb_spec c 9) as [->|?]; [reflexivity|].
  assert (Hsingle : c < 0x10000 -> ~ (32 <= c <= 126) ->
            scan_chunks (S n) (u_escape c ++ tl) = pmap (cons c) (scan_chunks n tl)).
  { intros Hlt Hout.
    destruct (decode_u_escape c tl) as (t & -> & Ht); [lia|].
    cbn [scan_chunks]. change (92 =? 34) with false. change (92 =? 92) with true.
    change (ch "u" =? ch "u") with true. cbv iota. rewrite Ht.
    cmp; reflexivity. }
  destruct (N.leb_spec 32 c); cbn [andb].
  1: destruct (N.leb_spec c 126); cbn [andb].
  - cbn [scan_chunks app]. cmp; reflexivity.
  - destruct (N.ltb_spec c 0x10000); [apply Hsingle; lia|].
    destruct (surrogates_of (c - 0x10000)) as [-> ->]; [lia|].
    set (a := (c - 0x10000) / 1024). set (b := (c - 0x10000) mod 1024).
    assert (Ha : a < 1024) by (subst a; lia).
    assert (Hb : b < 1024) by (subst b; lia).
    assert (Hab : 0x10000 + (a * 1024 + b) = c) by (subst a b; lia).
    rewrite <- app_assoc.
    destruct (decode_u_escape (0xd800 + a) (u_escape (0xdc00 + b) ++ tl)) as (t & -> & Ht); [lia|].
    destruct (decode_u_escape (0xdc00 + b) tl) as (t' & Et' & Ht'); [lia|].
    rewrite Et' in Ht.
    cbn [scan_chunks]. change (92 =? 34) with false. change (92 =? 92) with true.
    change (ch "u" =? ch "u") with true. cbv iota. rewrite Ht.
    replace ((0xd800 <=? 0xd800 + a) && (0xd800 + a <=? 0xdbff)) with true by (symmetry; cmp).
    cbv iota. change (92 =? 92) with true. change (ch "u" =? ch "u") with true.
    cbn [andb]. cbv iota. rewrite Ht'.
    replace ((0xdc00 <=? 0xdc00 + b) && (0xdc00 + b <=? 0xdfff)) with true by (symmetry; cmp).
    rewrite join_surrogates, Hab by assumption. reflexivity.
  - destruct (N.ltb_spec c 0x10000); [apply Hsingle; lia|lia].
Qed.

Lemma escape_char_nonempty c : (1 <= length (escape_char c))%nat.
Proof.
  unfold escape_char.
  repeat match goal with |- context [if ?b then _ else _] => destruct b end;
    cbn; lia.
Qed.

Lemma length_flat_map_escape s : (length s <= length (flat_map escape_char s))%nat.
Proof.
  induction s as [|c s IH]; [reflexivity|].
  cbn [flat_map]. rewrite length_app. pose proof (escape_char_nonempty c). cbn [length]. lia.
Qed.

Lemma scan_chunks_escaped s rest n :
  Forall scalar s -> (length s < n)%nat ->
  scan_chunks n (flat_map escape_char s ++ 34 :: rest) = POk s rest.
Proof.
  intros Hs. revert n. induction Hs as [|c s Hc Hs IH]; intros n Hn.
  - destruct n; [lia|]. reflexivity.
  - destruct n; [cbn in Hn; lia|].
    cbn [flat_map]. rewrite <- app_assoc, scan_chunks_escape_char by assumption.
    rewrite IH by (cbn in Hn; lia). reflexivity.
Qed.

(** A string written by the encoder, wherever it stands in the text, is
    read back by [scanstring] once the opening quote is consumed. *)
Lemma scanstring_encoded s rest :
  Forall scalar s ->
  exists t, encode_basestring_ascii s ++ rest = 34 :: t /\ scanstring t = POk s rest.
Proof.
  intros Hs. exists (flat_map escape_char s ++ 34 :: rest). split.
  - unfold encode_basestring_ascii. cbn [app]. now rewrite <- app_assoc.
  - unfold scanstring. apply scan_chunks_escaped; [assumption|].
    rewrite length_app. pose proof (length_flat_map_escape s). cbn [length]. lia.
Qed.

Lemma scalarb_spec c : scalarb c = true <-> scalar c.
Proof.
  unfold scalarb, scalar. rewrite andb_true_iff, negb_true_iff, andb_false_iff.
  rewrite N.ltb_lt, !N.leb_gt. lia.
Qed.

Lemma forallb_scalar s : forallb scalarb s = true -> Forall scalar s.
Proof.
  rewrite forallb_forall, List.Forall_forall. intros H c Hc. apply scalarb_spec, H, Hc.
Qed.

Lemma dumps_arr_cons x l : dumps (Arr (x :: l)) = ch "[" :: dumps x ++ arr_rest l.
Proof. reflexivity. Qed.

Lemma dumps_obj_cons kv m :
  dumps (Obj (kv :: m)) =
  ch "{" :: encode_basestring_ascii (fst kv) ++ py ": " ++ dumps (snd kv) ++ obj_rest m.
Proof. reflexivity. Qed.

(** No value is written with a leading blank or closing bracket. *)
Lemma dumps_head v :
  exists c t, dumps v = c :: t /\ is_ws c = false /\
              (c =? ch "]") = false /\ (c =? ch "}") = false.
Proof.
  destruct v as [|[]|s|[|x l]|[|kv m]]; cbn; eauto 10.
Qed.

Lemma skip_ws_dumps v r : skip_ws (dumps v ++ r) = dumps v ++ r.
Proof.
  destruct (dumps_head v) as (c & t & -> & Hws & _). cbn. now rewrite Hws.
Qed.

Lemma skip_ws_space s : skip_ws (32 :: s) = skip_ws s.
Proof. reflexivity. Qed.

Lemma starts_with_app p r : starts_with p (p ++ r) = Some r.
Proof.
  unfold starts_with. rewrite take_app_length, drop_app_length.
  now rewrite bool_decide_eq_true_2.
Qed.

Lemma array_items_dumps l :
  Forall reads l -> forall x, reads x -> forall fuel rest,
  (length (dumps x ++ arr_rest l) <= fuel)%nat ->
  array_items fuel (dumps x ++ arr_rest l ++ rest) = POk (x :: l) rest.
Proof.
  induction 1 as [|y l Hy Hl IH]; intros x Hx fuel rest Hfuel;
    rewrite length_app in Hfuel;
    (destruct fuel as [|n]; [destruct (dumps_head x) as (? & ? & E & _); rewrite E in Hfuel; cbn in Hfuel; lia|]);
    cbn [array_items]; rewrite Hx by (cbn in Hfuel; lia).
  - reflexivity.
  - cbn [arr_rest] in *. fold arr_rest in *.
    change (py ", " ++ dumps y ++ arr_rest l) with (ch "," :: 32 :: dumps y ++ arr_rest l) in *.
    cbn [app skip_ws]. change (is_ws (ch ",")) with false. cbv iota.
    change (ch "," =? ch "]") with false. change (ch "," =? ch ",") with true. cbv iota.
    rewrite skip_ws_space, <- app_assoc, skip_ws_dumps.
    rewrite IH; [reflexivity|assumption|].
    rewrite length_app. cbn [length] in Hfuel. rewrite length_app in Hfuel.
    destruct (dumps_head x) as (? & ? & E & _); rewrite E in Hfuel; cbn in Hfuel. lia.
Qed.

Lemma length_encode_basestring_ascii k : (2 <= length (encode_basestring_ascii k))%nat.
Proof. unfold encode_basestring_ascii. cbn [length]. rewrite length_app. cbn. lia. Qed.

Lemma object_items_dumps m :
  Forall (fun kv => Forall scalar (fst kv) /\ reads (snd kv)) m ->
  forall k v, Forall scalar k -> reads v -> forall fuel rest,
  (length (encode_basestring_ascii k ++ py ": " ++ dumps v ++ obj_rest m) <= fuel)%nat ->
  object_items fuel (encode_basestring_ascii k ++ py ": " ++ dumps v ++ obj_rest m ++ rest)
  = POk ((k, v) :: m) rest.
Proof.
  induction 1 as [|[k' v'] m [Hk' Hv'] Hm IH]; intros k v Hk Hv fuel rest Hfuel;
    rewrite !length_app in Hfuel; pose proof (length_encode_basestring_ascii k) as Hlen;
    (destruct fuel as [|n]; [lia|]);
    match goal with |- object_items _ (_ ++ ?r) = _ =>
      destruct (scanstring_encoded k r Hk) as (t & -> & Ht) end;
    cbn [object_items]; change (34 =? 34) with true; cbv iota; rewrite Ht;
    change (py ": " ++ ?r) with (ch ":" :: 32 :: r);
    cbn [skip_ws]; change (is_ws (ch ":")) with false; cbv iota;
    change (ch ":" =? ch ":") with true; cbv iota;
    rewrite skip_ws_space, skip_ws_dumps, Hv by (cbn [length] in Hfuel; lia).
  - reflexivity.
  - cbn [obj_rest fst snd] in *. fold obj_rest in *.
    change (py ", " ++ ?r) with (ch "," :: 32 :: r) in *.
    cbn [app skip_ws]. change (is_ws (ch ",")) with false. cbv iota.
    change (ch "," =? ch "}") with false. change (ch "," =? ch ",") with true. cbv iota.
    rewrite skip_ws_space.
    destruct (scanstring_encoded k' (py ": " ++ dumps v' ++ obj_rest m ++ rest) Hk')
      as (t' & Et' & _).
    rewrite <- !app_assoc. rewrite Et'. cbn [skip_ws]. change (is_ws 34) with false. cbv iota.
    rewrite <- Et'.
    rewrite IH; [reflexivity|assumption..|].
    rewrite !length_app. cbn [length] in Hfuel. rewrite !length_app in Hfuel. lia.
Qed.

Lemma dict_set_fresh {V} k (v : V) m :
  k ∉ map fst m -> dict_set k v m = m ++ [(k, v)].
Proof.
  induction m as [|[k' v'] m IH]; intros Hk; [reflexivity|].
  cbn [dict_set]. unfold pystr_eqb. rewrite bool_decide_eq_false_2.
  - cbn [app]. f_equal. apply IH. intros Hin. apply Hk. cbn. now right.
  - intros ->. apply Hk. cbn. now left.
Qed.

Lemma dict_of_pairs_nodup {V} (m : list (pystr * V)) :
  NoDup (map fst m) -> dict_of_pairs m = m.
Proof.
  unfold dict_of_pairs. change m with ([] ++ m) at 1 3.
  generalize (@nil (pystr * V)) as acc. induction m as [|[k v] m IH]; intros acc Hnd.
  - now rewrite app_nil_r.
  - cbn [fold_left fst snd]. rewrite map_app in Hnd. cbn [map fst] in Hnd.
    assert (Hk : k ∉ map fst acc).
    { apply NoDup_app in Hnd as (_ & Hdisj & _). intros Hin. apply (Hdisj k Hin). now left. }
    rewrite dict_set_fresh by exact Hk.
    replace (acc ++ (k, v) :: m) with ((acc ++ [(k, v)]) ++ m) by now rewrite <- app_assoc.
    apply IH. rewrite map_app, map_app. cbn [map fst]. now rewrite <- app_assoc.
Qed.

(** [scan_once] reads back what [dumps] wrote, with any text after it. *)
Lemma scan_once_dumps v : wf v -> reads v.
Proof.
  unfold wf. induction v as [|b|s|l IH|m IH] using value_ind; intros Hwf fuel rest Hfuel.
  - destruct fuel; [cbn in Hfuel; lia|]. reflexivity.
  - destruct fuel; [destruct b; cbn in Hfuel; lia|]. destruct b; reflexivity.
  - cbn [wfb] in Hwf. apply forallb_scalar in Hwf.
    cbn [dumps] in *. pose proof (length_encode_basestring_ascii s).
    destruct fuel; [lia|].
    destruct (scanstring_encoded s rest Hwf) as (t & -> & Ht).
    cbn [scan_once]. change (34 =? 34) with true. cbv iota. now rewrite Ht.
  - cbn [wfb] in Hwf. rewrite forallb_forall in Hwf.
    destruct l as [|x l]; [destruct fuel; [cbn in Hfuel; lia|reflexivity]|].
    rewrite dumps_arr_cons in *. cbn [length] in Hfuel.
    destruct fuel as [|n]; [lia|].
    apply Forall_cons_1 in IH as [IHx IHl].
    assert (Hx : reads x) by (apply IHx, Hwf; now left).
    assert (Hl : Forall reads l).
    { apply List.Forall_forall. intros y Hy. rewrite List.Forall_forall in IHl.
      apply IHl; [exact Hy|]. apply Hwf. now right. }
    pose proof (array_items_dumps l Hl x Hx n rest ltac:(lia)) as Hitems.
    destruct (dumps_head x) as (c & t & E & Hws & Hb & _).
    cbn [app scan_once]. change (ch "[" =? 34) with false. change (ch "[" =? ch "{") with false.
    change (ch "[" =? ch "[") with true. cbv iota.
    rewrite <- app_assoc, skip_ws_dumps, E. cbn [app]. rewrite Hb. rewrite E in Hitems.
    cbn [app] in Hitems. now rewrite Hitems.
  - cbn [wfb] in Hwf. apply andb_true_iff in Hwf as [Hnd Hwf].
    apply bool_decide_eq_true_1 in Hnd. rewrite forallb_forall in Hwf.
    destruct m as [|[k v] m]; [destruct fuel; [cbn in Hfuel; lia|reflexivity]|].
    rewrite dumps_obj_cons in *. cbn [length fst snd] in *.
    destruct fuel as [|n]; [lia|].
    apply Forall_cons_1 in IH as [IHx IHl]. cbn [snd] in IHx.
    assert (Hkv : Forall scalar k /\ reads v).
    { specialize (Hwf (k, v) (or_introl eq_refl)). cbn [fst snd] in Hwf.
      apply andb_true_iff in Hwf as [Hk Hv]. split; [now apply forallb_scalar|now apply IHx]. }
    assert (Hm : Forall (fun kv => Forall scalar (fst kv) /\ reads (snd kv)) m).
    { apply List.Forall_forall. intros kv Hin. rewrite List.Forall_forall in IHl.
      specialize (Hwf kv (or_intror Hin)). apply andb_true_iff in Hwf as [Hk Hv].
      split; [now apply forallb_scalar|now apply IHl]. }
    destruct Hkv as [Hk Hv].
    pose proof (object_items_dumps m Hm k v Hk Hv n rest ltac:(lia)) as Hitems.
    destruct (scanstring_encoded k (py ": " ++ dumps v ++ obj_rest m ++ rest) Hk) as (t & Et & _).
    cbn [app scan_once]. change (ch "{" =? 34) with false. change (ch "{" =? ch "{") with true.
    cbv iota. rewrite <- !app_assoc. rewrite Et in *. cbn [skip_ws]. change (is_ws 34) with false.
    cbv iota. change (34 =? ch "}") with false. cbv iota.
    rewrite Hitems. cbn [pmap]. now rewrite dict_of_pairs_nodup.
Qed.

(** Round trip of the codec: [json.loads(json.dumps(v)) == v]. *)
Lemma loads_dumps v : wf v -> loads (dumps v) = Ok v.
Proof.
  intros Hwf. unfold loads, decode. rewrite <- (app_nil_r (dumps v)) at 2.
  rewrite skip_ws_dumps, (scan_once_dumps v Hwf) by lia. reflexivity.
Qed.

(** *** The decoder never runs out of fuel *)

Lemma skip_ws_length s : (length (skip_ws s) <= length s)%nat.
Proof.
  induction s as [|c s IH]; [reflexivity|]. cbn [skip_ws].
  destruct (is_ws c); cbn [length]; lia.
Qed.

Lemma decode_uXXXX_length s u r :
  decode_uXXXX s = Some (u, r) -> length s = (4 + length r)%nat.
Proof.
  destruct s as [|a [|b [|c [|d rest]]]]; try discriminate. cbn [decode_uXXXX].
  destruct (hex_val a), (hex_val b), (hex_val c), (hex_val d); try discriminate.
  now intros [= _ <-].
Qed.

Lemma finishes_pmap {A B} (f : A -> B) (r : pres A) s s' :
  finishes r s' -> (length s' <= length s)%nat -> finishes (pmap f r) s.
Proof. destruct r; cbn; lia. Qed.

Lemma scan_chunks_finishes n : forall s, (length s < n)%nat -> finishes (scan_chunks n s) s.
Proof.
  induction n as [|n IH]; intros s Hn; [lia|].
  destruct s as [|c t]; [exact I|]. cbn [scan_chunks length] in *.
  assert (Hstep : forall x s', (length s' <= length t)%nat ->
            finishes (pmap (cons x) (scan_chunks n s')) (c :: t)).
  { intros x s' Hs'. apply (finishes_pmap _ _ _ s'); [apply IH; lia|cbn [length]; lia]. }
  destruct (c =? 34); [cbn; lia|].
  destruct (c =? 92).
  - destruct t as [|esc t']; [exact I|].
    destruct (esc =? ch "u").
    + destruct (decode_uXXXX t') as [[uni t2]|] eqn:Hu; [|exact I].
      apply decode_uXXXX_length in Hu. cbn [length] in *.
      destruct ((0xd800 <=? uni) && (uni <=? 0xdbff)); [|apply Hstep; lia].
      destruct t2 as [|b [|u t3]]; try (apply Hstep; cbn [length] in *; lia).
      destruct ((b =? 92) && (u =? ch "u")); [|apply Hstep; cbn [length] in *; lia].
      destruct (decode_uXXXX t3) as [[uni2 t4]|] eqn:Hu2; [|exact I].
      apply decode_uXXXX_length in Hu2. cbn [length] in *.
      destruct ((0xdc00 <=? uni2) && (uni2 <=? 0xdfff)); apply Hstep; cbn [length]; lia.
    + destruct (backslash_tbl esc); [|exact I]. apply Hstep. cbn [length]. lia.
  - destruct (c <? 32); [exact I|]. apply Hstep. lia.
Qed.

Lemma scanstring_finishes s : s <> [] -> finishes (scanstring s) s.
Proof. intros _. apply scan_chunks_finishes. lia. Qed.

Lemma starts_with_length p s r :
  starts_with p s = Some r -> (length p + length r = length s)%nat.
Proof.
  unfold starts_with. case_bool_decide as Hp; [|discriminate]. intros [= <-].
  rewrite length_drop. assert (Hl : length (take (length p) s) = length p) by now rewrite Hp.
  rewrite length_take in Hl. lia.
Qed.

Lemma scan_finishes fuel :
  (forall s, (2 * length s < fuel)%nat -> finishes (scan_once fuel s) s) /\
  (forall s, (2 * length s + 1 < fuel)%nat -> s <> [] -> finishes (array_items fuel s) s) /\
  (forall s, (2 * length s + 1 < fuel)%nat -> s <> [] -> finishes (object_items fuel s) s).
Proof.
  induction fuel as [|n (IHv & IHa & IHo)]; [repeat split; intros; lia|].
  assert (Hafter : forall (r : pystr) c r', skip_ws r = c :: r' ->
            (length (skip_ws r') + 1 <= length r)%nat).
  { intros r c r' Hr. pose proof (skip_ws_length r). pose proof (skip_ws_length r').
    rewrite Hr in *. cbn [length] in *. lia. }
  split; [|split].
  - intros [|c t] Hn; [exact I|]. cbn [scan_once length] in *.
    destruct (c =? 34).
    { destruct t as [|c' t']; [exact I|].
      apply (finishes_pmap _ _ _ (c' :: t')); [now apply scanstring_finishes|cbn [length]; lia]. }
    destruct (c =? ch "{").
    { destruct (skip_ws t) as [|c' t'] eqn:Ht; [exact I|].
      pose proof (skip_ws_length t) as Hl. rewrite Ht in Hl. cbn [length] in Hl.
      destruct (c' =? ch "}"); [cbn; lia|].
      apply (finishes_pmap _ _ _ (c' :: t')); [|cbn [length]; lia].
      apply IHo; [cbn [length]; lia|discriminate]. }
    destruct (c =? ch "[").
    { destruct (skip_ws t) as [|c' t'] eqn:Ht; [exact I|].
      pose proof (skip_ws_length t) as Hl. rewrite Ht in Hl. cbn [length] in Hl.
      destruct (c' =? ch "]"); [cbn; lia|].
      apply (finishes_pmap _ _ _ (c' :: t')); [|cbn [length]; lia].
      apply IHa; [cbn [length]; lia|discriminate]. }
    destruct (starts_with (py "null") (c :: t)) as [r|] eqn:H1.
    { apply starts_with_length in H1. cbn in *. lia. }
    destruct (starts_with (py "true") (c :: t)) as [r|] eqn:H2.
    { apply starts_with_length in H2. cbn in *. lia. }
    destruct (starts_with (py "false") (c :: t)) as [r|] eqn:H3; [|exact I].
    apply starts_with_length in H3. cbn in *. lia.
  - intros s Hn Hs. cbn [array_items].
    pose proof (IHv s ltac:(lia)) as Hv.
    destruct (scan_once n s) as [v r| |]; [|exact I|exact Hv]. cbn [finishes] in Hv.
    destruct (skip_ws r) as [|c r'] eqn:Hr; [exact I|].
    pose proof (Hafter r c r' Hr) as Hl.
    pose proof (skip_ws_length r) as Hl'. rewrite Hr in Hl'. cbn [length] in Hl'.
    destruct (c =? ch "]"); [cbn; lia|].
    destruct (c =? ch ","); [|exact I].
    destruct (skip_ws r') as [|c2 r2] eqn:Hr2.
    { destruct n as [|[|n']]; [cbn [length] in *; lia|cbn [length] in *; lia|]. cbn. exact I. }
    apply (finishes_pmap _ _ _ (c2 :: r2)); [|cbn [length] in *; lia].
    apply IHa; [cbn [length] in *; lia|discriminate].
  - intros [|c t] Hn Hs; [congruence|]. cbn [object_items length] in *.
    destruct (c =? 34); [|exact I].
    destruct t as [|c0 t0].
    { cbn. exact I. }
    pose proof (scanstring_finishes (c0 :: t0) ltac:(discriminate)) as Hk.
    destruct (scanstring (c0 :: t0)) as [key r| |]; [|exact I|exact Hk]. cbn [finishes] in Hk.
    destruct (skip_ws r) as [|c2 r2] eqn:Hr; [exact I|].
    pose proof (Hafter r c2 r2 Hr) as Hl.
    destruct (c2 =? ch ":"); [|exact I].
    pose proof (IHv (skip_ws r2) ltac:(cbn [length] in *; lia)) as Hv.
    destruct (scan_once n (skip_ws r2)) as [v r3| |]; [|exact I|exact Hv]. cbn [finishes] in Hv.
    destruct (skip_ws r3) as [|c3 r4] eqn:Hr3; [exact I|].
    pose proof (Hafter r3 c3 r4 Hr3) as Hl3.
    pose proof (skip_ws_length r3) as Hl3'. rewrite Hr3 in Hl3'. cbn [length] in *.
    destruct (c3 =? ch "}"); [cbn; lia|].
    destruct (c3 =? ch ","); [|exact I].
    destruct (skip_ws r4) as [|c5 r5] eqn:Hr5.
    { destruct n as [|[|n']]; [cbn [length] in *; lia|cbn [length] in *; lia|]. cbn. exact I. }
    apply (finishes_pmap _ _ _ (c5 :: r5)); [|cbn [length] in *; lia].
    apply IHo; [cbn [length] in *; lia|discriminate].
Qed.

(** [json.loads] returns or raises: the fuel of [decode] is enough for
    every text. *)
Lemma loads_total s : loads s <> OutOfFuel.
Proof.
  unfold loads, decode.
  pose proof (proj1 (scan_finishes (S (2 * length s))) (skip_ws s)) as H.
  pose proof (skip_ws_length s).
  destruct (scan_once (S (2 * length s)) (skip_ws s)) as [v r| |].
  - destruct (skip_ws r); discriminate.
  - discriminate.
  - exfalso. apply H. lia.
Qed.
End JsonFacts.

(** * Facts about paths *)
Module OsFacts.
Import Os.

Lemma drop_while_suffix {A} (f : A -> bool) l : exists pre, l = pre ++ drop_while f l.
Proof.
  induction l as [|x l (pre & IH)]; [now exists []|]. cbn [drop_while].
  destruct (f x); [|now exists []]. exists (x :: pre). cbn [app]. now f_equal.
Qed.

Lemma length_list_ascii_of_string p : length (list_ascii_of_string p) = String.length p.
Proof. induction p as [|a p IH]; [reflexivity|]. cbn. now f_equal. Qed.

(** The directory of a path is a beginning of the path. *)
Lemma dirname_prefix p :
  exists rest, list_ascii_of_string p = list_ascii_of_string (dirname p) ++ rest.
Proof.
  unfold dirname. set (l := list_ascii_of_string p).
  destruct (drop_while_suffix (fun a => negb (is_slash a)) (rev l)) as (pre & Hpre).
  set (head_rev := drop_while (fun a => negb (is_slash a)) (rev l)) in *.
  assert (Hl : l = rev head_rev ++ rev pre).
  { rewrite <- (rev_involutive l), Hpre, rev_app_distr. reflexivity. }
  destruct (forallb is_slash head_rev).
  - rewrite list_ascii_of_string_of_list_ascii. now exists (rev pre).
  - destruct (drop_while_suffix is_slash head_rev) as (pre' & Hpre').
    rewrite list_ascii_of_string_of_list_ascii. exists (rev pre' ++ rev pre).
    rewrite Hl at 1. rewrite Hpre' at 1. rewrite rev_app_distr, <- app_assoc. reflexivity.
Qed.

Lemma dirname_shorter p :
  dirname p <> p -> (String.length (dirname p) < String.length p)%nat.
Proof.
  intros Hne. destruct (dirname_prefix p) as (rest & Hrest).
  rewrite <- !length_list_ascii_of_string.
  assert (Hlen : length (list_ascii_of_string p)
                 = (length (list_ascii_of_string (dirname p)) + length rest)%nat)
    by now rewrite Hrest at 1; rewrite length_app.
  destruct rest as [|a rest]; [|cbn [length] in Hlen; lia].
  exfalso. apply Hne. rewrite app_nil_r in Hrest.
  apply (f_equal string_of_list_ascii) in Hrest.
  rewrite !string_of_list_ascii_of_string in Hrest. now symmetry.
Qed.

(** [makedirs] comes to an end on the fuel [dump] gives it. *)
Lemma makedirs_total n : forall name w,
  (String.length name < n)%nat -> fst (makedirs n name w) <> OutOfFuel.
Proof.
  induction n as [|n IH]; intros name w Hn; [lia|].
  assert (Hmkdir : forall w1,
            fst (try_except (mkdir name)
                   (fun e w => if isdir (fs w) name then (Ok tt, w) else (Raise e, w)) w1)
            <> OutOfFuel).
  { intros w1. unfold try_except, mkdir.
    destruct (_ || _ || _); cbn [fst]; [|discriminate].
    destruct (isdir (fs w1) name); discriminate. }
  cbn [makedirs]. unfold bind.
  destruct (negb (String.eqb (dirname name) EmptyString)
            && negb (String.eqb (dirname name) name)
            && negb (path_exists (fs w) (dirname name))) eqn:Hc; [|apply Hmkdir].
  apply andb_true_iff in Hc as [Hc _]. apply andb_true_iff in Hc as [_ Hd].
  apply negb_true_iff, String.eqb_neq, dirname_shorter in Hd.
  specialize (IH (dirname name) w ltac:(lia)).
  destruct (makedirs n (dirname name) w) as [[[]|e|] w1]; cbn [fst] in *;
    [apply Hmkdir|discriminate|congruence].
Qed.
End OsFacts.

(** * Facts about the lenient selector *)
Module UserAgentFacts.
Import UserAgent Notions.

Section Facts.
Context (E : env).

(** The fetch loop is over within three rounds. *)
Lemma fetch_loop_total b : exists r, fetch_loop E 3 b 0 = Ok r.
Proof.
  unfold fetch_loop, call_on_error.
  change (Z.to_nat 0) with 0%nat. change (Z.to_nat (0 + 1)) with 1%nat.
  change (Z.to_nat (0 + 1 + 1)) with 2%nat.
  change (0 + 1 =? 3)%Z with false. change (0 + 1 + 1 =? 3)%Z with false.
  change (0 + 1 + 1 + 1 =? 3)%Z with true. cbv iota.
  destruct (pages E b 0); eauto.
  destruct (pages E b 1); eauto.
  destruct (pages E b 2); eauto.
Qed.

(** [parse] returns, or it raises [AttributeError] over a text of which
    no tree was made. *)
Lemma parse_cases b : (exists r, parse E b = Ok r) \/ parse E b = Raise AttributeError.
Proof.
  unfold parse. destruct (fetch_loop_total b) as [[[|nodes]|] ->]; eauto.
  destruct (take 50 nodes); eauto.
Qed.

Lemma parse_total b : parse E b <> OutOfFuel.
Proof. destruct (parse_cases b) as [[r ->]| ->]; discriminate. Qed.

(** A fetch that has the text nodes of a tree in hand. *)
Lemma parse_tree b nodes :
  fetch_loop E 3 b 0 = Ok (Some (Tree nodes)) -> parse E b = Ok (versions_of nodes).
Proof. unfold parse, versions_of. intros ->. now destruct (take 50 nodes). Qed.

Lemma gather_cases bs :
  (exists rs, gather E bs = Ok rs /\
              Forall2 (fun b br => fst br = b /\ parse E b = Ok (snd br)) bs rs) \/
  (gather E bs = Raise AttributeError /\
   exists b, b ∈ bs /\ parse E b = Raise AttributeError).
Proof.
  induction bs as [|b bs IH].
  - left. exists []. split; [reflexivity|constructor].
  - cbn [gather]. destruct (parse_cases b) as [[r Hr]|Hr]; rewrite Hr.
    + destruct IH as [(rs & Hrs & Hall)|(Hrs & b' & Hin & Hb')]; rewrite Hrs.
      * left. exists ((b, r) :: rs). split; [reflexivity|].
        constructor; [split; [reflexivity|exact Hr]|exact Hall].
      * right. split; [reflexivity|]. exists b'. split; [now right|exact Hb'].
    + right. split; [reflexivity|]. exists b. split; [now left|exact Hr].
Qed.

Lemma collect_none results : forall acc,
  Exists (fun br => snd br = None) results -> collect results acc = Raise (SystemExit 1).
Proof.
  induction results as [|[b [versions|]] results IH]; intros acc Hex.
  - inversion Hex.
  - cbn [collect]. apply IH. inversion Hex as [? ? Hhd|]; [discriminate Hhd|assumption].
  - reflexivity.
Qed.

(** The way [harvest] ends when one of the fetches came back with the
    failure marker: in [sys.exit(1)], unless a page of another browser left
    [parse] with [AttributeError], which [gather] hands on first. *)
Lemma harvest_aborts b :
  b ∈ BROWSERS -> parse E b = Ok None ->
  harvest E = Raise (SystemExit 1) \/
  (harvest E = Raise AttributeError /\
   exists b', b' ∈ BROWSERS /\ parse E b' = Raise AttributeError).
Proof.
  intros Hb Hnone. unfold harvest.
  destruct (gather_cases BROWSERS) as [(rs & -> & Hall)|(-> & Hblank)];
    [left|right; split; [reflexivity|exact Hblank]].
  assert (Hex : Exists (fun br => snd br = None) rs).
  { clear -Hb Hnone Hall. induction Hall as [|b' br bs rs [Hfst Hsnd] Hall IH].
    - inversion Hb.
    - apply elem_of_cons in Hb as [->|Hb].
      + left. rewrite Hnone in Hsnd. now inversion Hsnd.
      + right. now apply IH. }
  destruct rs as [|br rs]; [reflexivity|].
  now rewrite collect_none.
Qed.

Lemma dump_aborts b cache_path w :
  b ∈ BROWSERS -> parse E b = Ok None ->
  dump E cache_path w = (Raise (SystemExit 1), w) \/
  (dump E cache_path w = (Raise AttributeError, w) /\
   exists b', b' ∈ BROWSERS /\ parse E b' = Raise AttributeError).
Proof.
  intros Hb Hnone. unfold dump, bind, lift.
  destruct (harvest_aborts b Hb Hnone) as [->|(-> & Hblank)]; [now left|right].
  split; [reflexivity|exact Hblank].
Qed.

Lemma fetch_loop_3 b :
  fetch_loop E 3 b 0 =
  match pages E b 0 with
  | Page nodes => Ok (Some (Tree nodes))
  | Blank => Ok (Some NoTree)
  | Failed => Ok None
  | Timeout =>
      match pages E b 1 with
      | Page nodes => Ok (Some (Tree nodes))
      | Blank => Ok (Some NoTree)
      | Failed => Ok None
      | Timeout =>
          match pages E b 2 with
          | Page nodes => Ok (Some (Tree nodes))
          | Blank => Ok (Some NoTree)
          | _ => Ok None
          end
      end
  end.
Proof. reflexivity. Qed.

Lemma parse_page_after_timeouts b k nodes :
  (k < 3)%nat ->
  (forall i, (i < k)%nat -> pages E b i = Timeout) ->
  pages E b k = Page nodes ->
  parse E b = Ok (versions_of nodes).
Proof.
  intros Hk Hto Hpage. unfold parse. rewrite fetch_loop_3.
  destruct k as [|[|[|k]]]; try lia.
  - rewrite Hpage. unfold versions_of. now destruct (take 50 nodes).
  - rewrite (Hto 0%nat), Hpage by lia. unfold versions_of. now destruct (take 50 nodes).
  - rewrite (Hto 0%nat), (Hto 1%nat), Hpage by lia. unfold versions_of.
    now destruct (take 50 nodes).
Qed.

Lemma parse_failed_after_timeouts b k :
  (k < 3)%nat ->
  (forall i, (i < k)%nat -> pages E b i = Timeout) ->
  pages E b k = Failed ->
  parse E b = Ok None.
Proof.
  intros Hk Hto Hfail. unfold parse. rewrite fetch_loop_3.
  destruct k as [|[|[|k]]]; try lia.
  - now rewrite Hfail.
  - now rewrite (Hto 0%nat), Hfail by lia.
  - now rewrite (Hto 0%nat), (Hto 1%nat), Hfail by lia.
Qed.

Lemma parse_three_timeouts b :
  (forall i, (i < 3)%nat -> pages E b i = Timeout) -> parse E b = Ok None.
Proof.
  intros Hto. unfold parse. rewrite fetch_loop_3.
  now rewrite (Hto 0%nat), (Hto 1%nat), (Hto 2%nat) by lia.
Qed.

(** [parse] returns its failure marker when the loop ends without a page
    or the page has no entry, and only then. *)
Lemma parse_none_iff b :
  fetch_loop E 3 b 0 = Ok None \/ fetch_loop E 3 b 0 = Ok (Some (Tree [])) <->
  parse E b = Ok None.
Proof.
  unfold parse. split.
  - intros [->| ->]; reflexivity.
  - destruct (fetch_loop E 3 b 0) as [[[|nodes]|]| |]; try discriminate; [|now left].
    destruct nodes as [|v nodes]; [now right|discriminate].
Qed.

(** [parse] raises when the loop ends with a text of which no tree was
    made, and only then. *)
Lemma parse_raises_iff b e :
  parse E b = Raise e <-> fetch_loop E 3 b 0 = Ok (Some NoTree) /\ e = AttributeError.
Proof.
  unfold parse. destruct (fetch_loop_total b) as [[[|nodes]|] ->].
  - split; [intros [= <-]; now split|intros [_ ->]; reflexivity].
  - split; [destruct (take 50 nodes); discriminate|intros [[=] _]].
  - split; [discriminate|intros [[=] _]].
Qed.

Lemma parse_bounded b versions :
  parse E b = Ok (Some versions) -> (0 < length versions <= 50)%nat.
Proof.
  unfold parse. destruct (fetch_loop E 3 b 0) as [[[|nodes]|]| |]; try discriminate.
  destruct (take 50 nodes) as [|v l] eqn:Et; [discriminate|].
  intros [= <-].
  assert (length (take 50 nodes) = length (v :: l)) as Hl by now rewrite Et.
  rewrite length_take in Hl. cbn [length] in *. lia.
Qed.

(** A cache that cannot be opened: the fixed string comes back and
    nothing is touched. *)
Lemma load_and_random_unreadable browser cache_path w :
  Os.isfile (fs w) cache_path = false ->
  load_and_random E browser cache_path w = (Ok (Json.Str FIXED_UA), w).
Proof.
  unfold load_and_random, Os.read_text, Os.isfile.
  destruct (fs w !! cache_path) as [[|data]|]; [reflexivity|discriminate|reflexivity].
Qed.

(** A cache that opens is decoded and subscripted outside the [try]. *)
Lemma load_and_random_readable browser cache_path w data :
  fs w !! cache_path = Some (File data) ->
  load_and_random E browser cache_path w =
  (match Json.loads data with
   | Ok v =>
       match subscript v (Json.Str browser) with
       | Ok versions => choice_value versions (rnd_int E)
       | Raise e => Raise e
       | OutOfFuel => OutOfFuel
       end
   | Raise e => Raise e
   | OutOfFuel => OutOfFuel
   end, log (EvRead cache_path) w).
Proof.
  intros Hf. unfold load_and_random, Os.read_text. now rewrite Hf.
Qed.

End Facts.
End UserAgentFacts.

(** * Facts about strings *)
Module StrFacts.

Lemma contains_spec needle hay :
  contains needle hay = true <-> exists a b, hay = a ++ needle ++ b.
Proof.
  split.
  - induction hay as [|c hay IH]; cbn [contains]; intros H.
    + rewrite orb_false_r in H. apply bool_decide_eq_true_1 in H.
      exists [], []. rewrite take_nil in H. now subst.
    + apply orb_true_iff in H as [H|H].
      * apply bool_decide_eq_true_1 in H. exists [], (drop (length needle) (c :: hay)).
        cbn [app]. rewrite <- H at 1. now rewrite take_drop.
      * destruct (IH H) as (a & b & ->). now exists (c :: a), b.
  - intros (a & b & ->). induction a as [|c a IH].
    + cbn [app]. destruct (needle ++ b) eqn:Eh; cbn [contains];
        rewrite <- Eh, take_app_length, bool_decide_eq_true_2; auto.
    + cbn [app contains]. rewrite IH. apply orb_true_r.
Qed.

Lemma lower_app a b : lower (a ++ b) = lower a ++ lower b.
Proof. apply map_app. Qed.

(** Lowering a string cannot hide the marker: it is in lower case already. *)
Lemma contains_more_lower s :
  contains (py "more") s = true -> contains (py "more") (lower s) = true.
Proof.
  rewrite !contains_spec. intros (a & b & ->).
  exists (lower a), (lower b). now rewrite !lower_app.
Qed.

Lemma scalar_py s : Forall scalar (py s).
Proof.
  unfold py. apply List.Forall_forall. intros c Hc. apply in_map_iff in Hc as (a & <- & _).
  pose proof (N_ascii_bounded a). unfold scalar. lia.
Qed.

Lemma forallb_scalarb_py s : forallb scalarb (py s) = true.
Proof.
  apply forallb_forall. intros c Hc. apply JsonFacts.scalarb_spec.
  pose proof (scalar_py s) as H. rewrite List.Forall_forall in H. now apply H.
Qed.

End StrFacts.

(** * Facts about the strict selector *)
Module UtilsFacts.
Import Utils Notions.

Section Facts.
Context (cfg : settings) (E : env).

Lemma get_loop_skip {A} (source : nat -> reply A) k : forall fuel attempt,
  (0 <= attempt)%Z -> (attempt + Z.of_nat k < HTTP_RETRIES cfg)%Z ->
  (forall i, (i < k)%nat -> source (Z.to_nat attempt + i)%nat = NetError) ->
  get_loop cfg source (k + fuel) attempt = get_loop cfg source fuel (attempt + Z.of_nat k).
Proof.
  induction k as [|k IH]; intros fuel attempt Hpos Hlt Herr.
  - cbn [Nat.add]. f_equal. lia.
  - cbn [Nat.add get_loop].
    replace (Z.to_nat (attempt + 1 - 1)) with (Z.to_nat attempt + 0)%nat by lia.
    rewrite Herr by lia.
    destruct (Z.eqb_spec (attempt + 1) (HTTP_RETRIES cfg)); [lia|].
    rewrite IH; [f_equal; lia|lia|lia|].
    intros i Hi. replace (Z.to_nat (attempt + 1) + i)%nat with (Z.to_nat attempt + S i)%nat by lia.
    apply Herr. lia.
Qed.

(** A body after [k] failed attempts, below the limit, is returned. *)
Lemma get_body_after_errors {A} (source : nat -> reply A) fuel k body :
  (Z.of_nat k < HTTP_RETRIES cfg)%Z -> (k < fuel)%nat ->
  (forall i, (i < k)%nat -> source i = NetError) ->
  source k = Body body ->
  get cfg source fuel = Ok body.
Proof.
  intros Hk Hfuel Herr Hbody. unfold get.
  replace fuel with (k + S (fuel - k - 1))%nat by lia.
  rewrite get_loop_skip by (try lia; intros i Hi; apply Herr; exact Hi).
  cbn [get_loop]. replace (Z.to_nat (0 + Z.of_nat k + 1 - 1)) with k by lia.
  now rewrite Hbody.
Qed.

(** [HTTP_RETRIES] failed attempts end the loop with the library's error. *)
Lemma get_exhausted {A} (source : nat -> reply A) fuel :
  (1 <= HTTP_RETRIES cfg)%Z -> (Z.to_nat (HTTP_RETRIES cfg) <= fuel)%nat ->
  (forall i, (i < Z.to_nat (HTTP_RETRIES cfg))%nat -> source i = NetError) ->
  get cfg source fuel = Raise (FakeUserAgentError "Maximum amount of retries reached").
Proof.
  intros HR Hfuel Herr. unfold get.
  set (k := (Z.to_nat (HTTP_RETRIES cfg) - 1)%nat).
  replace fuel with (k + S (fuel - k - 1))%nat by lia.
  rewrite get_loop_skip by (try lia; intros i Hi; apply Herr; lia).
  cbn [get_loop]. replace (Z.to_nat (0 + Z.of_nat k + 1 - 1)) with k by lia.
  rewrite Herr by lia.
  destruct (Z.eqb_spec (0 + Z.of_nat k + 1) (HTTP_RETRIES cfg)); [reflexivity|lia].
Qed.

(** With a limit that is never met the loop goes on for as long as the
    attempts fail: whatever the fuel, it is used up. *)
Lemma get_goes_on {A} (source : nat -> reply A) fuel :
  (HTTP_RETRIES cfg <= 0)%Z -> (forall i, source i = NetError) ->
  get cfg source fuel = OutOfFuel.
Proof.
  intros HR Herr. unfold get.
  assert (H : forall attempt, (0 <= attempt)%Z -> get_loop cfg source fuel attempt = OutOfFuel);
    [|apply H; lia].
  induction fuel as [|n IH]; intros attempt Hpos; [reflexivity|].
  cbn [get_loop]. rewrite Herr.
  destruct (Z.eqb_spec (attempt + 1) (HTTP_RETRIES cfg)); [lia|]. apply IH. lia.
Qed.

Lemma scan_matches_bounded groups : forall browsers,
  (length browsers < BROWSERS_COUNT_LIMIT)%nat -> Forall unmarked browsers ->
  (length (scan_matches groups browsers) <= BROWSERS_COUNT_LIMIT)%nat /\
  Forall unmarked (scan_matches groups browsers).
Proof.
  induction groups as [|g groups IH]; intros browsers Hlen Hun; cbn [scan_matches].
  - split; [lia|assumption].
  - destruct (contains (py "more") (lower g)) eqn:Hg; [now apply IH|].
    assert (Hun' : Forall unmarked (browsers ++ [g])).
    { apply Forall_app. split; [assumption|]. now constructor. }
    destruct (Nat.eqb_spec (length (browsers ++ [g])) BROWSERS_COUNT_LIMIT) as [Heq|Hne].
    + split; [lia|assumption].
    + apply IH; [|assumption]. rewrite length_app in *. cbn [length] in *. lia.
Qed.

Lemma scan_matches_Forall (P : pystr -> Prop) groups : forall browsers,
  Forall P groups -> Forall P browsers -> Forall P (scan_matches groups browsers).
Proof.
  induction groups as [|g groups IH]; intros browsers Hg Hb; cbn [scan_matches]; [assumption|].
  apply Forall_cons_1 in Hg as [Hg Hgs].
  destruct (contains (py "more") (lower g)); [now apply IH|].
  assert (Forall P (browsers ++ [g])) by (apply Forall_app; split; [assumption|now constructor]).
  destruct (_ =? _)%nat; [assumption|now apply IH].
Qed.

Lemma get_browser_versions_bounded fuel browser versions :
  get_browser_versions cfg E fuel browser = Ok versions ->
  (0 < length versions <= BROWSERS_COUNT_LIMIT)%nat /\
  Forall (fun s => contains (py "more") s = false) versions /\
  Forall (Forall scalar) versions.
Proof.
  unfold get_browser_versions.
  destruct (get cfg (pages E browser) fuel) as [[groups|]| |]; try discriminate.
  destruct (scan_matches (map py groups) []) as [|v l] eqn:Es; [discriminate|].
  intros [= <-]. rewrite <- Es.
  destruct (scan_matches_bounded (map py groups) []) as [Hlen Hun];
    [unfold BROWSERS_COUNT_LIMIT; cbn; lia|constructor|].
  split; [|split].
  - split; [rewrite Es; cbn; lia|exact Hlen].
  - eapply Forall_impl; [exact Hun|]. intros s Hs. unfold unmarked in Hs.
    destruct (contains (py "more") s) eqn:Hc; [|reflexivity].
    apply StrFacts.contains_more_lower in Hc. congruence.
  - apply scan_matches_Forall; [|constructor].
    apply List.Forall_forall. intros g Hg. apply in_map_iff in Hg as (g0 & <- & _).
    apply StrFacts.scalar_py.
Qed.

End Facts.
End UtilsFacts.

Module RandomFacts.
Import Random.

Lemma bisect_bounds fuel a x : forall lo hi,
  (lo <= hi)%nat -> (lo <= bisect fuel a x lo hi <= hi)%nat.
Proof.
  induction fuel as [|n IH]; intros lo hi Hle; cbn [bisect]; [lia|].
  destruct (Nat.ltb_spec lo hi) as [Hlt|Hge]; [|lia].
  assert (Hmid : (lo <= (lo + hi) / 2 < hi)%nat).
  { split; [apply Nat.div_le_lower_bound; lia|apply Nat.Div0.div_lt_upper_bound; lia]. }
  destruct (negb (Qle_bool (inject_Z (nth ((lo + hi) / 2) a 0%Z)) x)).
  - specialize (IH lo ((lo + hi) / 2)%nat). lia.
  - specialize (IH (S ((lo + hi) / 2)) hi). lia.
Qed.

(** Fuel beyond the width of the interval changes nothing: the loop is
    over by then. *)
Lemma bisect_fuel a x fuel : forall fuel' lo hi,
  (hi - lo <= fuel)%nat -> (hi - lo <= fuel')%nat ->
  bisect fuel a x lo hi = bisect fuel' a x lo hi.
Proof.
  induction fuel as [|n IH]; intros fuel' lo hi Hf Hf'.
  - destruct fuel' as [|n']; [reflexivity|]. cbn [bisect].
    destruct (Nat.ltb_spec lo hi); [lia|reflexivity].
  - destruct fuel' as [|n']; cbn [bisect].
    + destruct (Nat.ltb_spec lo hi); [lia|reflexivity].
    + destruct (Nat.ltb_spec lo hi) as [Hlt|Hge]; [|reflexivity].
      assert (Hmid : (lo <= (lo + hi) / 2 < hi)%nat).
      { split; [apply Nat.div_le_lower_bound; lia|apply Nat.Div0.div_lt_upper_bound; lia]. }
      destruct (negb _); apply IH; lia.
Qed.

(** The draw of [main] always yields one of the five names. *)
Lemma choices_browsers_total u :
  exists b, choices UserAgent.BROWSERS (Some UserAgent.RANDOM_CUM_WEIGHTS) None u = Ok b /\
            b ∈ UserAgent.BROWSERS.
Proof.
  unfold choices, weighted_draw.
  change (accumulate UserAgent.RANDOM_CUM_WEIGHTS) with [80; 166; 259; 356; 456]%Z.
  change (length UserAgent.BROWSERS) with 5%nat.
  cbn [length Nat.eqb negb last Z.leb Z.compare Nat.sub]. cbv iota.
  assert (H04 : (0 <= 4)%nat) by lia.
  pose proof (bisect_bounds 5 [80; 166; 259; 356; 456]%Z
                (round_double (u * round_double (inject_Z 456))) 0 4 H04) as Hi.
  set (i := bisect _ _ _ _ _) in *.
  destruct (UserAgent.BROWSERS !! i) as [b|] eqn:Hb.
  - exists b. split; [reflexivity|]. eapply list_elem_of_lookup_2, Hb.
  - apply lookup_ge_None in Hb. change (length UserAgent.BROWSERS) with 5%nat in Hb. lia.
Qed.

(** Where the draw lands: the table is summed up once more, so that the
    five names share [0, 456) in the proportions 80 : 86 : 93 : 97 : 100,
    by the product as the doubles give it. *)
Lemma choices_browsers_intervals u :
  let x := round_double (u * round_double 456) in
  choices UserAgent.BROWSERS (Some UserAgent.RANDOM_CUM_WEIGHTS) None u =
  Ok (if negb (Qle_bool 80 x) then py "chrome"
      else if negb (Qle_bool 166 x) then py "edge"
      else if negb (Qle_bool 259 x) then py "firefox"
      else if negb (Qle_bool 356 x) then py "safari"
      else py "opera").
Proof.
  cbv -[Qle_bool Qmult round_double].
  match goal with |- context [Qle_bool _ ?y] => generalize y end. intros x.
  repeat match goal with
    | |- context [Qle_bool ?a ?b] =>
        let H := fresh "H" in
        destruct (Qle_bool a b) eqn:H;
        [apply Qle_bool_iff in H|apply not_true_iff_false in H; rewrite Qle_bool_iff in H]
    end; try reflexivity; exfalso; lra.
Qed.

(** The rounding decides at the edges of the shares: the draw below is
    less than 80/456, and its product with 456.0 is the double 80.0, which
    lies in the share of the second name. *)
Lemma draw_at_a_rounded_edge :
  let u := 1580210395568595 # 9007199254740992 in
  Qle_bool 80 (u * 456) = false /\
  Qeq_bool (round_double (u * round_double 456)) 80 = true /\
  choices UserAgent.BROWSERS (Some UserAgent.RANDOM_CUM_WEIGHTS) None u = Ok (py "edge").
Proof. repeat split; vm_compute; reflexivity. Qed.
End RandomFacts.

Module LoadFacts.
Import Utils Notions.

Lemma randomize_checked :
  bool_decide (NoDup (map fst RANDOMIZE)) &&
  forallb (fun kv => forallb scalarb (fst kv) &&
                     match snd kv with
                     | Json.Str b => bool_decide (b ∈ UserAgent.BROWSERS)
                     | _ => false
                     end) RANDOMIZE &&
  (length RANDOMIZE =? 985)%nat = true.
Proof. vm_compute. reflexivity. Qed.

Lemma randomize_eq :
  add_randomize 24 (py "opera")
    (add_randomize 37 (py "safari")
       (add_randomize 61 (py "firefox")
          (add_randomize 56 (py "edge")
             (add_randomize 807 (py "chrome") [])))) = RANDOMIZE.
Proof. vm_compute. reflexivity. Qed.

Section Facts.
Context (cfg : settings) (E : env).

Lemma harvest_loop_cons fuel b p rest bd rd name count :
  lower (strip b) = name -> Z.to_nat (Qfloor (p * 10)) = count ->
  harvest_loop cfg E fuel ((b, p) :: rest) bd rd =
  match get_browser_versions cfg E fuel name with
  | Ok versions =>
      harvest_loop cfg E fuel rest
        (Json.dict_set name (Json.Arr (map Json.Str versions)) bd)
        (add_randomize count name rd)
  | Raise e => Raise e
  | OutOfFuel => OutOfFuel
  end.
Proof. intros <- <-. reflexivity. Qed.

Lemma browsers_dict_built (a b c d e : Json.value) :
  Json.dict_set (py "opera") e (Json.dict_set (py "safari") d
    (Json.dict_set (py "firefox") c (Json.dict_set (py "edge") b
       (Json.dict_set (py "chrome") a []))))
  = [(py "chrome", a); (py "edge", b); (py "firefox", c); (py "safari", d); (py "opera", e)].
Proof. reflexivity. Qed.

(** A harvest that succeeds fetched all five lists and holds them under
    the five names, next to the [randomize] table. *)
Lemma harvest_ok fuel data :
  harvest cfg E fuel = Ok data ->
  exists v1 v2 v3 v4 v5,
    get_browser_versions cfg E fuel (py "chrome") = Ok v1 /\
    get_browser_versions cfg E fuel (py "edge") = Ok v2 /\
    get_browser_versions cfg E fuel (py "firefox") = Ok v3 /\
    get_browser_versions cfg E fuel (py "safari") = Ok v4 /\
    get_browser_versions cfg E fuel (py "opera") = Ok v5 /\
    data = Json.Obj [(py "browsers", Json.Obj (browsers_dict v1 v2 v3 v4 v5));
                     (py "randomize", Json.Obj RANDOMIZE)].
Proof.
  unfold harvest, get_browsers.
  rewrite (harvest_loop_cons _ _ _ _ _ _ (py "chrome") 807) by reflexivity.
  destruct (get_browser_versions cfg E fuel (py "chrome")) as [v1| |]; [|intros [=]..].
  rewrite (harvest_loop_cons _ _ _ _ _ _ (py "edge") 56) by reflexivity.
  destruct (get_browser_versions cfg E fuel (py "edge")) as [v2| |]; [|intros [=]..].
  rewrite (harvest_loop_cons _ _ _ _ _ _ (py "firefox") 61) by reflexivity.
  destruct (get_browser_versions cfg E fuel (py "firefox")) as [v3| |]; [|intros [=]..].
  rewrite (harvest_loop_cons _ _ _ _ _ _ (py "safari") 37) by reflexivity.
  destruct (get_browser_versions cfg E fuel (py "safari")) as [v4| |]; [|intros [=]..].
  rewrite (harvest_loop_cons _ _ _ _ _ _ (py "opera") 24) by reflexivity.
  destruct (get_browser_versions cfg E fuel (py "opera")) as [v5| |]; [|intros [=]..].
  cbn [harvest_loop]. rewrite browsers_dict_built, randomize_eq.
  intros [= <-]. exists v1, v2, v3, v4, v5.
  repeat (split; [reflexivity|]). reflexivity.
Qed.
End Facts.
End LoadFacts.

Module CodecFacts.
Import Json JsonFacts.

Lemma scalar_forallb s : Forall scalar s -> forallb scalarb s = true.
Proof.
  rewrite forallb_forall, List.Forall_forall. intros H c Hc. apply scalarb_spec, H, Hc.
Qed.

Lemma wf_str s : Forall scalar s -> wf (Str s).
Proof. apply scalar_forallb. Qed.

Lemma wf_arr l : Forall wf l -> wf (Arr l).
Proof.
  unfold wf. cbn [wfb]. rewrite forallb_forall, List.Forall_forall. auto.
Qed.

Lemma wf_obj m : members_ok m -> wf (Obj m).
Proof.
  intros [Hnd Hall]. unfold wf. cbn [wfb]. apply andb_true_iff. split.
  - now apply bool_decide_eq_true_2.
  - apply forallb_forall. rewrite List.Forall_forall in Hall. intros kv Hkv.
    destruct (Hall kv Hkv) as [Hk Hv]. apply andb_true_iff. split; [now apply scalar_forallb|exact Hv].
Qed.

Lemma wf_versions vs : Forall (Forall scalar) vs -> wf (Arr (map Str vs)).
Proof.
  intros H. apply wf_arr. apply List.Forall_forall. intros v Hv.
  apply in_map_iff in Hv as (s & <- & Hs). apply wf_str.
  rewrite List.Forall_forall in H. now apply H.
Qed.

Lemma dict_set_keys {V} k (v : V) m :
  map fst (dict_set k v m) =
  if bool_decide (k ∈ map fst m) then map fst m else map fst m ++ [k].
Proof.
  induction m as [|[k' v'] m IH]; [reflexivity|].
  cbn [dict_set map fst]. unfold pystr_eqb. destruct (decide (k' = k)) as [->|Hne].
  - rewrite bool_decide_eq_true_2 by reflexivity.
    rewrite (bool_decide_eq_true_2 (k ∈ k :: map fst m)) by apply list_elem_of_here.
    reflexivity.
  - rewrite bool_decide_eq_false_2 by exact Hne. cbn [map fst]. rewrite IH.
    destruct (decide (k ∈ map fst m)) as [Hin|Hnin].
    + rewrite !bool_decide_eq_true_2; [reflexivity|now apply list_elem_of_further|exact Hin].
    + rewrite !bool_decide_eq_false_2; [reflexivity| |exact Hnin].
      intros Hin. apply elem_of_cons in Hin as [->|Hin]; [now apply Hne|now apply Hnin].
Qed.

Lemma dict_set_Forall {V} (P : pystr * V -> Prop) k v m :
  P (k, v) -> Forall P m -> Forall P (dict_set k v m).
Proof.
  intros Hkv. induction 1 as [|[k' v'] m Hhd Htl IH]; cbn [dict_set].
  - now constructor.
  - unfold pystr_eqb. destruct (decide (k' = k)) as [->|Hne].
    + rewrite bool_decide_eq_true_2 by reflexivity. now constructor.
    + rewrite bool_decide_eq_false_2 by exact Hne. now constructor.
Qed.

Lemma dict_set_members_ok k v m :
  Forall scalar k -> wf v -> members_ok m -> members_ok (dict_set k v m).
Proof.
  intros Hk Hv [Hnd Hall]. split.
  - rewrite dict_set_keys. destruct (decide (k ∈ map fst m)) as [Hin|Hnin].
    + now rewrite bool_decide_eq_true_2.
    + rewrite bool_decide_eq_false_2 by exact Hnin. apply NoDup_app. split; [exact Hnd|].
      split; [|apply NoDup_singleton].
      intros x Hx Hx'. apply list_elem_of_singleton in Hx'. subst. now apply Hnin.
  - apply dict_set_Forall; [split; assumption|exact Hall].
Qed.

(** What is written is what is read back. *)
Lemma write_read path data w w' :
  wf data -> Utils.write path data w = (Ok tt, w') ->
  Utils.read path w' = (Ok data, log (EvRead path) w') /\
  fs w' !! path = Some (File (dumps data)) /\
  trace w' = trace w ++ [EvWrite path (dumps data)].
Proof.
  intros Hwf. unfold Utils.write, Os.write_text.
  destruct (_ || _ || _); [discriminate|]. intros [= <-].
  assert (Hf : fs (log (EvWrite path (dumps data))
                      {| fs := <[path:=File (dumps data)]> (fs w); trace := trace w |})
               !! path = Some (File (dumps data))) by apply lookup_insert_eq.
  split; [|split; [exact Hf|reflexivity]].
  unfold Utils.read, bind, Os.read_text, lift. rewrite Hf.
  now rewrite loads_dumps.
Qed.
End CodecFacts.

Module HarvestFacts.
Import Json JsonFacts CodecFacts Notions.

Lemma randomize_wf : wf (Obj RANDOMIZE).
Proof. vm_compute. reflexivity. Qed.

Lemma randomize_values :
  forallb (fun v => match v with
                    | Str b => bool_decide (b ∈ UserAgent.BROWSERS)
                    | _ => false
                    end) (map snd RANDOMIZE) = true /\
  length (map snd RANDOMIZE) = 985%nat.
Proof. split; vm_compute; reflexivity. Qed.

Lemma browsers_dict_ok v1 v2 v3 v4 v5 :
  Forall (Forall scalar) v1 -> Forall (Forall scalar) v2 -> Forall (Forall scalar) v3 ->
  Forall (Forall scalar) v4 -> Forall (Forall scalar) v5 ->
  members_ok (browsers_dict v1 v2 v3 v4 v5).
Proof.
  intros H1 H2 H3 H4 H5. split.
  - apply (bool_decide_unpack _). vm_compute. exact I.
  - unfold browsers_dict.
    repeat (constructor; [split; [apply StrFacts.scalar_py|now apply wf_versions]|]).
    constructor.
Qed.

(** The catalog of the strict selector is fit for the codec. *)
Lemma utils_harvest_wf S E fuel data : Utils.harvest S E fuel = Ok data -> wf data.
Proof.
  intros H. apply LoadFacts.harvest_ok in H
    as (v1 & v2 & v3 & v4 & v5 & H1 & H2 & H3 & H4 & H5 & ->).
  apply UtilsFacts.get_browser_versions_bounded in H1 as (_ & _ & H1).
  apply UtilsFacts.get_browser_versions_bounded in H2 as (_ & _ & H2).
  apply UtilsFacts.get_browser_versions_bounded in H3 as (_ & _ & H3).
  apply UtilsFacts.get_browser_versions_bounded in H4 as (_ & _ & H4).
  apply UtilsFacts.get_browser_versions_bounded in H5 as (_ & _ & H5).
  apply wf_obj. split.
  - apply (bool_decide_unpack _). vm_compute. exact I.
  - constructor; [|constructor; [|constructor]].
    + split; [apply StrFacts.scalar_py|]. apply wf_obj. now apply browsers_dict_ok.
    + split; [apply StrFacts.scalar_py|apply randomize_wf].
Qed.

Section Lenient.
Import UserAgent.
Context (E : env) (Hpages : scalar_pages E).

Lemma parse_scalar b versions :
  parse E b = Ok (Some versions) -> Forall (Forall scalar) versions.
Proof.
  unfold parse. rewrite UserAgentFacts.fetch_loop_3.
  assert (Htake : forall nodes k, pages E b k = Page nodes ->
            match take 50 nodes with [] => Ok None | _ :: _ => Ok (Some (take 50 nodes)) end
            = Ok (Some versions) -> Forall (Forall scalar) versions).
  { intros nodes k Hk. pose proof (Hpages b k nodes Hk) as Hn.
    destruct (take 50 nodes) eqn:Et; [discriminate|]. intros [= <-]. rewrite <- Et.
    now apply Forall_take. }
  destruct (pages E b 0) eqn:H0; try discriminate; [|now apply (Htake nodes 0%nat)].
  destruct (pages E b 1) eqn:H1; try discriminate; [|now apply (Htake nodes 1%nat)].
  destruct (pages E b 2) eqn:H2; try discriminate. now apply (Htake nodes 2%nat).
Qed.

Lemma collect_members_ok results : forall acc m,
  members_ok acc ->
  Forall (fun br => Forall scalar (fst br) /\
                    forall vs, snd br = Some vs -> Forall (Forall scalar) vs) results ->
  collect results acc = Ok m -> members_ok m.
Proof.
  induction results as [|[b [vs|]] results IH]; intros acc m Hacc Hres; cbn [collect].
  - now intros [= <-].
  - apply Forall_cons_1 in Hres as [[Hb Hvs] Hres]. cbn [fst snd] in *.
    apply IH; [|exact Hres]. apply dict_set_members_ok; [exact Hb| |exact Hacc].
    apply wf_versions. now apply Hvs.
  - discriminate.
Qed.

Lemma harvest_wf data : harvest E = Ok data -> wf data.
Proof.
  unfold harvest.
  destruct (UserAgentFacts.gather_cases E BROWSERS) as [(rs & -> & Hall)|(-> & _)];
    [|discriminate].
  destruct rs as [|br rs]; [discriminate|].
  destruct (collect (br :: rs) []) as [m| |] eqn:Hc; try discriminate.
  intros [= <-]. apply wf_obj. eapply collect_members_ok; [|
    |exact Hc].
  - split; constructor.
  - assert (Hbs : Forall (Forall scalar) BROWSERS)
      by (repeat (constructor; [apply StrFacts.scalar_py|]); constructor).
    clear Hc. induction Hall as [|b r bs results [Hfst Hsnd] Hall IH]; [constructor|].
    apply Forall_cons_1 in Hbs as [Hb Hbs]. constructor; [|now apply IH].
    destruct r as [b' o]. cbn [fst snd] in *. subst b'.
    split; [exact Hb|]. intros vs ->. now apply (parse_scalar b).
Qed.
End Lenient.
End HarvestFacts.

Module SelectorFacts.
Import Json JsonFacts CodecFacts Notions HarvestFacts.

Lemma choice_ok {A} (l : list A) r :
  l <> [] -> exists x, Random.choice l r = Ok x /\ x ∈ l.
Proof.
  intros Hl. unfold Random.choice.
  destruct (l !! (r mod length l)%nat) as [x|] eqn:Hx.
  - exists x. split; [reflexivity|]. eapply list_elem_of_lookup_2, Hx.
  - apply lookup_ge_None in Hx. destruct l; [congruence|].
    pose proof (Nat.mod_upper_bound r (length (a :: l))) as Hlt. cbn [length] in *. lia.
Qed.

Lemma subscript_browsers X Y :
  subscript (Obj [(py "browsers", X); (py "randomize", Y)]) (Str (py "browsers")) = Ok X.
Proof. reflexivity. Qed.

Lemma subscript_randomize X Y :
  subscript (Obj [(py "browsers", X); (py "randomize", Y)]) (Str (py "randomize")) = Ok Y.
Proof. reflexivity. Qed.

Lemma browsers_dict_keys v1 v2 v3 v4 v5 :
  map fst (browsers_dict v1 v2 v3 v4 v5) = UserAgent.BROWSERS.
Proof. reflexivity. Qed.

Lemma browsers_dict_lookup v1 v2 v3 v4 v5 b :
  b ∈ UserAgent.BROWSERS ->
  exists v, dict_get b (browsers_dict v1 v2 v3 v4 v5) = Some (Arr (map Str v)) /\
            v ∈ [v1; v2; v3; v4; v5].
Proof.
  unfold UserAgent.BROWSERS. rewrite !elem_of_cons, elem_of_nil.
  intros [->|[->|[->|[->|[->|[]]]]]]; eexists; (split; [reflexivity|]);
    rewrite !elem_of_cons; auto 10.
Qed.

Lemma randomize_draw r :
  exists b, Random.choice (map snd RANDOMIZE) r = Ok (Str b) /\ b ∈ UserAgent.BROWSERS.
Proof.
  destruct randomize_values as [Hall Hlen].
  destruct (choice_ok (map snd RANDOMIZE) r) as (x & Hx & Hin).
  { intros Hnil. rewrite Hnil in Hlen. discriminate. }
  rewrite forallb_forall in Hall. apply list_elem_of_In, Hall in Hin.
  destruct x as [| |b| |]; try discriminate. exists b. split; [exact Hx|].
  now apply bool_decide_eq_true_1 in Hin.
Qed.

(** The [randomize] table, place by place. *)
Lemma randomize_by_share :
  forallb (fun i => match map snd RANDOMIZE !! i with
                    | Some (Str b) => bool_decide (b = by_share i)
                    | _ => false
                    end) (seq 0 985)
  = true.
Proof. vm_compute. reflexivity. Qed.

Lemma randomize_choice r :
  Random.choice (map snd RANDOMIZE) r = Ok (Str (by_share (r mod 985))).
Proof.
  unfold Random.choice.
  replace (length (map snd RANDOMIZE)) with 985%nat by (vm_compute; reflexivity).
  pose proof randomize_by_share as H. rewrite forallb_forall in H.
  assert (Hin : In (r mod 985)%nat (seq 0 985))
    by (apply in_seq; pose proof (Nat.mod_upper_bound r 985); lia).
  specialize (H _ Hin).
  destruct (map snd RANDOMIZE !! (r mod 985)%nat) as [[| |b| |]|]; try discriminate H.
  now apply bool_decide_eq_true_1 in H as ->.
Qed.

Lemma by_share_browser i : by_share i ∈ UserAgent.BROWSERS.
Proof.
  unfold by_share, UserAgent.BROWSERS.
  repeat match goal with |- context [(?a <? ?b)%nat] => destruct (a <? b)%nat end;
    rewrite !elem_of_cons; auto 10.
Qed.

Section Strict.
Import Utils.
Context (cfg : settings) (E : env).

Lemma populate_then_select fuel browser w data w1 :
  Os.isfile (fs w) (DB cfg) = false ->
  harvest cfg E fuel = Ok data ->
  write (DB cfg) data w = (Ok tt, w1) ->
  supported browser ->
  exists b versions ua browsers,
    get_fake_useragent cfg E fuel browser true w = (Ok (Str ua), log (EvRead (DB cfg)) w1) /\
    trace (log (EvRead (DB cfg)) w1)
      = trace w ++ [EvWrite (DB cfg) (dumps data); EvRead (DB cfg)] /\
    fs (log (EvRead (DB cfg)) w1) !! DB cfg = Some (File (dumps data)) /\
    loads (dumps data) = Ok data /\
    resolves E browser b /\ b ∈ UserAgent.BROWSERS /\
    subscript data (Str (py "browsers")) = Ok browsers /\
    subscript browsers (Str b) = Ok (Arr (map Str versions)) /\
    ua ∈ versions.
Proof.
  intros Hfile Hharvest Hwrite Hbrowser.
  pose proof (utils_harvest_wf _ _ _ _ Hharvest) as Hwf.
  destruct (write_read _ _ _ _ Hwf Hwrite) as (Hread & Hfs & Htrace).
  destruct (LoadFacts.harvest_ok _ _ _ _ Hharvest)
    as (v1 & v2 & v3 & v4 & v5 & H1 & H2 & H3 & H4 & H5 & Hdata).
  assert (Hnonempty : forall v, v ∈ [v1; v2; v3; v4; v5] -> map Str v <> []).
  { intros v Hv Hnil. apply map_eq_nil in Hnil.
    rewrite !elem_of_cons, elem_of_nil in Hv.
    destruct Hv as [->|[->|[->|[->|[->|[]]]]]]; rewrite Hnil in *;
      match goal with H : get_browser_versions _ _ _ _ = Ok [] |- _ =>
        apply UtilsFacts.get_browser_versions_bounded in H as [[Hpos _] _];
        cbn in Hpos; lia end. }
  assert (Hselect : forall b, b ∈ UserAgent.BROWSERS ->
            exists versions ua,
              (let* versions := lift (subscript (Obj (browsers_dict v1 v2 v3 v4 v5)) (Str b)) in
               lift (choice_value versions (rnd_second E))) (log (EvRead (DB cfg)) w1)
              = (Ok (Str ua), log (EvRead (DB cfg)) w1) /\
              subscript (Obj (browsers_dict v1 v2 v3 v4 v5)) (Str b)
              = Ok (Arr (map Str versions)) /\ ua ∈ versions).
  { intros b Hb. destruct (browsers_dict_lookup v1 v2 v3 v4 v5 b Hb) as (v & Hv & Hin).
    destruct (choice_ok (map Str v) (rnd_second E) (Hnonempty v Hin)) as (x & Hx & Hxin).
    apply list_elem_of_In, in_map_iff in Hxin as (ua & <- & Hua).
    exists v, ua. unfold bind, lift. cbn [subscript]. rewrite Hv. cbn [choice_value].
    rewrite Hx. split; [reflexivity|]. split; [reflexivity|]. now apply list_elem_of_In. }
  assert (Hdata' : obtain_data cfg E fuel true w = (Ok data, log (EvRead (DB cfg)) w1)).
  { unfold obtain_data. rewrite Hfile. unfold bind, lift, load. rewrite Hharvest, Hwrite.
    exact Hread. }
  unfold get_fake_useragent. unfold bind at 1. rewrite Hdata'. subst data.
  unfold bind at 1. unfold lift at 1. rewrite subscript_browsers.
  unfold bind at 1. unfold lift at 1. rewrite subscript_randomize.
  unfold bind at 1. unfold lift at 1. cbn [values].
  destruct browser as [|s|i]; [| |destruct Hbrowser].
  - pose proof (randomize_choice (rnd_first E)) as Hb.
    pose proof (by_share_browser (rnd_first E mod 985)) as Hin.
    set (b := by_share (rnd_first E mod 985)) in *.
    destruct (Hselect b Hin) as (versions & ua & Hrun & Hsub & Hua).
    exists b, versions, ua, (Obj (browsers_dict v1 v2 v3 v4 v5)).
    unfold bind at 1. unfold lift at 1. rewrite Hb.
    split; [exact Hrun|].
    split; [cbn [trace log]; rewrite Htrace, <- app_assoc; reflexivity|].
    split; [exact Hfs|]. split; [now apply loads_dumps|].
    split; [reflexivity|]. split; [exact Hin|]. split; [exact (subscript_browsers _ (Obj RANDOMIZE))|].
    split; [exact Hsub|exact Hua].
  - destruct (Hselect _ Hbrowser) as (versions & ua & Hrun & Hsub & Hua).
    exists (shortcut (lower (strip s))), versions, ua, (Obj (browsers_dict v1 v2 v3 v4 v5)).
    unfold bind at 1. unfold bind at 1. unfold lift at 1. cbn [keys].
    rewrite browsers_dict_keys, bool_decide_eq_true_2 by exact Hbrowser.
    cbn [negb]. unfold ret.
    split; [exact Hrun|].
    split; [cbn [trace log]; rewrite Htrace, <- app_assoc; reflexivity|].
    split; [exact Hfs|]. split; [now apply loads_dumps|].
    split; [reflexivity|]. split; [exact Hbrowser|]. split; [exact (subscript_browsers _ (Obj RANDOMIZE))|].
    split; [exact Hsub|exact Hua].
Qed.

(** An argument that is no string and not [None] never gets a user-agent;
    once [data] is there with its two tables, it gets the library's error. *)
Lemma non_string_rejected fuel i use_cache w :
  (forall ua w', get_fake_useragent cfg E fuel (AInt i) use_cache w <> (Ok ua, w')) /\
  (forall data w1 browsers randomize_dict randomize,
     obtain_data cfg E fuel use_cache w = (Ok data, w1) ->
     subscript data (Str (py "browsers")) = Ok browsers ->
     subscript data (Str (py "randomize")) = Ok randomize_dict ->
     values randomize_dict = Ok randomize ->
     get_fake_useragent cfg E fuel (AInt i) use_cache w
     = (Raise (FakeUserAgentError "Please use a valid browser name."), w1)).
Proof.
  split.
  - intros ua w'. unfold get_fake_useragent, bind, lift, raise.
    destruct (obtain_data cfg E fuel use_cache w) as [[data| |] w1]; try discriminate.
    destruct (subscript data (Str (py "browsers"))); try discriminate.
    destruct (subscript data (Str (py "randomize"))) as [rd| |]; try discriminate.
    destruct (values rd); discriminate.
  - intros data w1 browsers rd randomize Hdata Hb Hr Hv.
    unfold get_fake_useragent, bind, lift, raise. now rewrite Hdata, Hb, Hr, Hv.
Qed.

(** A name that is not among the keys of the catalog, aliases resolved, is
    turned down. *)
Lemma strict_rejects_unsupported fuel s use_cache w data w1 browsers randomize_dict
    randomize names :
  obtain_data cfg E fuel use_cache w = (Ok data, w1) ->
  subscript data (Str (py "browsers")) = Ok browsers ->
  subscript data (Str (py "randomize")) = Ok randomize_dict ->
  values randomize_dict = Ok randomize ->
  keys browsers = Ok names ->
  shortcut (lower (strip s)) ∉ names ->
  get_fake_useragent cfg E fuel (AStr s) use_cache w
  = (Raise (FakeUserAgentError "This browser is not supported."), w1).
Proof.
  intros Hdata Hb Hr Hv Hk Hnot.
  unfold get_fake_useragent, bind, lift, raise. rewrite Hdata, Hb, Hr, Hv, Hk.
  now rewrite bool_decide_eq_false_2.
Qed.
End Strict.

Section Lenient.
Import UserAgent.
Context (E : env).

(** With [use_cache] and no cache file the lenient selector fetches
    nothing, writes nothing and answers with the fixed string. *)
Lemma main_absent_cache browser cache_path w :
  (forall i, browser <> AInt i) ->
  Os.isfile (fs w) cache_path = false ->
  main E browser true cache_path w = (Ok (Str FIXED_UA), w).
Proof.
  intros Hstr Hfile. unfold main, bind. destruct browser as [|s|i]; [| |now destruct (Hstr i)].
  - destruct (RandomFacts.choices_browsers_total (rnd_float E)) as (b & Hb & _).
    unfold lift. rewrite Hb. cbn [negb].
    now apply UserAgentFacts.load_and_random_unreadable.
  - destruct (negb (bool_decide (lower (strip s) ∈ BROWSERS))).
    + destruct (RandomFacts.choices_browsers_total (rnd_float E)) as (b & Hb & _).
      unfold bind, lift, ret. rewrite Hb. cbn [negb].
      now apply UserAgentFacts.load_and_random_unreadable.
    + unfold ret. cbn [negb]. now apply UserAgentFacts.load_and_random_unreadable.
Qed.

Lemma write_text_ok path data w w' :
  try_except (Os.write_text path data) (fun _ => die) w = (Ok tt, w') ->
  fs w' !! path = Some (File data).
Proof.
  unfold try_except, Os.write_text, die, raise.
  destruct (_ || _ || _); [discriminate|]. intros [= <-]. apply lookup_insert_eq.
Qed.

Lemma dump_ok cache_path w w' :
  dump E cache_path w = (Ok tt, w') ->
  exists data, harvest E = Ok data /\
               fs w' !! target E cache_path = Some (File (dumps data)).
Proof.
  unfold dump, target. unfold bind at 1. unfold lift.
  destruct (harvest E) as [data| |]; try discriminate.
  intros H. exists data. split; [reflexivity|].
  destruct (negb (String.eqb (Os.dirname cache_path) EmptyString)
            && negb (String.eqb (Os.dirname cache_path) ".")).
  - unfold bind in H.
    destruct (negb (Os.path_exists (fs w) (Os.dirname (expand E cache_path)))).
    + match type of H with context [try_except ?m ?h w] =>
        destruct (try_except m h w) as [[p|e|] w1] eqn:Htry end; try discriminate.
      assert (p = expand E cache_path) as ->.
      { unfold try_except, bind, ret, die, raise in Htry.
        destruct (Os.makedirs _ _ w) as [[[]|e|] w2];
          [now inversion Htry|destruct e; discriminate|discriminate]. }
      now apply write_text_ok in H.
    + now apply write_text_ok in H.
  - unfold bind, ret in H. now apply write_text_ok in H.
Qed.

Lemma collect_total results : forall acc, collect results acc <> OutOfFuel.
Proof.
  induction results as [|[b [vs|]] results IH]; intros acc; cbn [collect];
    [discriminate|apply IH|discriminate].
Qed.

Lemma harvest_total : harvest E <> OutOfFuel.
Proof.
  unfold harvest.
  destruct (UserAgentFacts.gather_cases E BROWSERS) as [(rs & -> & _)|(-> & _)];
    [|discriminate].
  destruct rs as [|br rs]; [discriminate|].
  pose proof (collect_total (br :: rs) []) as Hc.
  destruct (collect (br :: rs) []); [discriminate|discriminate|congruence].
Qed.

(** [dump] comes to an end: it returns or it leaves through [sys.exit]. *)
Lemma dump_total cache_path w : fst (dump E cache_path w) <> OutOfFuel.
Proof.
  assert (Hwrite : forall p data w1,
            fst (try_except (Os.write_text p data) (fun _ => die) w1) <> OutOfFuel).
  { intros p data w1. unfold try_except, Os.write_text, die, raise.
    destruct (_ || _ || _); discriminate. }
  unfold dump. unfold bind at 1. unfold lift. pose proof harvest_total as Hh.
  destruct (harvest E) as [data| |]; [|discriminate|congruence].
  unfold bind.
  destruct (negb (String.eqb (Os.dirname cache_path) EmptyString)
            && negb (String.eqb (Os.dirname cache_path) ".")); [|apply Hwrite].
  destruct (negb (Os.path_exists (fs w) (Os.dirname (expand E cache_path))));
    [|apply Hwrite].
  pose proof (OsFacts.makedirs_total
                (S (String.length (Os.dirname (expand E cache_path))))
                (Os.dirname (expand E cache_path)) w ltac:(lia)) as Hm.
  match goal with |- context [try_except ?m ?h w] =>
    destruct (try_except m h w) as [[p|e|] w1] eqn:Htry end;
    [apply Hwrite|discriminate|].
  exfalso. unfold try_except, bind, ret, die, raise in Htry.
  destruct (Os.makedirs _ _ w) as [[[]|e|] w2]; cbn [fst] in Hm;
    [discriminate|destruct e; discriminate|congruence].
Qed.

(** [main] comes to an end as well: it returns or it raises. *)
Lemma main_total browser use_cache cache_path w :
  fst (main E browser use_cache cache_path w) <> OutOfFuel.
Proof.
  assert (Hload : forall b w1, fst (load_and_random E b cache_path w1) <> OutOfFuel).
  { intros b w1. unfold load_and_random, Os.read_text.
    destruct (fs w1 !! cache_path) as [[|data]|]; cbn [fst]; try discriminate.
    pose proof (loads_total data) as Hl.
    destruct (loads data) as [v| |]; [|discriminate|congruence].
    destruct (subscript v (Str b)) as [versions| |] eqn:Hs; [|discriminate|].
    - destruct versions as [| |s|l|[|kv m]]; cbn [choice_value]; try discriminate;
        unfold Random.choice;
        match goal with |- context [?l !! ?i] => destruct (l !! i) end; discriminate.
    - exfalso. destruct v as [| | | |m]; try discriminate Hs. cbn [subscript] in Hs.
      destruct (dict_get b m); discriminate Hs. }
  assert (Hrest : forall b w1,
            fst ((if negb use_cache
                  then let* versions := lift (parse E b) in
                       match versions with
                       | None => load_and_random E b cache_path
                       | Some versions =>
                           lift (Random.choice (map Str versions) (rnd_int E))
                       end
                  else load_and_random E b cache_path) w1) <> OutOfFuel).
  { intros b w1. destruct (negb use_cache); [|apply Hload].
    unfold bind, lift. destruct (UserAgentFacts.parse_cases E b) as [[[versions|] ->]| ->];
      [|apply Hload|discriminate].
    unfold Random.choice. destruct (_ !! _); discriminate. }
  unfold main. unfold bind at 1.
  destruct (RandomFacts.choices_browsers_total (rnd_float E)) as (b & Hb & _).
  destruct browser as [|s|i]; [| |discriminate].
  - unfold lift. rewrite Hb. apply Hrest.
  - destruct (negb (bool_decide (lower (strip s) ∈ BROWSERS))).
    + unfold bind, lift, ret. rewrite Hb. apply Hrest.
    + unfold ret. apply Hrest.
Qed.
End Lenient.
End SelectorFacts.

(** * Further facts about paths *)
Module PathFacts.
Import Os.

Lemma drop_while_length {A} (f : A -> bool) l : (length (drop_while f l) <= length l)%nat.
Proof.
  induction l as [|x l IH]; [reflexivity|]. cbn [drop_while].
  destruct (f x); cbn [length]; lia.
Qed.

Lemma drop_while_all {A} (f : A -> bool) l :
  forallb f l = true -> drop_while f l = [].
Proof.
  induction l as [|x l IH]; [reflexivity|]. cbn [forallb drop_while].
  intros H. apply andb_true_iff in H as [-> H]. now apply IH.
Qed.

(** A list that [drop_while] leaves whole is empty or begins with an
    element that fails the test. *)
Lemma drop_while_whole {A} (f : A -> bool) l :
  length (drop_while f l) = length l -> match l with [] => True | x :: _ => f x = false end.
Proof.
  destruct l as [|x l]; [trivial|]. cbn [drop_while].
  destruct (f x); [|reflexivity]. intros H.
  pose proof (drop_while_length f l). cbn [length] in H. lia.
Qed.

Lemma forallb_rev {A} (f : A -> bool) l : forallb f (rev l) = forallb f l.
Proof.
  destruct (forallb f l) eqn:H.
  - apply forallb_forall. intros x Hx. apply in_rev in Hx.
    rewrite forallb_forall in H. now apply H.
  - apply not_true_is_false. intros Hr. rewrite forallb_forall in Hr.
    assert (forallb f l = true); [|congruence].
    apply forallb_forall. intros x Hx. apply Hr. now apply in_rev in Hx.
Qed.

(** The paths that are their own directory: the empty one and the root. *)
Lemma dirname_fixed p : dirname p = p -> p = EmptyString \/ is_root p = true.
Proof.
  unfold dirname, is_root. set (l := list_ascii_of_string p).
  set (head_rev := drop_while (fun a => negb (is_slash a)) (rev l)).
  destruct (forallb is_slash head_rev) eqn:Hall; intros Hp.
  - assert (Hl : l = rev head_rev).
    { unfold l. rewrite <- Hp at 1. apply list_ascii_of_string_of_list_ascii. }
    destruct (String.eqb_spec p EmptyString) as [|Hne]; [now left|right].
    cbn [negb andb]. fold l. rewrite Hl. now rewrite forallb_rev.
  - exfalso.
    assert (Hl : l = rev (drop_while is_slash head_rev)).
    { unfold l. rewrite <- Hp at 1. apply list_ascii_of_string_of_list_ascii. }
    assert (Hlen : length l = length (drop_while is_slash head_rev))
      by (rewrite Hl at 1; apply length_rev).
    pose proof (drop_while_length is_slash head_rev) as H1.
    pose proof (drop_while_length (fun a => negb (is_slash a)) (rev l)) as H2.
    fold head_rev in H2. rewrite length_rev in H2.
    assert (Hwhole : length (drop_while (fun a => negb (is_slash a)) (rev l))
                     = length (rev l)) by (fold head_rev; rewrite length_rev; lia).
    apply drop_while_whole in Hwhole.
    assert (Hhead : head_rev = rev l).
    { unfold head_rev. destruct (rev l) as [|x r]; [reflexivity|].
      cbn [drop_while]. now rewrite Hwhole. }
    assert (Hwhole' : length (drop_while is_slash head_rev) = length head_rev) by lia.
    apply drop_while_whole in Hwhole'. rewrite Hhead in *.
    destruct (rev l) as [|x r]; [discriminate Hall|].
    apply negb_false_iff in Hwhole. congruence.
Qed.

Lemma root_dirname p : is_root p = true -> dirname p = p.
Proof.
  unfold is_root, dirname. intros H. apply andb_true_iff in H as [_ H].
  set (l := list_ascii_of_string p) in *.
  assert (Hd : drop_while (fun a => negb (is_slash a)) (rev l) = rev l).
  { destruct (rev l) as [|x r] eqn:Hr; [reflexivity|]. cbn [drop_while].
    rewrite <- forallb_rev, Hr in H. cbn [forallb] in H.
    apply andb_true_iff in H as [-> _]. reflexivity. }
  rewrite Hd, forallb_rev, H, rev_involutive. apply string_of_list_ascii_of_string.
Qed.

End PathFacts.

(** * Further facts about the lenient selector *)
Module LenientFacts.
Import Json UserAgent Notions Terms.

Section Facts.
Context (E : env).

(** What [main] does once the browser is settled. *)
Lemma main_settled browser b use_cache cache_path w :
  settled E browser b ->
  main E browser use_cache cache_path w =
  (if negb use_cache then
     let* versions := lift (parse E b) in
     match versions with
     | None => load_and_random E b cache_path
     | Some versions => lift (Random.choice (map Str versions) (rnd_int E))
     end
   else load_and_random E b cache_path) w.
Proof.
  intros Hb. unfold main. unfold bind at 1. destruct browser as [|s|i]; [| |destruct Hb].
  - cbn [settled] in Hb. unfold lift at 1. now rewrite Hb.
  - cbn [settled] in Hb. subst b.
    destruct (negb (bool_decide (lower (strip s) ∈ BROWSERS))); [|reflexivity].
    destruct (RandomFacts.choices_browsers_total (rnd_float E)) as (b' & Hb' & _).
    unfold bind, lift, ret. now rewrite Hb'.
Qed.

(** Whenever the cache is asked for, [main] is [load_and_random]. *)
Lemma main_reads_cache browser b use_cache cache_path w :
  named E browser b -> reads_cache E use_cache b ->
  main E browser use_cache cache_path w = load_and_random E b cache_path w.
Proof.
  intros [Hb _] Hc. rewrite (main_settled browser b) by exact Hb.
  destruct use_cache; [reflexivity|]. destruct Hc as [Hc|Hc]; [discriminate|].
  cbn [negb]. unfold bind, lift. now rewrite Hc.
Qed.

(** [load_and_random] changes no file, and logs at most its one read. *)
Lemma load_and_random_frame b cache_path w :
  let w' := snd (load_and_random E b cache_path w) in
  fs w' = fs w /\ (trace w' = trace w \/ trace w' = trace w ++ [EvRead cache_path]).
Proof.
  unfold load_and_random, Os.read_text.
  destruct (fs w !! cache_path) as [[|data]|]; cbn; auto.
Qed.

Lemma main_frame browser use_cache cache_path w :
  let w' := snd (main E browser use_cache cache_path w) in
  fs w' = fs w /\ (trace w' = trace w \/ trace w' = trace w ++ [EvRead cache_path]).
Proof.
  assert (Hrest : forall b,
            let w' := snd ((if negb use_cache then
                              let* versions := lift (parse E b) in
                              match versions with
                              | None => load_and_random E b cache_path
                              | Some versions =>
                                  lift (Random.choice (map Str versions) (rnd_int E))
                              end
                            else load_and_random E b cache_path) w) in
            fs w' = fs w /\ (trace w' = trace w \/ trace w' = trace w ++ [EvRead cache_path])).
  { intros b. destruct (negb use_cache); [|apply load_and_random_frame].
    unfold bind, lift. destruct (UserAgentFacts.parse_cases E b) as [[[versions|] ->]| ->];
      [cbn; auto|apply load_and_random_frame|cbn; auto]. }
  destruct browser as [|s|i].
  - destruct (RandomFacts.choices_browsers_total (rnd_float E)) as (b & Hb & _).
    rewrite (main_settled ANone b) by exact Hb. apply Hrest.
  - rewrite (main_settled (AStr s) (lower (strip s))) by reflexivity. apply Hrest.
  - cbn. auto.
Qed.

(** A catalog of [dump] holds the five lists under the five names. *)
Lemma lenient_harvest_ok data :
  harvest E = Ok data ->
  exists v1 v2 v3 v4 v5,
    parse E (py "chrome") = Ok (Some v1) /\
    parse E (py "edge") = Ok (Some v2) /\
    parse E (py "firefox") = Ok (Some v3) /\
    parse E (py "safari") = Ok (Some v4) /\
    parse E (py "opera") = Ok (Some v5) /\
    data = Obj (browsers_dict v1 v2 v3 v4 v5).
Proof.
  unfold harvest, BROWSERS. cbn [gather].
  destruct (UserAgentFacts.parse_cases E (py "chrome")) as [[r1 ->]| ->]; [|discriminate].
  destruct (UserAgentFacts.parse_cases E (py "edge")) as [[r2 ->]| ->]; [|discriminate].
  destruct (UserAgentFacts.parse_cases E (py "firefox")) as [[r3 ->]| ->]; [|discriminate].
  destruct (UserAgentFacts.parse_cases E (py "safari")) as [[r4 ->]| ->]; [|discriminate].
  destruct (UserAgentFacts.parse_cases E (py "opera")) as [[r5 ->]| ->]; [|discriminate].
  cbn [collect].
  destruct r1 as [v1|]; [|discriminate]. cbn [collect].
  destruct r2 as [v2|]; [|discriminate]. cbn [collect].
  destruct r3 as [v3|]; [|discriminate]. cbn [collect].
  destruct r4 as [v4|]; [|discriminate]. cbn [collect].
  destruct r5 as [v5|]; [|discriminate]. cbn [collect].
  rewrite LoadFacts.browsers_dict_built. intros [= <-].
  exists v1, v2, v3, v4, v5. repeat (split; [reflexivity|]). reflexivity.
Qed.

(** A harvest fails in [sys.exit(1)], or in the [AttributeError] of a
    [parse] that was left without a tree. *)
Lemma collect_cases results : forall acc,
  (exists m, collect results acc = Ok m) \/ collect results acc = Raise (SystemExit 1).
Proof.
  induction results as [|[b [vs|]] results IH]; intros acc; cbn [collect]; eauto.
Qed.

Lemma harvest_cases :
  (exists data, harvest E = Ok data) \/ harvest E = Raise (SystemExit 1) \/
  (harvest E = Raise AttributeError /\
   exists b, b ∈ BROWSERS /\ parse E b = Raise AttributeError).
Proof.
  unfold harvest.
  destruct (UserAgentFacts.gather_cases E BROWSERS) as [(rs & -> & _)|(-> & Hblank)];
    [|now right; right].
  destruct rs as [|br rs]; [now right; left|].
  destruct (collect_cases (br :: rs) []) as [[m ->]| ->]; eauto.
Qed.

End Facts.

(** Directories are only ever added. *)
Lemma only_adds_dirs_refl m : only_adds_dirs m m.
Proof. intros p. now left. Qed.

Lemma only_adds_dirs_trans m1 m2 m3 :
  only_adds_dirs m1 m2 -> only_adds_dirs m2 m3 -> only_adds_dirs m1 m3.
Proof.
  intros H12 H23 p. destruct (H12 p) as [E12|[E1 E2]], (H23 p) as [E23|[E2' E3]].
  - left. congruence.
  - right. split; congruence.
  - right. split; congruence.
  - congruence.
Qed.

Lemma mkdir_adds name w :
  only_adds_dirs (fs w) (fs (snd (Os.mkdir name w))).
Proof.
  unfold Os.mkdir.
  destruct (String.eqb name EmptyString) eqn:He; [apply only_adds_dirs_refl|].
  destruct (Os.path_exists (fs w) name) eqn:Hex; [apply only_adds_dirs_refl|].
  destruct (negb (Os.parent_ok (fs w) name)); [apply only_adds_dirs_refl|].
  cbn [orb snd fs log]. intros p. destruct (decide (p = name)) as [->|Hne].
  - right. unfold Os.path_exists, Os.isdir, Os.isfile in Hex.
    rewrite lookup_insert_eq. split; [|reflexivity].
    destruct (fs w !! name) as [[|d]|]; [| |reflexivity].
    + rewrite !orb_true_r in Hex. discriminate.
    + rewrite orb_true_r in Hex. discriminate.
  - left. now apply lookup_insert_ne.
Qed.

Lemma makedirs_adds n : forall name w,
  only_adds_dirs (fs w) (fs (snd (Os.makedirs n name w))).
Proof.
  induction n as [|n IH]; intros name w; [apply only_adds_dirs_refl|].
  cbn [Os.makedirs]. unfold bind.
  assert (Hstep : forall w1, only_adds_dirs (fs w1)
            (fs (snd (try_except (Os.mkdir name)
                        (fun e w => if Os.isdir (fs w) name then (Ok tt, w) else (Raise e, w))
                        w1)))).
  { intros w1. pose proof (mkdir_adds name w1) as Hm. unfold try_except.
    destruct (Os.mkdir name w1) as [[[]|e|] w2]; cbn [snd] in *; try exact Hm.
    destruct e; try exact Hm; destruct (Os.isdir (fs w2) name); exact Hm. }
  destruct (negb (String.eqb (Os.dirname name) EmptyString)
            && negb (String.eqb (Os.dirname name) name)
            && negb (Os.path_exists (fs w) (Os.dirname name))); [|apply Hstep].
  pose proof (IH (Os.dirname name) w) as Hrec.
  destruct (Os.makedirs n (Os.dirname name) w) as [[[]|e|] w1]; cbn [snd] in *;
    [|exact Hrec..].
  eapply only_adds_dirs_trans; [exact Hrec|apply Hstep].
Qed.

(** The last step of [dump]: the file is written, or [die] is called and
    nothing has changed. *)
Lemma write_or_die path data w :
  try_except (Os.write_text path data) (fun _ => die) w
  = (Ok tt, log (EvWrite path data) {| fs := <[path := File data]> (fs w); trace := trace w |})
  \/ try_except (Os.write_text path data) (fun _ => die) w = (Raise (SystemExit 1), w).
Proof.
  unfold try_except, Os.write_text, die, raise. destruct (_ || _ || _); auto.
Qed.

(** The only exception of [makedirs] is [OSError]. *)
Lemma makedirs_raises n : forall name w e,
  fst (Os.makedirs n name w) = Raise e -> e = OSError.
Proof.
  induction n as [|n IH]; intros name w e; [discriminate|].
  cbn [Os.makedirs]. unfold bind.
  assert (Hstep : forall w1,
            fst (try_except (Os.mkdir name)
                   (fun e w => if Os.isdir (fs w) name then (Ok tt, w) else (Raise e, w)) w1)
            = Raise e -> e = OSError).
  { intros w1. unfold try_except, Os.mkdir.
    destruct (_ || _ || _); cbn [fst]; [|discriminate].
    destruct (Os.isdir (fs w1) name); cbn [fst]; congruence. }
  destruct (negb (String.eqb (Os.dirname name) EmptyString)
            && negb (String.eqb (Os.dirname name) name)
            && negb (Os.path_exists (fs w) (Os.dirname name))); [|apply Hstep].
  pose proof (IH (Os.dirname name) w) as Hrec.
  destruct (Os.makedirs n (Os.dirname name) w) as [[[]|e'|] w1]; cbn [fst] in *;
    [apply Hstep| |discriminate].
  intros [= <-]. now apply Hrec.
Qed.

(** The directories of [dump]: they are made, or [die] is called; no file
    is touched either way. *)
Lemma prepare_cases (dir : string) (p : string) w :
  let run := try_except (let* _ := Os.makedirs (S (String.length dir)) dir in ret p)
               (fun _ => die) w in
  only_adds_dirs (fs w) (fs (snd run)) /\
  (fst run = Ok p \/ fst run = Raise (SystemExit 1)).
Proof.
  cbv zeta. pose proof (makedirs_adds (S (String.length dir)) dir w) as Hadd.
  pose proof (OsFacts.makedirs_total (S (String.length dir)) dir w ltac:(lia)) as Htot.
  pose proof (makedirs_raises (S (String.length dir)) dir w) as Hexn.
  unfold try_except, bind, ret, die, raise.
  destruct (Os.makedirs _ _ w) as [[[]|e|] w2]; cbn [fst snd] in *.
  - split; [exact Hadd|now left].
  - rewrite (Hexn e eq_refl). split; [exact Hadd|now right].
  - congruence.
Qed.

(** How [dump] ends, and what it leaves behind. *)
Lemma dump_cases (E : env) (cache_path : string) (w : world) :
  let r := fst (dump E cache_path w) in
  let w' := snd (dump E cache_path w) in
  (r = Ok tt /\
   (exists catalog, harvest E = Ok catalog /\
      fs w' !! target E cache_path = Some (File (Json.dumps catalog))) /\
   (forall p, p <> target E cache_path ->
      fs w' !! p = fs w !! p \/ (fs w !! p = None /\ fs w' !! p = Some Dir)))
  \/
  (r = Raise (SystemExit 1) /\ only_adds_dirs (fs w) (fs w'))
  \/
  (r = Raise AttributeError /\ w' = w /\
   exists b, b ∈ BROWSERS /\ parse E b = Raise AttributeError).
Proof.
  cbv zeta.
  assert (Hlast : forall path data w1,
            only_adds_dirs (fs w) (fs w1) ->
            let r := fst (try_except (Os.write_text path data) (fun _ => die) w1) in
            let w' := snd (try_except (Os.write_text path data) (fun _ => die) w1) in
            (r = Ok tt /\ fs w' !! path = Some (File data) /\
             (forall p, p <> path ->
                fs w' !! p = fs w !! p \/ (fs w !! p = None /\ fs w' !! p = Some Dir)))
            \/ (r = Raise (SystemExit 1) /\ only_adds_dirs (fs w) (fs w'))).
  { intros path data w1 Hadd. cbv zeta.
    destruct (write_or_die path data w1) as [-> | ->]; cbn [fst snd].
    - left. split; [reflexivity|]. cbn [fs log]. split; [apply lookup_insert_eq|].
      intros p Hp. rewrite lookup_insert_ne by congruence. apply Hadd.
    - right. split; [reflexivity|exact Hadd]. }
  unfold dump, target. unfold bind at 1 3. unfold lift.
  destruct (harvest_cases E) as [[data Hdata]|[Hexit|[Hattr Hblank]]]; cycle 1.
  { rewrite Hexit. right. left. split; [reflexivity|apply only_adds_dirs_refl]. }
  { rewrite Hattr. right. right. split; [reflexivity|]. split; [reflexivity|exact Hblank]. }
  rewrite Hdata.
  assert (Hwrap : forall path w1,
            only_adds_dirs (fs w) (fs w1) ->
            let run := try_except (Os.write_text path (Json.dumps data))
                         (fun _ => die) w1 in
            (fst run = Ok tt /\
             (exists catalog, Ok data = Ok catalog /\
                fs (snd run) !! path = Some (File (Json.dumps catalog))) /\
             (forall p, p <> path ->
                fs (snd run) !! p = fs w !! p \/ (fs w !! p = None /\ fs (snd run) !! p = Some Dir)))
            \/ (fst run = Raise (SystemExit 1) /\ only_adds_dirs (fs w) (fs (snd run)))).
  { intros path w1 Hadd. cbv zeta.
    destruct (Hlast path (Json.dumps data) w1 Hadd) as [(Hr & Hf & Hp)|H]; [left|now right].
    split; [exact Hr|]. split; [|exact Hp]. now exists data. }
  assert (Hwrap3 : forall path w1,
            only_adds_dirs (fs w) (fs w1) ->
            let run := try_except (Os.write_text path (Json.dumps data))
                         (fun _ => die) w1 in
            (fst run = Ok tt /\
             (exists catalog, Ok data = Ok catalog /\
                fs (snd run) !! path = Some (File (Json.dumps catalog))) /\
             (forall p, p <> path ->
                fs (snd run) !! p = fs w !! p \/ (fs w !! p = None /\ fs (snd run) !! p = Some Dir)))
            \/ (fst run = Raise (SystemExit 1) /\ only_adds_dirs (fs w) (fs (snd run)))
            \/ (fst run = Raise AttributeError /\ snd run = w /\
                exists b, b ∈ BROWSERS /\ parse E b = Raise AttributeError)).
  { intros path w1 Hadd. cbv zeta.
    destruct (Hwrap path w1 Hadd) as [H|H]; [now left|now right; left]. }
  clear Hwrap.
  destruct (negb (String.eqb (Os.dirname cache_path) EmptyString)
            && negb (String.eqb (Os.dirname cache_path) ".")).
  - unfold bind.
    destruct (negb (Os.path_exists (fs w) (Os.dirname (expand E cache_path)))).
    + pose proof (prepare_cases
                    (Os.dirname (expand E cache_path))
                    (expand E cache_path) w) as [Hadd Hrun].
      cbv zeta in Hadd, Hrun.
      match goal with |- context [try_except ?m ?h w] =>
        destruct (try_except m h w) as [r w2] eqn:Htry end.
      match type of Hadd with context [try_except ?m ?h w] =>
        assert (Hconv : try_except m h w = (r, w2)) by exact Htry end.
      rewrite Hconv in Hadd, Hrun. cbn [fst snd] in Hadd, Hrun. destruct Hrun as [-> | ->].
      * apply Hwrap3. exact Hadd.
      * right. left. split; [reflexivity|exact Hadd].
    + apply Hwrap3. apply only_adds_dirs_refl.
  - unfold bind, ret. apply Hwrap3. apply only_adds_dirs_refl.
Qed.

(** [remove], when it returns, has deleted the file at its target. *)
Lemma remove_ok E cache_path w w' :
  remove E cache_path w = (Ok tt, w') ->
  fs w' = delete (target E cache_path) (fs w).
Proof.
  unfold remove, target, bind, ret, try_except, Os.remove, die, raise.
  destruct (negb (String.eqb (Os.dirname cache_path) EmptyString)
            && negb (String.eqb (Os.dirname cache_path) ".")).
  - destruct (negb (Os.path_exists (fs w) (Os.dirname (expand E cache_path))));
      [discriminate|].
    destruct (Os.isfile (fs w) (expand E cache_path)); [|discriminate].
    now intros [= <-].
  - destruct (Os.isfile (fs w) cache_path); [|discriminate]. now intros [= <-].
Qed.

End LenientFacts.

(** * Further facts about the strict selector *)
Module StrictFacts.
Import Json Utils Notions Terms.

Lemma bind_ext {A B} (m m' : M A) (k : A -> M B) w :
  m w = m' w -> bind m k w = bind m' k w.
Proof. unfold bind. now intros ->. Qed.

Lemma dict_get_none {V} (k : pystr) (m : list (pystr * V)) :
  k ∉ map fst m -> dict_get k m = None.
Proof.
  induction m as [|[k' v] m IH]; [reflexivity|]. cbn [dict_get map fst]. intros Hk.
  unfold pystr_eqb. rewrite bool_decide_eq_false_2.
  - apply IH. intros Hin. apply Hk. now apply list_elem_of_further.
  - intros ->. apply Hk. apply list_elem_of_here.
Qed.

Lemma scan_matches_listed groups : forall browsers,
  (length browsers < BROWSERS_COUNT_LIMIT)%nat ->
  scan_matches groups browsers
  = take BROWSERS_COUNT_LIMIT (browsers ++ List.filter kept groups).
Proof.
  induction groups as [|g groups IH]; intros browsers Hlen; cbn [scan_matches List.filter].
  - rewrite app_nil_r. symmetry. apply take_ge. lia.
  - unfold kept at 1. destruct (contains (py "more") (lower g)); cbn [negb]; [now apply IH|].
    replace (browsers ++ g :: List.filter kept groups)
      with ((browsers ++ [g]) ++ List.filter kept groups) by now rewrite <- app_assoc.
    destruct (Nat.eqb_spec (length (browsers ++ [g])) BROWSERS_COUNT_LIMIT) as [Heq|Hne].
    + symmetry. now apply take_app_length'.
    + apply IH. rewrite length_app in *. cbn [length] in *. lia.
Qed.

Section Facts.
Context (cfg : settings) (E : env).

(** The only exception of [get] is the library's. *)
Lemma get_loop_raises {A} (source : nat -> reply A) fuel : forall attempt e,
  get_loop cfg source fuel attempt = Raise e ->
  e = FakeUserAgentError "Maximum amount of retries reached".
Proof.
  induction fuel as [|n IH]; intros attempt e; [discriminate|]. cbn [get_loop].
  destruct (source _); [|discriminate].
  destruct (_ =? _)%Z; [now intros [= <-]|apply IH].
Qed.

(** With a limit of one attempt or more and fuel for that many rounds,
    [get] comes to an end. *)
Lemma get_loop_total {A} (source : nat -> reply A) fuel : forall attempt,
  (0 <= attempt < HTTP_RETRIES cfg)%Z ->
  (Z.to_nat (HTTP_RETRIES cfg - attempt) <= fuel)%nat ->
  get_loop cfg source fuel attempt <> OutOfFuel.
Proof.
  induction fuel as [|n IH]; intros attempt Ha Hf; [lia|]. cbn [get_loop].
  destruct (source _); [|discriminate].
  destruct (Z.eqb_spec (attempt + 1) (HTTP_RETRIES cfg)); [discriminate|]. apply IH; lia.
Qed.

Lemma get_total {A} (source : nat -> reply A) fuel :
  (1 <= HTTP_RETRIES cfg)%Z -> (Z.to_nat (HTTP_RETRIES cfg) <= fuel)%nat ->
  get cfg source fuel <> OutOfFuel.
Proof. intros HR Hf. apply get_loop_total; lia. Qed.

Lemma get_browser_versions_total fuel browser :
  (1 <= HTTP_RETRIES cfg)%Z -> (Z.to_nat (HTTP_RETRIES cfg) <= fuel)%nat ->
  get_browser_versions cfg E fuel browser <> OutOfFuel.
Proof.
  intros HR Hf. unfold get_browser_versions.
  pose proof (get_total (pages E browser) fuel HR Hf) as Hg.
  destruct (get cfg (pages E browser) fuel) as [[groups|]| |]; try discriminate; [|congruence].
  destruct (scan_matches _ _); discriminate.
Qed.

(** [get_browser_versions] raises [IndexError] or the library's error. *)
Lemma get_browser_versions_raises fuel browser e :
  get_browser_versions cfg E fuel browser = Raise e ->
  e = IndexError \/ exists msg, e = FakeUserAgentError msg.
Proof.
  unfold get_browser_versions.
  destruct (get cfg (pages E browser) fuel) as [[groups|]| |] eqn:Hg; try discriminate.
  - destruct (scan_matches _ _); [|discriminate]. intros [= <-]. right. eauto.
  - intros [= <-]. now left.
  - intros [= <-]. apply get_loop_raises in Hg. right. eauto.
Qed.

(** Where [data] comes from when the cache file is there: one read. *)
Lemma obtain_data_cached fuel w :
  Os.isfile (fs w) (DB cfg) = true ->
  obtain_data cfg E fuel true w = read (DB cfg) w.
Proof. intros Hf. unfold obtain_data. now rewrite Hf. Qed.

End Facts.

(** The [randomize] table, entry by entry. *)
Lemma randomize_keys : map fst RANDOMIZE = map str_of_nat (seq 0 985).
Proof. vm_compute. reflexivity. Qed.

Lemma randomize_shares :
  map snd RANDOMIZE
  = repeat (Str (py "chrome")) 807 ++ repeat (Str (py "edge")) 56 ++
    repeat (Str (py "firefox")) 61 ++ repeat (Str (py "safari")) 37 ++
    repeat (Str (py "opera")) 24.
Proof. vm_compute. reflexivity. Qed.

End StrictFacts.

(** * Facts about the search for a cache *)
Module SettingsFacts.
Import Settings.

Lemma find_app {A} (f : A -> bool) l1 l2 :
  List.find f (l1 ++ l2)
  = match List.find f l1 with
    | Some x => Some x
    | None => List.find f l2
    end.
Proof.
  induction l1 as [|x l1 IH]; [reflexivity|]. cbn [app List.find]. now destruct (f x).
Qed.

Lemma find_none_iff {A} (f : A -> bool) l :
  List.find f l = None <-> Forall (fun x => f x = false) l.
Proof.
  induction l as [|x l IH]; cbn [List.find].
  - split; [constructor|reflexivity].
  - destruct (f x) eqn:Hx.
    + split; [discriminate|]. intros H. apply Forall_cons_1 in H as [H _]. congruence.
    + rewrite IH. split; [now constructor|]. intros H. now apply Forall_cons_1 in H as [_ H].
Qed.

Lemma find_some_true {A} (f : A -> bool) l x : List.find f l = Some x -> f x = true.
Proof.
  induction l as [|y l IH]; cbn [List.find]; [discriminate|].
  destruct (f y) eqn:Hy; [now intros [= <-]|exact IH].
Qed.

(** The search is the search in the list of all the names, in the order
    of the walk. *)
Lemma search_walk t : search t = List.find is_cache_name (walk t).
Proof.
  induction t as [files dirs IH] using tree_ind. cbn [search walk]. rewrite find_app.
  destruct (List.find is_cache_name files); [reflexivity|].
  induction IH as [|d ds Hd _ IHds]; [reflexivity|].
  cbn [flat_map]. rewrite find_app, <- Hd.
  destruct (search (snd d)); [reflexivity|exact IHds].
Qed.

Lemma append_empty a b : (a ++ b)%string = EmptyString -> b = EmptyString.
Proof. destruct a; [trivial|discriminate]. Qed.

Lemma join_not_empty dir f : f <> EmptyString -> join dir f <> EmptyString.
Proof.
  intros Hf H. unfold join in H. destruct (_ || _).
  - now apply append_empty in H.
  - apply append_empty in H. discriminate.
Qed.

Lemma cache_name_not_empty f : is_cache_name f = true -> f <> EmptyString.
Proof. intros H ->. discriminate. Qed.

Lemma cache_name_of_version version :
  is_cache_name ("fake_useragent_" ++ version ++ ".json") = true.
Proof. cbn. now destruct (version ++ ".json")%string. Qed.

End SettingsFacts.

(** * Facts about the matches of a page *)
Module ScrapeFacts.
Import Scrape.

Lemma starts_spec p s : starts p s = true <-> exists r, s = p ++ r.
Proof.
  revert s. induction p as [|a p IH]; intros s; cbn [starts].
  - split; [now exists s|reflexivity].
  - destruct s as [|c s].
    + split; [discriminate|]. now intros [r [=]].
    + rewrite andb_true_iff, N.eqb_eq, IH. split.
      * intros [-> [r ->]]. now exists r.
      * intros [r [= -> ->]]. eauto.
Qed.

Lemma starts_app p r : starts p (p ++ r) = true.
Proof. apply starts_spec. now exists r. Qed.

Lemma starts_lookup p s i c :
  starts p s = true -> p !! i = Some c -> s !! i = Some c.
Proof.
  intros H Hp. apply starts_spec in H as [r ->]. now apply lookup_app_l_Some.
Qed.

(** ** [split] *)

Lemma push_nil o : push [] o = o.
Proof. now destruct o as [[x y]|]. Qed.

Lemma push_app a b o : push (a ++ b) o = push a (push b o).
Proof. destruct o as [[x y]|]; [|reflexivity]. cbn [push]. now rewrite app_assoc. Qed.

Lemma free_nil sep : free sep [].
Proof. intros r. now rewrite push_nil. Qed.

Lemma free_app sep a b : free sep a -> free sep b -> free sep (a ++ b).
Proof. intros Ha Hb r. now rewrite <- app_assoc, Ha, Hb, push_app. Qed.

Lemma free_other h sep a : Forall (fun c => c <> h) a -> free (h :: sep) a.
Proof.
  induction 1 as [|c a Hc _ IH]; [apply free_nil|]. intros r.
  cbn [app cut starts]. rewrite (proj2 (N.eqb_neq h c)) by congruence. cbn [andb].
  rewrite IH. now destruct (cut (h :: sep) r) as [[x y]|].
Qed.

Lemma cut_here sep r : cut sep (sep ++ r) = Some ([], r).
Proof.
  destruct sep as [|h sep]; [now destruct r|].
  cbn [cut app]. change (h :: sep ++ r) with ((h :: sep) ++ r).
  now rewrite starts_app, drop_app_length.
Qed.

Lemma contains_head needle hay :
  contains needle hay = false -> take (length needle) hay <> needle.
Proof.
  destruct hay; cbn [contains]; intros H; apply orb_false_iff in H as [H _];
    now apply bool_decide_eq_false_1 in H.
Qed.

Lemma contains_tail needle c hay :
  contains needle (c :: hay) = false -> contains needle hay = false.
Proof. cbn [contains]. intros H. now apply orb_false_iff in H as [_ H]. Qed.

(** The first occurrence of a separator whose first character occurs in
    it only once, after a text that does not hold it. *)
Lemma cut_first h sep before r :
  h ∉ sep -> contains (h :: sep) before = false ->
  cut (h :: sep) (before ++ (h :: sep) ++ r) = Some (before, r).
Proof.
  intros Hh. induction before as [|c before IH]; intros Hc.
  - exact (cut_here (h :: sep) r).
  - assert (Hs : starts (h :: sep) ((c :: before) ++ (h :: sep) ++ r) = false).
    { apply not_true_is_false. intros Hs.
      destruct (Nat.lt_ge_cases (length (c :: before)) (length (h :: sep))) as [Hlt|Hge].
      - assert (Hat : ((c :: before) ++ (h :: sep) ++ r) !! length (c :: before) = Some h).
        { rewrite lookup_app_r by lia. now rewrite Nat.sub_diag. }
        destruct (lookup_lt_is_Some_2 (h :: sep) (length (c :: before)) Hlt) as [x Hx].
        pose proof (starts_lookup _ _ _ _ Hs Hx) as Hx'.
        assert (Hxh : Some x = Some h) by (etransitivity; [symmetry; exact Hx'|exact Hat]).
        injection Hxh as ->. cbn [length] in Hx. cbn [lookup] in Hx.
        apply Hh. eapply list_elem_of_lookup_2. exact Hx.
      - apply contains_head in Hc. apply Hc.
        apply starts_spec in Hs as [r' Hr'].
        apply (f_equal (take (length (h :: sep)))) in Hr'.
        rewrite take_app_le in Hr' by exact Hge.
        now rewrite take_app_length in Hr'. }
    cbn [app] in *. cbn [cut]. rewrite Hs.
    rewrite IH by (eapply contains_tail; exact Hc). reflexivity.
Qed.

(** ** The pattern *)

Lemma drop_while_split {A} (f : A -> bool) l :
  exists pre, l = pre ++ drop_while f l /\ Forall (fun x => f x = true) pre.
Proof.
  induction l as [|x l (pre & Hl & Hpre)]; [now exists []|]. cbn [drop_while].
  destruct (f x) eqn:Hx; [|now exists []].
  exists (x :: pre). split; [cbn [app]; now f_equal|now constructor].
Qed.

Lemma after_digits_spec s s1 :
  after_digits s = Some s1 ->
  exists digits, s = digits ++ s1 /\ digits <> [] /\ Forall (fun c => is_digit c = true) digits.
Proof.
  destruct s as [|c t]; [discriminate|]. cbn [after_digits].
  destruct (is_digit c) eqn:Hc; [|discriminate]. intros [= <-].
  destruct (drop_while_split is_digit t) as (pre & Ht & Hpre).
  exists (c :: pre). split; [cbn [app]; now f_equal|]. split; [discriminate|now constructor].
Qed.

Lemma group_1_spec s : forall g rest,
  group_1 s = Some (g, rest) ->
  s = g ++ py "</a" ++ rest /\ g <> [] /\ Forall (fun c => c <> 10) g.
Proof.
  induction s as [|c t IH]; intros g rest; [discriminate|]. cbn [group_1].
  destruct (N.eqb_spec c 10) as [|Hc]; [discriminate|].
  destruct (starts (py "</a") t) eqn:Hs.
  - intros [= <- <-]. apply starts_spec in Hs as [r ->].
    split; [|split; [discriminate|now repeat constructor]].
    reflexivity.
  - destruct (group_1 t) as [[g' rest']|]; [|discriminate]. intros [= <- <-].
    destruct (IH g' rest' eq_refl) as (-> & _ & Hg).
    split; [reflexivity|]. split; [discriminate|now constructor].
Qed.

Lemma match_here_spec s g rest :
  match_here s = Some (g, rest) ->
  exists digits,
    s = py "?id=" ++ digits ++ py "'>" ++ g ++ py "</a" ++ rest /\
    digits <> [] /\ Forall (fun c => is_digit c = true) digits /\
    g <> [] /\ Forall (fun c => c <> 10) g.
Proof.
  unfold match_here. destruct (starts (py "?id=") s) eqn:H1; [|discriminate].
  apply starts_spec in H1 as [r1 ->].
  change 4%nat with (length (py "?id=")). rewrite drop_app_length.
  destruct (after_digits r1) as [s1|] eqn:H2; [|discriminate].
  apply after_digits_spec in H2 as (digits & -> & Hne & Hd).
  destruct (starts (py "'>") s1) eqn:H3; [|discriminate].
  apply starts_spec in H3 as [r3 ->].
  change 2%nat with (length (py "'>")). rewrite drop_app_length.
  intros H4. apply group_1_spec in H4 as (-> & Hg & Hnl).
  exists digits. auto.
Qed.

(** ** [finditer] *)

Lemma finditer_from_drop s : forall skip, finditer_from s skip = finditer (drop skip s).
Proof.
  induction s as [|c t IH]; intros [|k]; try reflexivity.
  cbn [finditer_from drop]. apply IH.
Qed.

Lemma drop_to_suffix {A} (a rest : list A) :
  drop (length (a ++ rest) - length rest) (a ++ rest) = rest.
Proof.
  rewrite length_app. replace (length a + length rest - length rest)%nat with (length a) by lia.
  apply drop_app_length.
Qed.

Lemma drop_after_head {A} (c : A) t a rest :
  c :: t = a ++ rest -> a <> [] -> drop (length t - length rest) t = rest.
Proof.
  destruct a as [|x a]; [congruence|]. cbn [app]. intros [= -> ->] _. apply drop_to_suffix.
Qed.

Lemma finditer_match s g rest :
  match_here s = Some (g, rest) -> finditer s = g :: finditer rest.
Proof.
  intros H. pose proof (match_here_spec s g rest H) as (digits & Hs & _).
  destruct s as [|c t]; [discriminate|].
  unfold finditer at 1. cbn [finditer_from]. rewrite H. f_equal.
  rewrite finditer_from_drop. f_equal.
  apply (drop_after_head c t (py "?id=" ++ digits ++ py "'>" ++ g ++ py "</a") rest);
    [rewrite Hs; now rewrite <- !app_assoc|discriminate].
Qed.

Lemma finditer_no_match c t : match_here (c :: t) = None -> finditer (c :: t) = finditer t.
Proof. intros H. unfold finditer at 1. cbn [finditer_from]. now rewrite H. Qed.

(** Characters that are no question mark are passed over. *)
Lemma finditer_skip a r : Forall (fun c => c <> 63) a -> finditer (a ++ r) = finditer r.
Proof.
  induction 1 as [|c a Hc _ IH]; [reflexivity|]. cbn [app].
  rewrite finditer_no_match; [exact IH|].
  unfold match_here. cbn [py map list_ascii_of_string starts].
  change (N_of_ascii "?") with 63. now rewrite (proj2 (N.eqb_neq 63 c)) by congruence.
Qed.

(** Every match is the text of a link to an entry: what [finditer] yields
    stands in the text between [?id=], digits and a quote with [>] on the
    one side and [</a] on the other. *)
Lemma finditer_sound s : forall g,
  g ∈ finditer s ->
  g <> [] /\ Forall (fun c => c <> 10) g /\
  exists a digits b,
    s = a ++ py "?id=" ++ digits ++ py "'>" ++ g ++ py "</a" ++ b /\
    digits <> [] /\ Forall (fun c => is_digit c = true) digits.
Proof.
  remember (length s) as n eqn:Hn. revert s Hn.
  induction n as [n IH] using lt_wf_ind. intros s -> g Hg.
  destruct s as [|c t]; [now apply elem_of_nil in Hg|].
  destruct (match_here (c :: t)) as [[g' rest]|] eqn:Hm.
  - rewrite (finditer_match _ _ _ Hm) in Hg.
    destruct (match_here_spec _ _ _ Hm) as (digits & Hs & Hne & Hd & Hg' & Hnl).
    apply elem_of_cons in Hg as [->|Hg].
    + split; [exact Hg'|]. split; [exact Hnl|]. exists [], digits, rest. auto.
    + destruct (IH (length rest)) with (s := rest) (g := g)
        as (H1 & H2 & a & digits' & b & Hrest & H3 & H4); [|reflexivity|exact Hg|].
      { rewrite Hs. rewrite !length_app. cbn [length py map list_ascii_of_string]. lia. }
      split; [exact H1|]. split; [exact H2|].
      exists (py "?id=" ++ digits ++ py "'>" ++ g' ++ py "</a" ++ a), digits', b.
      split; [|auto]. rewrite Hs, Hrest. now rewrite <- !app_assoc.
  - rewrite (finditer_no_match _ _ Hm) in Hg.
    destruct (IH (length t)) with (s := t) (g := g)
      as (H1 & H2 & a & digits & b & Ht & H3 & H4); [cbn [length]; lia|reflexivity|exact Hg|].
    split; [exact H1|]. split; [exact H2|].
    exists (c :: a), digits, b. split; [|auto]. now rewrite Ht.
Qed.

(** ** A page with its list *)

Lemma clash_starts p s r : clash p s = true -> starts p (s ++ r) = false.
Proof.
  revert s. induction p as [|a p IH]; intros [|c s]; cbn [clash starts app]; try discriminate.
  intros H. apply orb_true_iff in H as [H|H].
  - apply negb_true_iff in H. now rewrite H.
  - rewrite (IH s H). apply andb_false_r.
Qed.

Lemma free_clash sep a : all_clash sep a = true -> free sep a.
Proof.
  induction a as [|c a IH]; intros H; [apply free_nil|].
  cbn [all_clash] in H. apply andb_true_iff in H as [Hc Ha]. intros r.
  pose proof (clash_starts sep (c :: a) r Hc) as Hs. cbn [app] in *.
  destruct sep as [|h sep]; [discriminate Hc|].
  cbn [cut]. rewrite Hs. rewrite (IH Ha r). now destruct (cut (h :: sep) r) as [[x y]|].
Qed.

Lemma Forall_and_l {A} (P Q : A -> Prop) l : Forall (fun x => P x /\ Q x) l -> Forall P l.
Proof. intros H. eapply Forall_impl; [exact H|]. now intros x [? ?]. Qed.

Lemma Forall_and_r {A} (P Q : A -> Prop) l : Forall (fun x => P x /\ Q x) l -> Forall Q l.
Proof. intros H. eapply Forall_impl; [exact H|]. now intros x [? ?]. Qed.

Lemma digit_other c d : is_digit c = true -> (d < 48 \/ 57 < d) -> c <> d.
Proof.
  unfold is_digit. intros H Hd ->. apply andb_true_iff in H as [H1 H2].
  apply N.leb_le in H1, H2. lia.
Qed.

(** No separator with [<] at its head begins inside an entry, as long as
    it clashes with the fixed parts of the entry. *)
Lemma free_item sep id ua :
  all_clash (60 :: sep) (py "<li><a href='/index.php?id=") = true ->
  all_clash (60 :: sep) (py "'>") = true ->
  all_clash (60 :: sep) (py "</a></li>") = true ->
  plain_entry (id, ua) -> free (60 :: sep) (item id ua).
Proof.
  intros H1 H2 H3 (_ & Hid & _ & Hua). cbn [fst snd] in *. unfold item.
  repeat apply free_app; try now apply free_clash.
  - apply free_other. eapply Forall_impl; [exact Hid|].
    intros c Hc. apply (digit_other c 60 Hc). lia.
  - apply free_other. now apply Forall_and_r in Hua.
Qed.

Lemma free_items sep entries :
  all_clash (60 :: sep) (py "<li><a href='/index.php?id=") = true ->
  all_clash (60 :: sep) (py "'>") = true ->
  all_clash (60 :: sep) (py "</a></li>") = true ->
  Forall plain_entry entries ->
  free (60 :: sep) (flat_map (fun e => item (fst e) (snd e)) entries).
Proof.
  intros H1 H2 H3. induction 1 as [|[id ua] entries He _ IH]; [apply free_nil|].
  cbn [flat_map fst snd]. apply free_app; [now apply free_item|exact IH].
Qed.

Lemma drop_while_run {A} (f : A -> bool) pre c r :
  Forall (fun x => f x = true) pre -> f c = false -> drop_while f (pre ++ c :: r) = c :: r.
Proof.
  intros Hpre Hc. induction Hpre as [|x pre Hx _ IH]; cbn [app drop_while].
  - now rewrite Hc.
  - now rewrite Hx.
Qed.

Lemma group_1_run ua r :
  ua <> [] -> Forall (fun c => c <> 10 /\ c <> 60) ua ->
  group_1 (ua ++ py "</a" ++ r) = Some (ua, r).
Proof.
  intros Hne Hua. induction Hua as [|c ua [Hnl Hlt] Hua IH]; [congruence|].
  cbn [app group_1]. rewrite (proj2 (N.eqb_neq c 10)) by exact Hnl.
  destruct ua as [|c' ua].
  - cbn [app]. now rewrite starts_app.
  - apply Forall_cons_1 in Hua as [[_ Hc'] _].
    replace (starts (py "</a") ((c' :: ua) ++ py "</a" ++ r)) with false.
    + now rewrite IH.
    + cbn [app py map list_ascii_of_string starts]. change (N_of_ascii "<") with 60.
      now rewrite (proj2 (N.eqb_neq 60 c')) by congruence.
Qed.

Lemma match_here_entry id ua r :
  plain_entry (id, ua) ->
  match_here (py "?id=" ++ id ++ py "'>" ++ ua ++ py "</a" ++ r) = Some (ua, r).
Proof.
  intros (Hid & Hd & Hua & Hplain). cbn [fst snd] in *. unfold match_here.
  rewrite starts_app. change 4%nat with (length (py "?id=")). rewrite drop_app_length.
  destruct id as [|d id]; [congruence|]. apply Forall_cons_1 in Hd as [Hd Hds].
  cbn [app after_digits]. rewrite Hd.
  change (py "'>" ++ ua ++ py "</a" ++ r) with (39 :: py ">" ++ ua ++ py "</a" ++ r).
  rewrite drop_while_run by (try exact Hds; reflexivity).
  change (39 :: py ">" ++ ua ++ py "</a" ++ r) with (py "'>" ++ ua ++ py "</a" ++ r).
  rewrite starts_app. change 2%nat with (length (py "'>")). rewrite drop_app_length.
  now apply group_1_run.
Qed.

Lemma Forall_of_forallb {A} (f : A -> bool) l : forallb f l = true -> Forall (fun x => f x = true) l.
Proof. intros H. apply List.Forall_forall. now apply forallb_forall. Qed.

Lemma no_question_mark l :
  forallb (fun c => negb (c =? 63)) l = true -> Forall (fun c => c <> 63) l.
Proof.
  intros H. apply Forall_of_forallb in H. eapply Forall_impl; [exact H|].
  intros c Hc ->. discriminate.
Qed.

Lemma finditer_item id ua r :
  plain_entry (id, ua) -> finditer (item id ua ++ r) = ua :: finditer r.
Proof.
  intros He. unfold item.
  change (py "<li><a href='/index.php?id=") with (py "<li><a href='/index.php" ++ py "?id=").
  change (py "</a></li>") with (py "</a" ++ py "></li>").
  rewrite <- !app_assoc. rewrite finditer_skip by (now apply no_question_mark).
  rewrite (finditer_match _ ua (py "></li>" ++ r)) by now apply match_here_entry.
  f_equal; apply finditer_skip; now apply no_question_mark.
Qed.

Lemma finditer_items entries :
  Forall plain_entry entries ->
  finditer (flat_map (fun e => item (fst e) (snd e)) entries) = map snd entries.
Proof.
  induction 1 as [|[id ua] entries He _ IH]; [reflexivity|].
  cbn [flat_map map fst snd]. rewrite finditer_item by exact He. now f_equal.
Qed.

(** The matches of a page with a list are the texts of its entries. *)
Lemma groups_listing before entries after :
  contains (py "<div id='liste'>") before = false ->
  Forall plain_entry entries ->
  groups (listing before entries after) = Some (map snd entries).
Proof.
  intros Hbefore Hentries. unfold groups, listing, piece_1.
  change (py "<div id='liste'>") with (60 :: py "div id='liste'>") in *.
  rewrite cut_first; [|apply (bool_decide_unpack _); vm_compute; exact I|exact Hbefore].
  f_equal. unfold piece_0 at 2.
  assert (Hinner : free (60 :: py "div id='liste'>")
                     (flat_map (fun e => item (fst e) (snd e)) entries ++ py "</div>")).
  { apply free_app; [now apply free_items|now apply free_clash]. }
  rewrite app_assoc, Hinner.
  assert (Hlist : forall tail,
            finditer (piece_0 (py "</div>")
                        ((flat_map (fun e => item (fst e) (snd e)) entries ++ py "</div>") ++ tail))
            = map snd entries).
  { intros tail. unfold piece_0. rewrite <- app_assoc.
    change (py "</div>") with (60 :: py "/div>").
    rewrite (free_items (py "/div>") entries) by (try exact Hentries; reflexivity).
    rewrite cut_here. cbn [push]. rewrite app_nil_r. now apply finditer_items. }
  destruct (cut (60 :: py "div id='liste'>") after) as [[x y]|]; cbn [push].
  - apply Hlist.
  - apply Hlist.
Qed.

(** What comes out of [split] is part of the text. *)
Lemma cut_spec sep s : forall a b, cut sep s = Some (a, b) -> s = a ++ sep ++ b.
Proof.
  induction s as [|c t IH]; intros a b; cbn [cut].
  - destruct (starts sep []) eqn:Hs; [|discriminate]. intros [= <- <-].
    apply starts_spec in Hs as [r Hr]. rewrite Hr at 1. cbn [app]. f_equal.
    rewrite Hr at 1. now rewrite drop_app_length.
  - destruct (starts sep (c :: t)) eqn:Hs.
    + intros [= <- <-]. apply starts_spec in Hs as [r Hr]. rewrite Hr. cbn [app].
      now rewrite drop_app_length.
    + destruct (cut sep t) as [[a' b']|]; [|discriminate]. intros [= <- <-].
      cbn [app]. f_equal. now apply IH.
Qed.

Lemma piece_0_prefix sep s : exists r, s = piece_0 sep s ++ r.
Proof.
  unfold piece_0. destruct (cut sep s) as [[a b]|] eqn:Hc.
  - apply cut_spec in Hc. eauto.
  - exists []. now rewrite app_nil_r.
Qed.

Lemma groups_part html gs :
  groups html = Some gs ->
  exists a section b, html = a ++ section ++ b /\ gs = finditer section.
Proof.
  unfold groups, piece_1.
  destruct (cut (py "<div id='liste'>") html) as [[a rest]|] eqn:Hc; [|discriminate].
  intros [= <-]. apply cut_spec in Hc.
  destruct (piece_0_prefix (py "<div id='liste'>") rest) as [r1 H1].
  destruct (piece_0_prefix (py "</div>") (piece_0 (py "<div id='liste'>") rest)) as [r2 H2].
  exists (a ++ py "<div id='liste'>"), (piece_0 (py "</div>") (piece_0 (py "<div id='liste'>") rest)),
    (r2 ++ r1).
  split; [|reflexivity]. rewrite Hc. rewrite H1 at 1. rewrite H2 at 1.
  now rewrite <- !app_assoc.
Qed.

Lemma Forall_listing (P : N -> Prop) before entries after :
  Forall P (listing before entries after) -> Forall (fun e => Forall P (snd e)) entries.
Proof.
  unfold listing. intros H. apply Forall_app in H as [_ H]. apply Forall_app in H as [_ H].
  apply Forall_app in H as [H _].
  induction entries as [|[id ua] entries IH]; [constructor|].
  cbn [flat_map fst snd] in H. apply Forall_app in H as [Hitem H].
  constructor; [|now apply IH]. cbn [snd]. unfold item in Hitem.
  apply Forall_app in Hitem as [_ Hitem]. apply Forall_app in Hitem as [_ Hitem].
  apply Forall_app in Hitem as [_ Hitem]. now apply Forall_app in Hitem as [Hitem _].
Qed.

Lemma py_bytes s : Forall (fun c => c < 256) (py s).
Proof.
  unfold py. apply List.Forall_forall. intros c Hc. apply in_map_iff in Hc as (a & <- & _).
  apply N_ascii_bounded.
Qed.

Lemma plain_entryb_ok entries :
  forallb plain_entryb entries = true -> Forall plain_entry entries.
Proof.
  intros H. apply List.Forall_forall. intros e He.
  rewrite forallb_forall in H. specialize (H e He). unfold plain_entryb in H.
  apply andb_true_iff in H as [H H4]. apply andb_true_iff in H as [H H3].
  apply andb_true_iff in H as [H1 H2].
  apply negb_true_iff, bool_decide_eq_false_1 in H1.
  apply negb_true_iff, bool_decide_eq_false_1 in H3.
  split; [exact H1|]. split; [now apply Forall_of_forallb|]. split; [exact H3|].
  apply Forall_of_forallb in H4. eapply Forall_impl; [exact H4|].
  intros c Hc. apply andb_true_iff in Hc as [Ha Hb].
  apply negb_true_iff, N.eqb_neq in Ha, Hb. now split.
Qed.

(** Bytes that were decoded are encoded back to what they were. *)
Lemma unpy_py s : unpy (py s) = s.
Proof.
  unfold unpy, py. rewrite map_map.
  rewrite (map_ext _ (fun a => a)) by apply ascii_N_embedding.
  now rewrite map_id, string_of_list_ascii_of_string.
Qed.

Lemma py_unpy g : Forall (fun c => c < 256) g -> py (unpy g) = g.
Proof.
  intros H. unfold unpy, py. rewrite list_ascii_of_string_of_list_ascii, map_map.
  induction H as [|c g Hc _ IH]; [reflexivity|]. cbn [map]. rewrite IH. f_equal.
  now apply N_ascii_embedding.
Qed.

End ScrapeFacts.

(** * The properties of the specification *)

Import Notions.

(** The part of the floor that holds: with the live fetch failed and a
    cache that cannot be opened, [main] answers with the fixed string. *)
Lemma main_falls_back_when_unreadable (E : UserAgent.env) (s : pystr)
    (cache_path : string) (w : world) :
  UserAgent.parse E (lower (strip s)) = Ok None ->
  Os.isfile (fs w) cache_path = false ->
  UserAgent.main E (AStr s) false cache_path w = (Ok (Json.Str UserAgent.FIXED_UA), w).
Proof.
  intros Hparse Hfile. unfold UserAgent.main, bind.
  destruct (negb (bool_decide (lower (strip s) ∈ UserAgent.BROWSERS))).
  - destruct (RandomFacts.choices_browsers_total (UserAgent.rnd_float E)) as (b & Hb & _).
    unfold bind, lift, ret. rewrite Hb. cbn [negb]. rewrite Hparse.
    now apply UserAgentFacts.load_and_random_unreadable.
  - unfold ret, lift. cbn [negb]. rewrite Hparse.
    now apply UserAgentFacts.load_and_random_unreadable.
Qed.

(** C1. The code departs from the claim where the cache is corrupt: with
    every request timed out and a cache file that opens but holds no valid
    JSON, [main] raises [JSONDecodeError] instead of returning [FIXED_UA],
    because [load_and_random] decodes the file in the [else] branch, outside
    its [try]. *)
Theorem corrupt_cache_raises :
  UserAgent.parse Examples.E_down (py "firefox") = Ok None /\
  UserAgent.main Examples.E_down ANone false UserAgent.BACKUP_FILE Examples.w_truncated
  = (Raise JSONDecodeError, log (EvRead UserAgent.BACKUP_FILE) Examples.w_truncated).
Proof. split; vm_compute; reflexivity. Qed.

(** C2, as stated, fails on the lenient selector: with [use_cache] and no
    cache file it fetches nothing and writes nothing, and what it returns
    is the fixed string, which is in no list of the pages. *)
Lemma lenient_selector_does_not_populate :
  UserAgent.main Examples.E_live ANone true UserAgent.BACKUP_FILE Examples.w_empty
  = (Ok (Json.Str UserAgent.FIXED_UA), Examples.w_empty) /\
  trace Examples.w_empty = [] /\
  fs Examples.w_empty !! UserAgent.BACKUP_FILE = None /\
  UserAgent.parse Examples.E_live (py "firefox") = Ok (Some [Examples.ua1; Examples.ua2]) /\
  UserAgent.FIXED_UA <> Examples.ua1 /\ UserAgent.FIXED_UA <> Examples.ua2.
Proof.
  split; [vm_compute; reflexivity|]. split; [reflexivity|]. split; [reflexivity|].
  split; [vm_compute; reflexivity|]. split; intros H; vm_compute in H; discriminate H.
Qed.

(** C2, amended. The strict selector, called with [use_cache] while the
    cache file is missing, harvests, writes the catalog to [DB] once and
    reads it back once, in this order, and prints a member of the list the
    cache holds for the browser it resolved, provided the harvest and the
    write go through and the browser is [None] or a supported name. The
    browser it resolved is one of [BROWSERS]: for a name the one it stands
    for, for [None] the entry of the [randomize] table at the place the
    generator points to. The lenient selector, in the same situation,
    leaves everything as it is and returns [FIXED_UA]. *)
Theorem lazy_population (cfg : Utils.settings) (N : Utils.env) (fuel : nat)
    (browser : pyarg) (w w1 : world) (data : Json.value)
    (E : UserAgent.env) (browser' : pyarg) (cache_path : string) (w' : world) :
  Os.isfile (fs w) (Utils.DB cfg) = false ->
  Utils.harvest cfg N fuel = Ok data ->
  Utils.write (Utils.DB cfg) data w = (Ok tt, w1) ->
  supported browser ->
  (forall i, browser' <> AInt i) ->
  Os.isfile (fs w') cache_path = false ->
  (exists b versions ua browsers w2,
     Utils.get_fake_useragent cfg N fuel browser true w = (Ok (Json.Str ua), w2) /\
     w2 = log (EvRead (Utils.DB cfg)) w1 /\
     trace w2 = trace w ++ [EvWrite (Utils.DB cfg) (Json.dumps data); EvRead (Utils.DB cfg)] /\
     fs w2 !! Utils.DB cfg = Some (File (Json.dumps data)) /\
     Json.loads (Json.dumps data) = Ok data /\
     resolves N browser b /\
     b ∈ UserAgent.BROWSERS /\
     subscript data (Json.Str (py "browsers")) = Ok browsers /\
     subscript browsers (Json.Str b) = Ok (Json.Arr (map Json.Str versions)) /\
     ua ∈ versions) /\
  UserAgent.main E browser' true cache_path w' = (Ok (Json.Str UserAgent.FIXED_UA), w').
Proof.
  intros Hfile Hharvest Hwrite Hsup Hstr Hfile'. split.
  - destruct (SelectorFacts.populate_then_select cfg N fuel browser w data w1
                Hfile Hharvest Hwrite Hsup)
      as (b & versions & ua & browsers & Hrun & Htrace & Hfs & Hloads & Hres & Hin & Hb & Hv & Hua).
    exists b, versions, ua, browsers, (log (EvRead (Utils.DB cfg)) w1). auto 12.
  - now apply SelectorFacts.main_absent_cache.
Qed.

Lemma lazy_population_witness :
  ((exists b versions ua browsers w2,
      Utils.get_fake_useragent Examples.S0 Examples.N_live 5 ANone true Examples.w_tmp
      = (Ok (Json.Str ua), w2) /\
      w2 = log (EvRead (Utils.DB Examples.S0))
             (snd (Utils.write (Utils.DB Examples.S0) Examples.data0 Examples.w_tmp)) /\
      trace w2 = trace Examples.w_tmp ++
                 [EvWrite (Utils.DB Examples.S0) (Json.dumps Examples.data0);
                  EvRead (Utils.DB Examples.S0)] /\
      fs w2 !! Utils.DB Examples.S0 = Some (File (Json.dumps Examples.data0)) /\
      Json.loads (Json.dumps Examples.data0) = Ok Examples.data0 /\
      resolves Examples.N_live ANone b /\
      b ∈ UserAgent.BROWSERS /\
      subscript Examples.data0 (Json.Str (py "browsers")) = Ok browsers /\
      subscript browsers (Json.Str b) = Ok (Json.Arr (map Json.Str versions)) /\
      ua ∈ versions) /\
   UserAgent.main Examples.E_live (AStr (py "Chrome")) true UserAgent.BACKUP_FILE
     Examples.w_empty
   = (Ok (Json.Str UserAgent.FIXED_UA), Examples.w_empty)) /\
  ((exists b versions ua browsers w2,
      Utils.get_fake_useragent Examples.S0 Examples.N_live 5 (AStr (py " Google ")) true
        Examples.w_tmp
      = (Ok (Json.Str ua), w2) /\
      w2 = log (EvRead (Utils.DB Examples.S0))
             (snd (Utils.write (Utils.DB Examples.S0) Examples.data0 Examples.w_tmp)) /\
      trace w2 = trace Examples.w_tmp ++
                 [EvWrite (Utils.DB Examples.S0) (Json.dumps Examples.data0);
                  EvRead (Utils.DB Examples.S0)] /\
      fs w2 !! Utils.DB Examples.S0 = Some (File (Json.dumps Examples.data0)) /\
      Json.loads (Json.dumps Examples.data0) = Ok Examples.data0 /\
      resolves Examples.N_live (AStr (py " Google ")) b /\
      b ∈ UserAgent.BROWSERS /\
      subscript Examples.data0 (Json.Str (py "browsers")) = Ok browsers /\
      subscript browsers (Json.Str b) = Ok (Json.Arr (map Json.Str versions)) /\
      ua ∈ versions) /\
   UserAgent.main Examples.E_live ANone true UserAgent.BACKUP_FILE Examples.w_empty
   = (Ok (Json.Str UserAgent.FIXED_UA), Examples.w_empty)).
Proof.
  split.
  - apply (lazy_population Examples.S0 Examples.N_live 5 ANone Examples.w_tmp
             (snd (Utils.write (Utils.DB Examples.S0) Examples.data0 Examples.w_tmp))
             Examples.data0 Examples.E_live (AStr (py "Chrome")) UserAgent.BACKUP_FILE
             Examples.w_empty).
    + vm_compute. reflexivity.
    + vm_compute. reflexivity.
    + vm_compute. reflexivity.
    + exact I.
    + intros i. discriminate.
    + vm_compute. reflexivity.
  - apply (lazy_population Examples.S0 Examples.N_live 5 (AStr (py " Google ")) Examples.w_tmp
             (snd (Utils.write (Utils.DB Examples.S0) Examples.data0 Examples.w_tmp))
             Examples.data0 Examples.E_live ANone UserAgent.BACKUP_FILE Examples.w_empty).
    + vm_compute. reflexivity.
    + vm_compute. reflexivity.
    + vm_compute. reflexivity.
    + apply (bool_decide_unpack _). vm_compute. exact I.
    + intros i. discriminate.
    + vm_compute. reflexivity.
Defined.

(** C3. The code departs from the claim: [main] hands the cumulative table
    [RANDOM_CUM_WEIGHTS] to [random.choices] as [weights], so that it is
    summed up once more and the five browsers are drawn in the proportions
    80 : 86 : 93 : 97 : 100. A draw that falls in the middle of the range
    gives firefox, where the table read as cumulative percentages gives
    chrome. *)
Theorem weights_taken_as_relative :
  Random.choices UserAgent.BROWSERS (Some UserAgent.RANDOM_CUM_WEIGHTS) None (1 # 2)
  = Ok (py "firefox") /\
  Random.choices UserAgent.BROWSERS None (Some UserAgent.RANDOM_CUM_WEIGHTS) (1 # 2)
  = Ok (py "chrome") /\
  fst (UserAgent.main Examples.E_named ANone false UserAgent.BACKUP_FILE Examples.w_empty)
  = Ok (Json.Str (py "firefox")).
Proof. repeat split; vm_compute; reflexivity. Qed.

(** C4. The code departs from the claim in the lenient selector: for a
    name outside [BROWSERS] it draws [new_browser] and goes on with the
    name it was given. With a cache in place the lookup of that name raises
    [KeyError]; without the cache the page of that very name is fetched. *)
Theorem unsupported_name_is_looked_up :
  UserAgent.main Examples.E_live (AStr (py " Netscape ")) true UserAgent.BACKUP_FILE
    Examples.w_cache
  = (Raise (KeyError (KStr (py "netscape"))),
     log (EvRead UserAgent.BACKUP_FILE) Examples.w_cache) /\
  fst (UserAgent.main Examples.E_named (AStr (py " Netscape ")) false UserAgent.BACKUP_FILE
         Examples.w_empty)
  = Ok (Json.Str (py "netscape")).
Proof. split; vm_compute; reflexivity. Qed.

(** C5. A catalog that a harvest produced is read back as it was written:
    [read] after [write] on the same path returns the catalog of the strict
    selector, and the file [dump] leaves behind, at the path it wrote to,
    decodes to the catalog it harvested. *)
Theorem cache_round_trip (cfg : Utils.settings) (N : Utils.env) (fuel : nat)
    (data : Json.value) (path : string) (w w1 : world)
    (E : UserAgent.env) (cache_path : string) (v v1 : world) :
  Utils.harvest cfg N fuel = Ok data ->
  Utils.write path data w = (Ok tt, w1) ->
  scalar_pages E ->
  UserAgent.dump E cache_path v = (Ok tt, v1) ->
  (exists w2, Utils.read path w1 = (Ok data, w2)) /\
  (exists catalog v2,
     UserAgent.harvest E = Ok catalog /\
     Utils.read (target E cache_path) v1 = (Ok catalog, v2)).
Proof.
  intros Hharvest Hwrite Hpages Hdump. split.
  - pose proof (HarvestFacts.utils_harvest_wf _ _ _ _ Hharvest) as Hwf.
    destruct (CodecFacts.write_read _ _ _ _ Hwf Hwrite) as (Hread & _). eauto.
  - destruct (SelectorFacts.dump_ok E cache_path v v1 Hdump) as (catalog & Hcat & Hfs).
    exists catalog, (log (EvRead (target E cache_path)) v1). split; [exact Hcat|].
    unfold Utils.read, bind, Os.read_text, lift. rewrite Hfs.
    rewrite JsonFacts.loads_dumps; [reflexivity|].
    now apply (HarvestFacts.harvest_wf E Hpages).
Qed.

Lemma cache_round_trip_witness :
  (exists w2,
     Utils.read (Utils.DB Examples.S0)
       (snd (Utils.write (Utils.DB Examples.S0) Examples.data0 Examples.w_tmp))
     = (Ok Examples.data0, w2)) /\
  (exists catalog v2,
     UserAgent.harvest Examples.E_live = Ok catalog /\
     Utils.read (target Examples.E_live "/tmp/cache/ua.json")
       (snd (UserAgent.dump Examples.E_live "/tmp/cache/ua.json" Examples.w_tmp))
     = (Ok catalog, v2)).
Proof.
  apply (cache_round_trip Examples.S0 Examples.N_live 5 Examples.data0
           (Utils.DB Examples.S0) Examples.w_tmp _ Examples.E_live
           "/tmp/cache/ua.json" Examples.w_tmp _).
  - vm_compute. reflexivity.
  - vm_compute. reflexivity.
  - intros b k nodes [= <-].
    constructor; [apply StrFacts.scalar_py|constructor; [apply StrFacts.scalar_py|constructor]].
  - vm_compute. reflexivity.
Defined.

(** C6. When the fetch of any one browser fails (the loop of [parse] is
    left without a page) or yields no entry (the page has none), [dump]
    ends the process with status 1 and the world is as it was: no file is
    written, and a cache file from before is untouched. The end is
    [sys.exit(1)], unless the text of another browser's page was empty, so
    that no tree was made of it: then [parse] left that fetch with
    [AttributeError], which [gather] hands on and nobody catches. *)
Theorem dump_aborts_on_failed_fetch (E : UserAgent.env) (b : pystr)
    (cache_path : string) (w : world) :
  b ∈ UserAgent.BROWSERS ->
  UserAgent.fetch_loop E 3 b 0 = Ok None \/
  UserAgent.fetch_loop E 3 b 0 = Ok (Some (UserAgent.Tree [])) ->
  exists r,
    UserAgent.dump E cache_path w = (r, w) /\
    exit_status r = Some 1%Z /\
    (r = Raise (SystemExit 1) \/
     (r = Raise AttributeError /\
      exists b', b' ∈ UserAgent.BROWSERS /\
                 UserAgent.fetch_loop E 3 b' 0 = Ok (Some UserAgent.NoTree))).
Proof.
  intros Hb Hfetch. apply UserAgentFacts.parse_none_iff in Hfetch.
  destruct (UserAgentFacts.dump_aborts E b cache_path w Hb Hfetch)
    as [Hexit|(Hattr & b' & Hb' & Hblank)].
  - exists (Raise (SystemExit 1)). split; [exact Hexit|]. split; [reflexivity|now left].
  - exists (Raise AttributeError). split; [exact Hattr|]. split; [reflexivity|right].
    split; [reflexivity|]. exists b'. split; [exact Hb'|].
    now apply UserAgentFacts.parse_raises_iff in Hblank as [Hblank _].
Qed.

Lemma dump_aborts_on_failed_fetch_witness :
  (exists r,
     UserAgent.dump Examples.E_edge_empty "/tmp/ua.json" Examples.w_cache
     = (r, Examples.w_cache) /\
     exit_status r = Some 1%Z /\
     (r = Raise (SystemExit 1) \/
      (r = Raise AttributeError /\
       exists b', b' ∈ UserAgent.BROWSERS /\
                  UserAgent.fetch_loop Examples.E_edge_empty 3 b' 0
                  = Ok (Some UserAgent.NoTree)))) /\
  (exists r,
     UserAgent.dump Examples.E_safari_blank "/tmp/ua.json" Examples.w_cache
     = (r, Examples.w_cache) /\
     exit_status r = Some 1%Z /\
     (r = Raise (SystemExit 1) \/
      (r = Raise AttributeError /\
       exists b', b' ∈ UserAgent.BROWSERS /\
                  UserAgent.fetch_loop Examples.E_safari_blank 3 b' 0
                  = Ok (Some UserAgent.NoTree)))).
Proof.
  split.
  - apply (dump_aborts_on_failed_fetch Examples.E_edge_empty (py "edge")).
    + apply (bool_decide_unpack _). vm_compute. exact I.
    + right. vm_compute. reflexivity.
  - apply (dump_aborts_on_failed_fetch Examples.E_safari_blank (py "edge")).
    + apply (bool_decide_unpack _). vm_compute. exact I.
    + right. vm_compute. reflexivity.
Defined.

(** C7, as stated, fails on [parse]: an error of an attempt that is no
    timeout ends the fetch at once, although the next attempt would have
    brought the page. *)
Lemma other_error_is_not_retried :
  UserAgent.parse Examples.E_reset (py "chrome") = Ok None /\
  retrying_fetch 3 (UserAgent.pages Examples.E_reset (py "chrome")) 0
  = Some [Examples.ua1].
Proof. split; vm_compute; reflexivity. Qed.

(** C7, amended. In [parse] a timeout is followed by a new attempt until
    three attempts have timed out, and then the fetch returns the failure
    marker; any other error of an attempt ends the fetch at once with the
    same marker; a page that arrives within the three attempts is taken. In
    [get] an error of an attempt is followed by a new attempt until
    [HTTP_RETRIES] attempts have failed, and then [FakeUserAgentError] is
    raised with a fixed message; a body that arrives before that is
    returned. The marker of [parse] holds no error. *)
Theorem retry_policy :
  (forall (E : UserAgent.env) b k nodes,
     (k < 3)%nat -> (forall i, (i < k)%nat -> UserAgent.pages E b i = UserAgent.Timeout) ->
     UserAgent.pages E b k = UserAgent.Page nodes ->
     UserAgent.parse E b = Ok (versions_of nodes)) /\
  (forall (E : UserAgent.env) b k,
     (k < 3)%nat -> (forall i, (i < k)%nat -> UserAgent.pages E b i = UserAgent.Timeout) ->
     UserAgent.pages E b k = UserAgent.Failed ->
     UserAgent.parse E b = Ok None) /\
  (forall (E : UserAgent.env) b,
     (forall i, (i < 3)%nat -> UserAgent.pages E b i = UserAgent.Timeout) ->
     UserAgent.parse E b = Ok None) /\
  (forall (cfg : Utils.settings) (A : Type) (source : nat -> Utils.reply A) fuel k body,
     (Z.of_nat k < Utils.HTTP_RETRIES cfg)%Z -> (k < fuel)%nat ->
     (forall i, (i < k)%nat -> source i = Utils.NetError) ->
     source k = Utils.Body body ->
     Utils.get cfg source fuel = Ok body) /\
  (forall (cfg : Utils.settings) (A : Type) (source : nat -> Utils.reply A) fuel,
     (1 <= Utils.HTTP_RETRIES cfg)%Z -> (Z.to_nat (Utils.HTTP_RETRIES cfg) <= fuel)%nat ->
     (forall i, (i < Z.to_nat (Utils.HTTP_RETRIES cfg))%nat -> source i = Utils.NetError) ->
     Utils.get cfg source fuel
     = Raise (FakeUserAgentError "Maximum amount of retries reached")).
Proof.
  split; [|split; [|split; [|split]]].
  - intros E. apply UserAgentFacts.parse_page_after_timeouts.
  - intros E. apply UserAgentFacts.parse_failed_after_timeouts.
  - intros E. apply UserAgentFacts.parse_three_timeouts.
  - intros cfg A. apply UtilsFacts.get_body_after_errors.
  - intros cfg A. apply UtilsFacts.get_exhausted.
Qed.

Lemma retry_policy_witness :
  UserAgent.parse Examples.E_slow (py "opera") = Ok (Some [Examples.ua1; Examples.ua2]) /\
  UserAgent.parse Examples.E_reset (py "opera") = Ok None /\
  UserAgent.parse Examples.E_down (py "opera") = Ok None /\
  Utils.get Examples.S0 (Utils.pages Examples.N_live (py "opera")) 5
  = Ok (Some ["Mozilla/5.0 one"; "Show more"; "Mozilla/5.0 two"]%string) /\
  Utils.get Examples.S0 (Utils.pages Examples.N_down (py "opera")) 5
  = Raise (FakeUserAgentError "Maximum amount of retries reached").
Proof.
  destruct retry_policy as (Hpage & Hfailed & Htimeouts & Hbody & Hexhausted).
  split; [|split; [|split; [|split]]].
  - apply (Hpage Examples.E_slow (py "opera") 2%nat [Examples.ua1; Examples.ua2]);
      [lia|intros [|[|i]] Hi; [reflexivity|reflexivity|lia]|reflexivity].
  - apply (Hfailed Examples.E_reset (py "opera") 0%nat); [lia|intros i Hi; lia|reflexivity].
  - apply (Htimeouts Examples.E_down (py "opera")). intros i Hi. reflexivity.
  - apply (Hbody Examples.S0 _ _ 5%nat 1%nat);
      [vm_compute; reflexivity|lia|intros [|i] Hi; [reflexivity|lia]|reflexivity].
  - apply (Hexhausted Examples.S0); [vm_compute; discriminate|vm_compute; lia|reflexivity].
Defined.




(** C9. The code departs from the claim, and from what it means to do,
    where the directory of the path is checked and is not there: the call
    of [die] on that line reads the name [error], to which nothing is bound
    outside the handler below, so that [remove] leaves with
    [UnboundLocalError] before [die] is entered, and no failure of the
    removal is reported. The rest is as claimed: a file at the target is
    deleted and the call returns, and when [os.remove] fails, [die] ends
    the process with status 1; the world is as it was in both failures. *)
Theorem remove_reads_unbound_error (E : UserAgent.env) (cache_path : string) (w : world) :
  let path := target E cache_path in
  let checked := negb (String.eqb (Os.dirname cache_path) EmptyString)
                 && negb (String.eqb (Os.dirname cache_path) ".") in
  let dir_missing := checked && negb (Os.path_exists (fs w) (Os.dirname path)) in
  (UserAgent.remove E cache_path w =
   if dir_missing then (Raise (UnboundLocalError "error"), w)
   else if Os.isfile (fs w) path
        then (Ok tt, log (EvRemove path) {| fs := delete path (fs w); trace := trace w |})
        else (Raise (SystemExit 1), w)) /\
  UserAgent.remove Examples.E_live "/tmp/cache/ua.json" Examples.w_tmp
  = (Raise (UnboundLocalError "error"), Examples.w_tmp) /\
  UserAgent.remove Examples.E_live "/tmp/ua.json" Examples.w_tmp
  = (Raise (SystemExit 1), Examples.w_tmp) /\
  UserAgent.die (A := unit) Examples.w_tmp = (Raise (SystemExit 1), Examples.w_tmp).
Proof.
  cbv zeta. split; [|repeat split; vm_compute; reflexivity].
  unfold UserAgent.remove, target, bind, ret, try_except, Os.remove, UserAgent.die, raise.
  destruct (negb (String.eqb (Os.dirname cache_path) EmptyString)
            && negb (String.eqb (Os.dirname cache_path) ".")); cbn [andb].
  - destruct (Os.path_exists (fs w) (Os.dirname (UserAgent.expand E cache_path))); cbn [negb].
    + now destruct (Os.isfile (fs w) (UserAgent.expand E cache_path)).
    + reflexivity.
  - now destruct (Os.isfile (fs w) cache_path).
Qed.

(** C10, as stated, fails when [data] cannot be had: the selector reads
    the cache before it looks at the argument, and a cache that does not
    decode raises [JSONDecodeError]. *)
Lemma non_string_with_truncated_cache :
  Utils.get_fake_useragent Examples.S0 Examples.N_live 5 (AInt 7) true Examples.w_db_truncated
  = (Raise JSONDecodeError, log (EvRead (Utils.DB Examples.S0)) Examples.w_db_truncated).
Proof. vm_compute. reflexivity. Qed.

(** C10, amended. Called with a browser that is neither [None] nor a
    string, [get_fake_useragent] raises [FakeUserAgentError] with the
    message [Please use a valid browser name.] once [data] is there with
    its [browsers] entry and its [randomize] table; whether [data] is there
    or not, the call prints no user-agent. *)
Theorem non_string_browser_rejected (cfg : Utils.settings) (N : Utils.env) (fuel : nat)
    (i : Z) (use_cache : bool) (w w1 : world)
    (data browsers randomize_dict : Json.value) (randomize : list Json.value) :
  Utils.obtain_data cfg N fuel use_cache w = (Ok data, w1) ->
  subscript data (Json.Str (py "browsers")) = Ok browsers ->
  subscript data (Json.Str (py "randomize")) = Ok randomize_dict ->
  Utils.values randomize_dict = Ok randomize ->
  Utils.get_fake_useragent cfg N fuel (AInt i) use_cache w
  = (Raise (FakeUserAgentError "Please use a valid browser name."), w1) /\
  (forall w0 ua w', Utils.get_fake_useragent cfg N fuel (AInt i) use_cache w0 <> (Ok ua, w')).
Proof.
  intros Hdata Hb Hr Hv. split.
  - now apply (proj2 (SelectorFacts.non_string_rejected cfg N fuel i use_cache w)
                 data w1 browsers randomize_dict randomize).
  - intros w0. apply (proj1 (SelectorFacts.non_string_rejected cfg N fuel i use_cache w0)).
Qed.

Lemma non_string_browser_rejected_witness :
  Utils.get_fake_useragent Examples.S0 Examples.N_live 5 (AInt 7) true Examples.w_tmp
  = (Raise (FakeUserAgentError "Please use a valid browser name."),
     snd (Utils.obtain_data Examples.S0 Examples.N_live 5 true Examples.w_tmp)) /\
  (forall w0 ua w',
     Utils.get_fake_useragent Examples.S0 Examples.N_live 5 (AInt 7) true w0 <> (Ok ua, w')).
Proof.
  apply (non_string_browser_rejected Examples.S0 Examples.N_live 5 7 true Examples.w_tmp _
           Examples.data0 (Json.Obj (browsers_dict
              [py "Mozilla/5.0 one"; py "Mozilla/5.0 two"]
              [py "Mozilla/5.0 one"; py "Mozilla/5.0 two"]
              [py "Mozilla/5.0 one"; py "Mozilla/5.0 two"]
              [py "Mozilla/5.0 one"; py "Mozilla/5.0 two"]
              [py "Mozilla/5.0 one"; py "Mozilla/5.0 two"]))
           (Json.Obj RANDOMIZE) (map snd RANDOMIZE)).
  - vm_compute. reflexivity.
  - vm_compute. reflexivity.
  - vm_compute. reflexivity.
  - reflexivity.
Defined.

(** * Further properties of the code *)

Import Notions Terms.

(** ** The lenient selector *)

(** X1. Without the cache, a fetch that brings a list makes [main] return
    one of the entries of that list, for whatever name within ISO-8859-1 it
    was given, one of [BROWSERS] or not, and for [None] with the name that
    is drawn; no file is read or written. *)
Theorem live_selection (E : UserAgent.env) (browser : pyarg) (b : pystr)
    (versions : list pystr) (cache_path : string) (w : world) :
  named E browser b ->
  UserAgent.parse E b = Ok (Some versions) ->
  exists ua,
    UserAgent.main E browser false cache_path w = (Ok (Json.Str ua), w) /\ ua ∈ versions.
Proof.
  intros [Hb _] Hparse. rewrite (LenientFacts.main_settled E browser b) by exact Hb.
  cbn [negb]. unfold bind, lift. rewrite Hparse.
  destruct (SelectorFacts.choice_ok (map Json.Str versions) (UserAgent.rnd_int E))
    as (x & Hx & Hin).
  { apply UserAgentFacts.parse_bounded in Hparse. destruct versions; [cbn in Hparse; lia|discriminate]. }
  apply list_elem_of_In, in_map_iff in Hin as (ua & <- & Hua).
  exists ua. rewrite Hx. split; [reflexivity|now apply list_elem_of_In].
Qed.

Lemma live_selection_witness :
  exists ua,
    UserAgent.main Examples.E_slow (AStr (py " Netscape ")) false UserAgent.BACKUP_FILE
      Examples.w_truncated
    = (Ok (Json.Str ua), Examples.w_truncated) /\
    ua ∈ [Examples.ua1; Examples.ua2].
Proof.
  apply (live_selection Examples.E_slow (AStr (py " Netscape ")) (py "netscape")).
  - split; vm_compute; reflexivity.
  - vm_compute. reflexivity.
Defined.

(** X2. Whenever [main] turns to the cache (it was told to use it, or the
    fetch failed) and there is no file to open at the cache path, it returns
    [FIXED_UA] and leaves the world as it is. The browser whose fetch is
    meant is the one [main] goes on with: the name within ISO-8859-1 it
    was given, stripped and lowered, or the name drawn for [None]. *)
Theorem fixed_ua_without_cache (E : UserAgent.env) (browser : pyarg) (b : pystr)
    (use_cache : bool) (cache_path : string) (w : world) :
  named E browser b ->
  reads_cache E use_cache b ->
  Os.isfile (fs w) cache_path = false ->
  UserAgent.main E browser use_cache cache_path w = (Ok (Json.Str UserAgent.FIXED_UA), w).
Proof.
  intros Hb Hc Hfile. rewrite (LenientFacts.main_reads_cache E browser b) by assumption.
  now apply UserAgentFacts.load_and_random_unreadable.
Qed.

Lemma fixed_ua_without_cache_witness :
  UserAgent.main Examples.E_down ANone false "/tmp" Examples.w_tmp
  = (Ok (Json.Str UserAgent.FIXED_UA), Examples.w_tmp).
Proof.
  apply (fixed_ua_without_cache Examples.E_down ANone (py "firefox")).
  - split; vm_compute; reflexivity.
  - right. vm_compute. reflexivity.
  - vm_compute. reflexivity.
Defined.

(** X3. No call of [main], and so none of [user_agent] or
    [aio_user_agent], changes the file system: every file and directory is
    afterwards what it was, and the only file operation there can be is one
    read of the cache path. *)
Theorem selection_never_writes (E : UserAgent.env) (browser : pyarg) (use_cache : bool)
    (cache_path : string) (w : world) :
  let after (run : M Json.value) := snd (run w) in
  let quiet (w' : world) :=
    fs w' = fs w /\ (trace w' = trace w \/ trace w' = trace w ++ [EvRead cache_path]) in
  quiet (after (UserAgent.main E browser use_cache cache_path)) /\
  quiet (after (Cli.user_agent E browser use_cache cache_path)) /\
  quiet (after (Cli.aio_user_agent E browser use_cache cache_path)).
Proof.
  cbv zeta. unfold Cli.user_agent, Cli.aio_user_agent.
  pose proof (LenientFacts.main_frame E browser use_cache cache_path w) as H.
  cbv zeta in H. auto.
Qed.

(** X4. Whenever [main] turns to the cache and the file there decodes to a
    value that holds a non-empty list under the browser's name, [main]
    returns an item of that list after one read of the file. The name,
    one within ISO-8859-1, stripped and lowered, or the one drawn for
    [None], need not be one of [BROWSERS]: it is enough that the cache has
    it. *)
Theorem cached_selection (E : UserAgent.env) (browser : pyarg) (b : pystr)
    (use_cache : bool) (cache_path : string) (w : world)
    (text : pystr) (cache : Json.value) (items : list Json.value) :
  named E browser b ->
  reads_cache E use_cache b ->
  fs w !! cache_path = Some (File text) ->
  Json.loads text = Ok cache ->
  subscript cache (Json.Str b) = Ok (Json.Arr items) ->
  items <> [] ->
  exists x,
    UserAgent.main E browser use_cache cache_path w = (Ok x, log (EvRead cache_path) w) /\
    x ∈ items.
Proof.
  intros Hb Hc Hfile Hloads Hsub Hne.
  rewrite (LenientFacts.main_reads_cache E browser b) by assumption.
  rewrite (UserAgentFacts.load_and_random_readable E b cache_path w text Hfile).
  rewrite Hloads, Hsub. cbn [choice_value].
  destruct (SelectorFacts.choice_ok items (UserAgent.rnd_int E) Hne) as (x & Hx & Hin).
  exists x. now rewrite Hx.
Qed.

Lemma cached_selection_witness :
  exists x,
    UserAgent.main Examples.E_down (AStr (py "Opera")) false UserAgent.BACKUP_FILE
      Examples.w_cache
    = (Ok x, log (EvRead UserAgent.BACKUP_FILE) Examples.w_cache) /\
    x ∈ [Json.Str Examples.ua1; Json.Str Examples.ua2].
Proof.
  apply (cached_selection Examples.E_down (AStr (py "Opera")) (py "opera") false
           UserAgent.BACKUP_FILE Examples.w_cache
           (Json.dumps Samples.catalog) Samples.catalog).
  - split; vm_compute; reflexivity.
  - right. vm_compute. reflexivity.
  - vm_compute. reflexivity.
  - vm_compute. reflexivity.
  - vm_compute. reflexivity.
  - discriminate.
Defined.

(** X5. Whenever [main] turns to the cache and the file there decodes to an
    object without the browser's name among its keys, [main] raises
    [KeyError] for that name, the file having been read; it does not fall
    back to [FIXED_UA]. The name is the one [main] goes on with: the name
    within ISO-8859-1 it was given, stripped and lowered, or the name drawn
    for [None]. *)
Theorem cache_without_the_name (E : UserAgent.env) (browser : pyarg) (b : pystr)
    (use_cache : bool) (cache_path : string) (w : world)
    (text : pystr) (members : list (pystr * Json.value)) :
  named E browser b ->
  reads_cache E use_cache b ->
  fs w !! cache_path = Some (File text) ->
  Json.loads text = Ok (Json.Obj members) ->
  b ∉ map fst members ->
  UserAgent.main E browser use_cache cache_path w
  = (Raise (KeyError (KStr b)), log (EvRead cache_path) w).
Proof.
  intros Hb Hc Hfile Hloads Hkey.
  rewrite (LenientFacts.main_reads_cache E browser b) by assumption.
  rewrite (UserAgentFacts.load_and_random_readable E b cache_path w text Hfile).
  rewrite Hloads. cbn [subscript].
  assert (Hget : Json.dict_get b members = None).
  { clear -Hkey. induction members as [|[k v] m IH]; [reflexivity|].
    cbn [Json.dict_get]. unfold pystr_eqb. cbn [map fst] in Hkey.
    rewrite bool_decide_eq_false_2.
    - apply IH. intros Hin. apply Hkey. now apply list_elem_of_further.
    - intros ->. apply Hkey. apply list_elem_of_here. }
  now rewrite Hget.
Qed.

Lemma cache_without_the_name_witness :
  UserAgent.main Examples.E_down (AStr (py "Chromium")) false UserAgent.BACKUP_FILE
    Examples.w_cache
  = (Raise (KeyError (KStr (py "chromium"))),
     log (EvRead UserAgent.BACKUP_FILE) Examples.w_cache).
Proof.
  apply (cache_without_the_name Examples.E_down (AStr (py "Chromium")) (py "chromium") false
           UserAgent.BACKUP_FILE Examples.w_cache
           (Json.dumps Samples.catalog) Samples.members).
  - split; vm_compute; reflexivity.
  - right. vm_compute. reflexivity.
  - vm_compute. reflexivity.
  - vm_compute. reflexivity.
  - apply (bool_decide_unpack _). vm_compute. exact I.
Defined.

(** X6. Whenever [main] turns to the cache and the file there holds an
    empty list under the browser's name, [main] raises [IndexError], the
    file having been read; it does not fall back to [FIXED_UA]. The name
    is the one [main] goes on with: the name within ISO-8859-1 it was
    given, stripped and lowered, or the name drawn for [None]. *)
Theorem cache_with_empty_list (E : UserAgent.env) (browser : pyarg) (b : pystr)
    (use_cache : bool) (cache_path : string) (w : world)
    (text : pystr) (cache : Json.value) :
  named E browser b ->
  reads_cache E use_cache b ->
  fs w !! cache_path = Some (File text) ->
  Json.loads text = Ok cache ->
  subscript cache (Json.Str b) = Ok (Json.Arr []) ->
  UserAgent.main E browser use_cache cache_path w
  = (Raise IndexError, log (EvRead cache_path) w).
Proof.
  intros Hb Hc Hfile Hloads Hsub.
  rewrite (LenientFacts.main_reads_cache E browser b) by assumption.
  rewrite (UserAgentFacts.load_and_random_readable E b cache_path w text Hfile).
  now rewrite Hloads, Hsub.
Qed.

Lemma cache_with_empty_list_witness :
  UserAgent.main Examples.E_live (AStr (py "opera")) true UserAgent.BACKUP_FILE
    Samples.w_empty_entry
  = (Raise IndexError, log (EvRead UserAgent.BACKUP_FILE) Samples.w_empty_entry).
Proof.
  apply (cache_with_empty_list Examples.E_live (AStr (py "opera")) (py "opera") true
           UserAgent.BACKUP_FILE Samples.w_empty_entry
           (Json.dumps Samples.empty_entry) Samples.empty_entry).
  - split; vm_compute; reflexivity.
  - now left.
  - vm_compute. reflexivity.
  - vm_compute. reflexivity.
  - vm_compute. reflexivity.
Defined.

(** X7. After a [dump] that returned, [main] with the cache, on the same
    path, returns one of the entries [dump] fetched for the browser, for
    [None], with the name that is drawn by the product of the doubles, and
    for every name among [BROWSERS]. This needs the path to be one that
    [dump] uses as it is written: [main] does not expand it. *)
Theorem dump_then_select (E : UserAgent.env) (cache_path : string) (w w1 : world)
    (browser : pyarg) (b : pystr) :
  scalar_pages E ->
  UserAgent.dump E cache_path w = (Ok tt, w1) ->
  target E cache_path = cache_path ->
  named E browser b ->
  b ∈ UserAgent.BROWSERS ->
  exists versions ua,
    UserAgent.parse E b = Ok (Some versions) /\ ua ∈ versions /\
    UserAgent.main E browser true cache_path w1
    = (Ok (Json.Str ua), log (EvRead cache_path) w1).
Proof.
  intros Hpages Hdump Htarget Hb Hin.
  destruct (SelectorFacts.dump_ok E cache_path w w1 Hdump) as (data & Hdata & Hfile).
  rewrite Htarget in Hfile.
  pose proof (HarvestFacts.harvest_wf E Hpages data Hdata) as Hwf.
  destruct (LenientFacts.lenient_harvest_ok E data Hdata)
    as (v1 & v2 & v3 & v4 & v5 & H1 & H2 & H3 & H4 & H5 & ->).
  assert (Hv : exists versions,
            UserAgent.parse E b = Ok (Some versions) /\
            subscript (Json.Obj (browsers_dict v1 v2 v3 v4 v5)) (Json.Str b)
            = Ok (Json.Arr (map Json.Str versions))).
  { unfold UserAgent.BROWSERS in Hin. rewrite !elem_of_cons, elem_of_nil in Hin.
    destruct Hin as [->|[->|[->|[->|[->|[]]]]]]; eauto. }
  destruct Hv as (versions & Hparse & Hsub).
  destruct (SelectorFacts.choice_ok (map Json.Str versions) (UserAgent.rnd_int E))
    as (x & Hx & Hxin).
  { apply UserAgentFacts.parse_bounded in Hparse.
    destruct versions; [cbn in Hparse; lia|discriminate]. }
  apply list_elem_of_In, in_map_iff in Hxin as (ua & <- & Hua).
  exists versions, ua. split; [exact Hparse|]. split; [now apply list_elem_of_In|].
  rewrite (LenientFacts.main_reads_cache E browser b) by (try assumption; now left).
  rewrite (UserAgentFacts.load_and_random_readable E b cache_path w1 _ Hfile).
  rewrite JsonFacts.loads_dumps by exact Hwf. rewrite Hsub. cbn [choice_value].
  now rewrite Hx.
Qed.

Lemma dump_then_select_witness :
  exists versions ua,
    UserAgent.parse Examples.E_live (py "safari") = Ok (Some versions) /\ ua ∈ versions /\
    UserAgent.main Examples.E_live (AStr (py "Safari")) true UserAgent.BACKUP_FILE
      Examples.w_cache
    = (Ok (Json.Str ua), log (EvRead UserAgent.BACKUP_FILE) Examples.w_cache).
Proof.
  apply (dump_then_select Examples.E_live UserAgent.BACKUP_FILE Examples.w_empty
           Examples.w_cache (AStr (py "Safari")) (py "safari")).
  - intros b k nodes [= <-].
    constructor; [apply StrFacts.scalar_py|constructor; [apply StrFacts.scalar_py|constructor]].
  - vm_compute. reflexivity.
  - vm_compute. reflexivity.
  - split; vm_compute; reflexivity.
  - apply (bool_decide_unpack _). vm_compute. exact I.
Defined.


(** X9. After a [remove] that returned, [main] on the same path finds no
    cache: whenever it turns to it, it returns [FIXED_UA]. This needs the
    path to be one that [remove] uses as it is written; the browser is the
    one [main] goes on with, for a name within ISO-8859-1 or for [None]. *)
Theorem remove_then_select (E : UserAgent.env) (cache_path : string) (w w1 : world)
    (browser : pyarg) (b : pystr) (use_cache : bool) :
  UserAgent.remove E cache_path w = (Ok tt, w1) ->
  target E cache_path = cache_path ->
  named E browser b ->
  reads_cache E use_cache b ->
  UserAgent.main E browser use_cache cache_path w1
  = (Ok (Json.Str UserAgent.FIXED_UA), w1).
Proof.
  intros Hrm Htarget Hb Hc.
  rewrite (LenientFacts.main_reads_cache E browser b) by assumption.
  apply UserAgentFacts.load_and_random_unreadable.
  apply LenientFacts.remove_ok in Hrm. rewrite Htarget in Hrm.
  unfold Os.isfile. now rewrite Hrm, lookup_delete_eq.
Qed.

Lemma remove_then_select_witness :
  UserAgent.main Examples.E_live (AStr (py "chrome")) true UserAgent.BACKUP_FILE
    (snd (UserAgent.remove Examples.E_live UserAgent.BACKUP_FILE Examples.w_cache))
  = (Ok (Json.Str UserAgent.FIXED_UA),
     snd (UserAgent.remove Examples.E_live UserAgent.BACKUP_FILE Examples.w_cache)).
Proof.
  apply (remove_then_select Examples.E_live UserAgent.BACKUP_FILE Examples.w_cache _
           (AStr (py "chrome")) (py "chrome") true).
  - vm_compute. reflexivity.
  - vm_compute. reflexivity.
  - split; vm_compute; reflexivity.
  - now left.
Defined.

(** ** The command line *)

(** X10. Run with no flag but perhaps [--debug], with or without a browser
    name, in a directory that has no file [fake_useragent.json], the
    program prints [FIXED_UA] and nothing else, ends normally, fetches
    nothing and touches no file. *)
Theorem first_run_prints_fixed_ua (E : UserAgent.env) (a : Cli.args) (w : world) :
  Cli.version a = false ->
  Cli.loadcache a = None ->
  Cli.removecache a = None ->
  Cli.nocache a = false ->
  Os.isfile (fs w) UserAgent.BACKUP_FILE = false ->
  Cli.run E a w = (Cli.Outcome [Json.Str UserAgent.FIXED_UA] (Ok tt), w).
Proof.
  intros Hv Hl Hr Hn Hfile. unfold Cli.run. rewrite Hv, Hl, Hr, Hn.
  rewrite SelectorFacts.main_absent_cache; [reflexivity| |exact Hfile].
  intros i. destruct (Cli.browser a); discriminate.
Qed.

Lemma first_run_prints_fixed_ua_witness :
  Cli.run Examples.E_live (Cli.Args (py "firefox") true false None None false) Examples.w_tmp
  = (Cli.Outcome [Json.Str UserAgent.FIXED_UA] (Ok tt), Examples.w_tmp).
Proof.
  apply (first_run_prints_fixed_ua Examples.E_live
           (Cli.Args (py "firefox") true false None None false) Examples.w_tmp);
    reflexivity.
Defined.

(** X11. Run with [--loadcache path] and without [--version], the program
    prints nothing and selects nothing, whatever other flags and names are
    given: it ends with status 0 and the catalog it fetched in the file at
    the target of [path], or with status 1, having written no file. *)
Theorem loadcache_run (E : UserAgent.env) (a : Cli.args) (path : string) (w : world) :
  Cli.version a = false ->
  Cli.loadcache a = Some path ->
  let o := fst (Cli.run E a w) in
  let w' := snd (Cli.run E a w) in
  Cli.printed o = [] /\
  ((exit_status (Cli.ended o) = Some 0%Z /\
    exists catalog, UserAgent.harvest E = Ok catalog /\
      fs w' !! target E path = Some (File (Json.dumps catalog)))
   \/
   (exit_status (Cli.ended o) = Some 1%Z /\ only_adds_dirs (fs w) (fs w'))).
Proof.
  intros Hv Hl. cbv zeta. unfold Cli.run. rewrite Hv, Hl.
  pose proof (LenientFacts.dump_cases E path w) as Hd. cbv zeta in Hd.
  destruct (UserAgent.dump E path w) as [r w1]. cbn [fst snd] in Hd.
  destruct Hd as [(-> & Hcat & _)|[(-> & Hadd)|(-> & -> & _)]];
    cbn [Cli.then_exit fst snd Cli.printed Cli.ended].
  - split; [reflexivity|]. left. split; [reflexivity|exact Hcat].
  - split; [reflexivity|]. right. split; [reflexivity|exact Hadd].
  - split; [reflexivity|]. right. split; [reflexivity|apply LenientFacts.only_adds_dirs_refl].
Qed.

Lemma loadcache_run_witness :
  let a := Cli.Args (py "opera") false true (Some "/tmp/ua.json"%string)
             (Some "/tmp/ua.json"%string) false in
  let o := fst (Cli.run Examples.E_live a Examples.w_tmp) in
  let w' := snd (Cli.run Examples.E_live a Examples.w_tmp) in
  Cli.printed o = [] /\
  ((exit_status (Cli.ended o) = Some 0%Z /\
    exists catalog, UserAgent.harvest Examples.E_live = Ok catalog /\
      fs w' !! target Examples.E_live "/tmp/ua.json" = Some (File (Json.dumps catalog)))
   \/
   (exit_status (Cli.ended o) = Some 1%Z /\ only_adds_dirs (fs Examples.w_tmp) (fs w'))).
Proof.
  apply (loadcache_run Examples.E_live
           (Cli.Args (py "opera") false true (Some "/tmp/ua.json"%string)
              (Some "/tmp/ua.json"%string) false) "/tmp/ua.json" Examples.w_tmp);
    reflexivity.
Defined.

(** ** The strict selector *)

(** X12. With [HTTP_RETRIES] at zero or below, the test that ends the loop
    of [get] is never met: on an address that fails at every attempt the
    loop has not ended after any number of rounds. *)
Theorem get_without_limit_goes_on (cfg : Utils.settings) (A : Type)
    (source : nat -> Utils.reply A) :
  (Utils.HTTP_RETRIES cfg <= 0)%Z ->
  (forall i, source i = Utils.NetError) ->
  forall fuel, Utils.get cfg source fuel = OutOfFuel.
Proof. intros HR Herr fuel. now apply UtilsFacts.get_goes_on. Qed.

Lemma get_without_limit_goes_on_witness :
  Utils.get (Utils.Settings "/tmp/db.json" 0) (Utils.pages Examples.N_down (py "chrome")) 1000
  = OutOfFuel.
Proof.
  apply (get_without_limit_goes_on (Utils.Settings "/tmp/db.json" 0) _
           (Utils.pages Examples.N_down (py "chrome"))).
  - vm_compute. discriminate.
  - reflexivity.
Defined.

(** X13. Of the matches of a page, [get_browser_versions] returns, in the
    order of the page, the first [BROWSERS_COUNT_LIMIT] that do not contain
    [more] in any case of letters; when none is left it raises
    [FakeUserAgentError]. *)
Theorem versions_are_first_unmarked (cfg : Utils.settings) (E : Utils.env) (fuel : nat)
    (browser : pystr) (groups : list string) :
  Utils.get cfg (Utils.pages E browser) fuel = Ok (Some groups) ->
  Utils.get_browser_versions cfg E fuel browser
  = match listed (map py groups) with
    | [] => Raise (FakeUserAgentError "No browsers version found")
    | versions => Ok versions
    end.
Proof.
  intros Hget. unfold Utils.get_browser_versions, listed. rewrite Hget.
  rewrite StrictFacts.scan_matches_listed by (unfold Utils.BROWSERS_COUNT_LIMIT; cbn; lia).
  reflexivity.
Qed.

Lemma versions_are_first_unmarked_witness :
  Utils.get_browser_versions Examples.S0 Examples.N_live 5 (py "edge")
  = match listed (map py ["Mozilla/5.0 one"; "Show more"; "Mozilla/5.0 two"]%string) with
    | [] => Raise (FakeUserAgentError "No browsers version found")
    | versions => Ok versions
    end.
Proof.
  apply (versions_are_first_unmarked Examples.S0 Examples.N_live 5 (py "edge")).
  vm_compute. reflexivity.
Defined.

(** X14. When the page of one of the five browsers cannot be turned into a
    list, the whole live harvest is given up: [load] returns what
    [get_cache_server] returns, or, with [use_cache_server] off, raises the
    error of a page. The limit of attempts is taken to be one or more, and
    the loops are given rounds for that many. *)
Theorem load_falls_back (cfg : Utils.settings) (E : Utils.env) (fuel : nat)
    (b : pystr) (e : exn) :
  (1 <= Utils.HTTP_RETRIES cfg)%Z ->
  (Z.to_nat (Utils.HTTP_RETRIES cfg) <= fuel)%nat ->
  b ∈ UserAgent.BROWSERS ->
  Utils.get_browser_versions cfg E fuel b = Raise e ->
  Utils.load cfg E fuel true = Utils.get_cache_server cfg E fuel /\
  exists b' e',
    b' ∈ UserAgent.BROWSERS /\
    Utils.get_browser_versions cfg E fuel b' = Raise e' /\
    Utils.load cfg E fuel false = Raise e'.
Proof.
  intros HR Hfuel Hb He.
  assert (Hh : exists b' e', b' ∈ UserAgent.BROWSERS /\
                 Utils.get_browser_versions cfg E fuel b' = Raise e' /\
                 Utils.harvest cfg E fuel = Raise e').
  { unfold Utils.harvest, Utils.get_browsers.
    pose proof (fun x => StrictFacts.get_browser_versions_total cfg E fuel x HR Hfuel) as Htot.
    rewrite (LoadFacts.harvest_loop_cons _ _ _ _ _ _ _ _ (py "chrome") 807) by reflexivity.
    destruct (Utils.get_browser_versions cfg E fuel (py "chrome")) as [v1|e1|] eqn:H1;
      [|exists (py "chrome"), e1; split; [apply (bool_decide_unpack _); vm_compute; exact I|auto]
       |now destruct (Htot (py "chrome"))].
    rewrite (LoadFacts.harvest_loop_cons _ _ _ _ _ _ _ _ (py "edge") 56) by reflexivity.
    destruct (Utils.get_browser_versions cfg E fuel (py "edge")) as [v2|e2|] eqn:H2;
      [|exists (py "edge"), e2; split; [apply (bool_decide_unpack _); vm_compute; exact I|auto]
       |now destruct (Htot (py "edge"))].
    rewrite (LoadFacts.harvest_loop_cons _ _ _ _ _ _ _ _ (py "firefox") 61) by reflexivity.
    destruct (Utils.get_browser_versions cfg E fuel (py "firefox")) as [v3|e3|] eqn:H3;
      [|exists (py "firefox"), e3; split; [apply (bool_decide_unpack _); vm_compute; exact I|auto]
       |now destruct (Htot (py "firefox"))].
    rewrite (LoadFacts.harvest_loop_cons _ _ _ _ _ _ _ _ (py "safari") 37) by reflexivity.
    destruct (Utils.get_browser_versions cfg E fuel (py "safari")) as [v4|e4|] eqn:H4;
      [|exists (py "safari"), e4; split; [apply (bool_decide_unpack _); vm_compute; exact I|auto]
       |now destruct (Htot (py "safari"))].
    rewrite (LoadFacts.harvest_loop_cons _ _ _ _ _ _ _ _ (py "opera") 24) by reflexivity.
    destruct (Utils.get_browser_versions cfg E fuel (py "opera")) as [v5|e5|] eqn:H5;
      [|exists (py "opera"), e5; split; [apply (bool_decide_unpack _); vm_compute; exact I|auto]
       |now destruct (Htot (py "opera"))].
    exfalso. unfold UserAgent.BROWSERS in Hb. rewrite !elem_of_cons, elem_of_nil in Hb.
    destruct Hb as [->|[->|[->|[->|[->|[]]]]]]; congruence. }
  destruct Hh as (b' & e' & Hb' & He' & Hharvest).
  assert (Hnot : forall n, e' <> SystemExit n).
  { intros n ->. apply StrictFacts.get_browser_versions_raises in He' as [[=]|[msg [=]]]. }
  unfold Utils.load. rewrite Hharvest. split.
  - destruct e'; try reflexivity. now destruct (Hnot code).
  - exists b', e'. split; [exact Hb'|]. split; [exact He'|].
    destruct e'; reflexivity.
Qed.

Lemma load_falls_back_witness :
  Utils.load Examples.S0 Examples.N_down 5 true
  = Utils.get_cache_server Examples.S0 Examples.N_down 5 /\
  exists b' e',
    b' ∈ UserAgent.BROWSERS /\
    Utils.get_browser_versions Examples.S0 Examples.N_down 5 b' = Raise e' /\
    Utils.load Examples.S0 Examples.N_down 5 false = Raise e'.
Proof.
  apply (load_falls_back Examples.S0 Examples.N_down 5 (py "safari")
           (FakeUserAgentError "Maximum amount of retries reached")).
  - vm_compute. discriminate.
  - vm_compute. lia.
  - apply (bool_decide_unpack _). vm_compute. exact I.
  - vm_compute. reflexivity.
Defined.

(** X15. The [randomize] table of a harvest that went through does not
    depend on the pages: it has 985 entries under the keys [0] to [984],
    written in decimal, and they are 807 times chrome, 56 times edge, 61
    times firefox, 37 times safari and 24 times opera, in this order. *)
Theorem randomize_table (cfg : Utils.settings) (E : Utils.env) (fuel : nat)
    (data : Json.value) :
  Utils.harvest cfg E fuel = Ok data ->
  exists table,
    subscript data (Json.Str (py "randomize")) = Ok (Json.Obj table) /\
    map fst table = map Utils.str_of_nat (seq 0 985) /\
    map snd table
    = repeat (Json.Str (py "chrome")) 807 ++ repeat (Json.Str (py "edge")) 56 ++
      repeat (Json.Str (py "firefox")) 61 ++ repeat (Json.Str (py "safari")) 37 ++
      repeat (Json.Str (py "opera")) 24.
Proof.
  intros H. apply LoadFacts.harvest_ok in H as (v1 & v2 & v3 & v4 & v5 & _ & _ & _ & _ & _ & ->).
  exists RANDOMIZE. split; [reflexivity|].
  split; [exact StrictFacts.randomize_keys|exact StrictFacts.randomize_shares].
Qed.

Lemma randomize_table_witness :
  exists table,
    subscript Examples.data0 (Json.Str (py "randomize")) = Ok (Json.Obj table) /\
    map fst table = map Utils.str_of_nat (seq 0 985) /\
    map snd table
    = repeat (Json.Str (py "chrome")) 807 ++ repeat (Json.Str (py "edge")) 56 ++
      repeat (Json.Str (py "firefox")) 61 ++ repeat (Json.Str (py "safari")) 37 ++
      repeat (Json.Str (py "opera")) 24.
Proof.
  apply (randomize_table Examples.S0 Examples.N_live 5 Examples.data0).
  vm_compute. reflexivity.
Defined.

(** X16. Without the cache and without a name, a harvest that went through
    makes [get_fake_useragent] print an entry of the list of the browser
    that stands at the drawn position of the [randomize] table: chrome for
    the first 807 of the 985 positions, then edge, firefox, safari and
    opera. No file is read or written. *)
Theorem strict_selection_by_share (cfg : Utils.settings) (E : Utils.env) (fuel : nat)
    (data : Json.value) (w : world) :
  Utils.harvest cfg E fuel = Ok data ->
  exists versions ua,
    Utils.get_browser_versions cfg E fuel (by_share (Utils.rnd_first E mod 985)) = Ok versions /\
    ua ∈ versions /\
    Utils.get_fake_useragent cfg E fuel ANone false w = (Ok (Json.Str ua), w).
Proof.
  intros Hharvest.
  destruct (LoadFacts.harvest_ok _ _ _ _ Hharvest)
    as (v1 & v2 & v3 & v4 & v5 & H1 & H2 & H3 & H4 & H5 & Hdata).
  set (b := by_share (Utils.rnd_first E mod 985)).
  assert (Hv : exists versions,
            Utils.get_browser_versions cfg E fuel b = Ok versions /\
            subscript (Json.Obj (browsers_dict v1 v2 v3 v4 v5)) (Json.Str b)
            = Ok (Json.Arr (map Json.Str versions))).
  { pose proof (SelectorFacts.by_share_browser (Utils.rnd_first E mod 985)) as Hin.
    fold b in Hin. unfold UserAgent.BROWSERS in Hin.
    rewrite !elem_of_cons, elem_of_nil in Hin.
    destruct Hin as [->|[->|[->|[->|[->|[]]]]]]; eauto. }
  destruct Hv as (versions & Hget & Hsub).
  destruct (SelectorFacts.choice_ok (map Json.Str versions) (Utils.rnd_second E))
    as (x & Hx & Hxin).
  { apply UtilsFacts.get_browser_versions_bounded in Hget as [[Hpos _] _].
    destruct versions; [cbn in Hpos; lia|discriminate]. }
  apply list_elem_of_In, in_map_iff in Hxin as (ua & <- & Hua).
  exists versions, ua. split; [exact Hget|]. split; [now apply list_elem_of_In|].
  unfold Utils.get_fake_useragent, Utils.obtain_data, Utils.load.
  rewrite Hharvest, Hdata. unfold bind at 1. unfold lift at 1.
  unfold bind at 1. unfold lift at 1. rewrite SelectorFacts.subscript_browsers.
  unfold bind at 1. unfold lift at 1. rewrite SelectorFacts.subscript_randomize.
  unfold bind at 1. unfold lift at 1. cbn [Utils.values].
  unfold bind at 1. unfold lift at 1. rewrite SelectorFacts.randomize_choice. fold b.
  unfold bind, lift. rewrite Hsub. cbn [choice_value]. now rewrite Hx.
Qed.

Lemma strict_selection_by_share_witness :
  exists versions ua,
    Utils.get_browser_versions Examples.S0 Examples.N_live 5
      (by_share (Utils.rnd_first Examples.N_live mod 985)) = Ok versions /\
    ua ∈ versions /\
    Utils.get_fake_useragent Examples.S0 Examples.N_live 5 ANone false Examples.w_empty
    = (Ok (Json.Str ua), Examples.w_empty).
Proof.
  apply (strict_selection_by_share Examples.S0 Examples.N_live 5 Examples.data0).
  vm_compute. reflexivity.
Defined.

(** X17. A name within ISO-8859-1 that, stripped, lowered and with its
    alias resolved, is not a key of the [browsers] table of the data at
    hand is turned down: [get_fake_useragent] raises [FakeUserAgentError]
    with the message [This browser is not supported.] and prints
    nothing. *)
Theorem unsupported_name_rejected (cfg : Utils.settings) (E : Utils.env) (fuel : nat)
    (s : pystr) (use_cache : bool) (w w1 : world) (data : Json.value)
    (browsers randomize : list (pystr * Json.value)) :
  Utils.obtain_data cfg E fuel use_cache w = (Ok data, w1) ->
  subscript data (Json.Str (py "browsers")) = Ok (Json.Obj browsers) ->
  subscript data (Json.Str (py "randomize")) = Ok (Json.Obj randomize) ->
  latin1 (strip s) = true ->
  Utils.shortcut (lower (strip s)) ∉ map fst browsers ->
  Utils.get_fake_useragent cfg E fuel (AStr s) use_cache w
  = (Raise (FakeUserAgentError "This browser is not supported."), w1).
Proof.
  intros Hdata Hb Hr _ Hnot.
  now apply (SelectorFacts.strict_rejects_unsupported cfg E fuel s use_cache w data w1
               (Json.Obj browsers) (Json.Obj randomize) (map snd randomize) (map fst browsers)).
Qed.

Lemma unsupported_name_rejected_witness :
  Utils.get_fake_useragent Examples.S0 Examples.N_live 5 (AStr (py " Netscape ")) false
    Examples.w_empty
  = (Raise (FakeUserAgentError "This browser is not supported."), Examples.w_empty).
Proof.
  apply (unsupported_name_rejected Examples.S0 Examples.N_live 5 (py " Netscape ") false
           Examples.w_empty Examples.w_empty Examples.data0
           (browsers_dict [py "Mozilla/5.0 one"; py "Mozilla/5.0 two"]
              [py "Mozilla/5.0 one"; py "Mozilla/5.0 two"]
              [py "Mozilla/5.0 one"; py "Mozilla/5.0 two"]
              [py "Mozilla/5.0 one"; py "Mozilla/5.0 two"]
              [py "Mozilla/5.0 one"; py "Mozilla/5.0 two"]) RANDOMIZE).
  - vm_compute. reflexivity.
  - vm_compute. reflexivity.
  - vm_compute. reflexivity.
  - vm_compute. reflexivity.
  - apply (bool_decide_unpack _). vm_compute. exact I.
Defined.

(** X18. With the cache and a cache file in place, [get_fake_useragent]
    asks no page and no cache server: what it does is the same under any
    two surroundings that hand out the same random numbers. It changes no
    file, and its one file operation is the read of the cache. *)
Theorem cached_strict_selection_is_offline (cfg : Utils.settings) (E E' : Utils.env)
    (fuel fuel' : nat) (browser : pyarg) (w : world) :
  Os.isfile (fs w) (Utils.DB cfg) = true ->
  Utils.rnd_first E = Utils.rnd_first E' ->
  Utils.rnd_second E = Utils.rnd_second E' ->
  Utils.get_fake_useragent cfg E fuel browser true w
  = Utils.get_fake_useragent cfg E' fuel' browser true w /\
  snd (Utils.get_fake_useragent cfg E fuel browser true w) = log (EvRead (Utils.DB cfg)) w.
Proof.
  intros Hfile H1 H2. split.
  { unfold Utils.get_fake_useragent. rewrite <- H1, <- H2. apply StrictFacts.bind_ext.
    now rewrite !StrictFacts.obtain_data_cached by exact Hfile. }
  unfold Utils.get_fake_useragent. unfold bind at 1.
  rewrite StrictFacts.obtain_data_cached by exact Hfile.
  unfold Utils.read, bind, Os.read_text, lift, raise, ret.
  unfold Os.isfile in Hfile.
  destruct (fs w !! Utils.DB cfg) as [[|text]|]; try discriminate.
  destruct (Json.loads text) as [data| |]; try reflexivity.
  destruct (subscript data (Json.Str (py "browsers"))) as [browsers| |]; try reflexivity.
  destruct (subscript data (Json.Str (py "randomize"))) as [rd| |]; try reflexivity.
  destruct (Utils.values rd) as [randomize| |]; try reflexivity.
  destruct browser as [|s|i]; try reflexivity.
  - destruct (Random.choice randomize (Utils.rnd_first E)) as [b| |]; try reflexivity.
    destruct (subscript browsers b) as [versions| |]; try reflexivity;
      destruct (choice_value versions (Utils.rnd_second E)); reflexivity.
  - destruct (Utils.keys browsers) as [names| |]; try reflexivity.
    destruct (negb (bool_decide (Utils.shortcut (lower (strip s)) ∈ names))); try reflexivity.
    destruct (subscript browsers (Json.Str (Utils.shortcut (lower (strip s)))))
      as [versions| |]; try reflexivity;
      destruct (choice_value versions (Utils.rnd_second E)); reflexivity.
Qed.

Lemma cached_strict_selection_is_offline_witness :
  Utils.get_fake_useragent Examples.S0 Examples.N_live 5 (AStr (py "ie")) true Samples.w_db
  = Utils.get_fake_useragent Examples.S0 Examples.N_down 0 (AStr (py "ie")) true Samples.w_db /\
  snd (Utils.get_fake_useragent Examples.S0 Examples.N_live 5 (AStr (py "ie")) true Samples.w_db)
  = log (EvRead (Utils.DB Examples.S0)) Samples.w_db.
Proof.
  apply (cached_strict_selection_is_offline Examples.S0 Examples.N_live Examples.N_down 5 0
           (AStr (py "ie")) Samples.w_db); reflexivity.
Defined.

(** X19. When no page and no cache server can be reached, and the data is
    not to be had from a cache file, [get_fake_useragent] raises
    [FakeUserAgentError] with the message of [get], whatever the browser
    argument is, and leaves the world as it is. The limit of attempts is
    taken to be one or more, and the loops are given rounds for that
    many. *)
Theorem outage_raises_library_error (cfg : Utils.settings) (E : Utils.env) (fuel : nat)
    (browser : pyarg) (use_cache : bool) (w : world) :
  (1 <= Utils.HTTP_RETRIES cfg)%Z ->
  (Z.to_nat (Utils.HTTP_RETRIES cfg) <= fuel)%nat ->
  (forall b i, Utils.pages E b i = Utils.NetError) ->
  (forall i, Utils.cache_server E i = Utils.NetError) ->
  use_cache = false \/ Os.isfile (fs w) (Utils.DB cfg) = false ->
  Utils.get_fake_useragent cfg E fuel browser use_cache w
  = (Raise (FakeUserAgentError "Maximum amount of retries reached"), w).
Proof.
  intros HR Hfuel Hpages Hserver Hsource.
  assert (Hload : Utils.load cfg E fuel true
                  = Raise (FakeUserAgentError "Maximum amount of retries reached")).
  { unfold Utils.load, Utils.harvest, Utils.get_browsers.
    rewrite (LoadFacts.harvest_loop_cons _ _ _ _ _ _ _ _ (py "chrome") 807) by reflexivity.
    unfold Utils.get_browser_versions at 1.
    rewrite (UtilsFacts.get_exhausted cfg (Utils.pages E (py "chrome")) fuel HR Hfuel)
      by (intros i _; apply Hpages).
    cbn [negb]. unfold Utils.get_cache_server.
    now rewrite (UtilsFacts.get_exhausted cfg (Utils.cache_server E) fuel HR Hfuel)
      by (intros i _; apply Hserver). }
  unfold Utils.get_fake_useragent, Utils.obtain_data. unfold bind at 1.
  destruct use_cache.
  - destruct Hsource as [|Hfile]; [discriminate|]. rewrite Hfile.
    unfold bind, lift. now rewrite Hload.
  - unfold lift. now rewrite Hload.
Qed.

Lemma outage_raises_library_error_witness :
  Utils.get_fake_useragent Examples.S0 Examples.N_down 5 (AInt 7) true Examples.w_tmp
  = (Raise (FakeUserAgentError "Maximum amount of retries reached"), Examples.w_tmp).
Proof.
  apply (outage_raises_library_error Examples.S0 Examples.N_down 5 (AInt 7) true
           Examples.w_tmp).
  - vm_compute. discriminate.
  - vm_compute. lia.
  - reflexivity.
  - reflexivity.
  - right. vm_compute. reflexivity.
Defined.

(** ** The search for a cache in the temporary directory *)

(** X20. [find_tempfile] returns the first name that begins with
    [fake_useragent_] in the order in which [os.walk] yields the files of
    the directory, joined to the directory it was called with, at whatever
    depth the file lies; when no name begins so it returns the empty
    string. *)
Theorem find_tempfile_first_match (dir : string) (t : Settings.tree) :
  Settings.find_tempfile dir (Some t)
  = match List.find Settings.is_cache_name (Settings.walk t) with
    | Some f => Settings.join dir f
    | None => EmptyString
    end.
Proof. unfold Settings.find_tempfile. now rewrite SettingsFacts.search_walk. Qed.

(** X21. [find_tempfile] returns the empty string exactly when no file in
    the directory or below it has a name that begins with
    [fake_useragent_]. *)
Theorem find_tempfile_empty_iff (dir : string) (t : Settings.tree) :
  Settings.find_tempfile dir (Some t) = EmptyString <->
  Forall (fun f => Settings.is_cache_name f = false) (Settings.walk t).
Proof.
  unfold Settings.find_tempfile. rewrite SettingsFacts.search_walk.
  rewrite <- SettingsFacts.find_none_iff.
  destruct (List.find Settings.is_cache_name (Settings.walk t)) as [f|] eqn:Hf.
  - split; [|discriminate]. intros H. exfalso.
    apply (SettingsFacts.join_not_empty dir f); [|exact H].
    apply SettingsFacts.cache_name_not_empty. now apply SettingsFacts.find_some_true in Hf.
  - split; reflexivity.
Qed.

(** X22. A file with the name of [DB] that stands in the temporary
    directory itself is what [find_tempfile] returns for that directory, as
    the path [DB], when no file listed before it there begins with
    [fake_useragent_]. *)
Theorem find_tempfile_finds_DB (temp_dir version : string) (earlier later : list string)
    (dirs : list (string * Settings.tree)) :
  Forall (fun f => Settings.is_cache_name f = false) earlier ->
  Settings.find_tempfile temp_dir
    (Some (Settings.Node (earlier ++ ("fake_useragent_" ++ version ++ ".json")%string :: later) dirs))
  = Settings.DB temp_dir version.
Proof.
  intros Hearlier. unfold Settings.find_tempfile, Settings.DB. cbn [Settings.search].
  rewrite SettingsFacts.find_app.
  rewrite (proj2 (SettingsFacts.find_none_iff _ _) Hearlier).
  cbn [List.find]. now rewrite SettingsFacts.cache_name_of_version.
Qed.

Lemma find_tempfile_finds_DB_witness :
  Settings.find_tempfile "/tmp"
    (Some (Settings.Node (["notes.txt"; "fake.json"]%string ++
                          ("fake_useragent_" ++ "0.1.11" ++ ".json")%string ::
                          ["fake_useragent_0.1.10.json"%string])
             [("old"%string, Settings.Node ["fake_useragent_0.1.9.json"%string] [])]))
  = Settings.DB "/tmp" "0.1.11".
Proof.
  apply (find_tempfile_finds_DB "/tmp" "0.1.11" ["notes.txt"; "fake.json"]%string).
  repeat constructor.
Defined.

(** ** From the body of a page to its matches *)

(** X23. Every match that [get_browser_versions] takes from the text of a
    page is the text of a link to an entry: it is not empty, holds no line
    feed, and stands in the page between [?id=], a number and a quote with [>] on the
    one side and [</a] on the other. *)
Theorem matches_are_link_texts (body : string) (gs : list pystr) (g : pystr) :
  Scrape.matches body = Some gs ->
  g ∈ gs ->
  g <> [] /\ Forall (fun c => c <> 10) g /\
  exists a digits b,
    py body = a ++ py "?id=" ++ digits ++ py "'>" ++ g ++ py "</a" ++ b /\
    digits <> [] /\ Forall (fun c => Scrape.is_digit c = true) digits.
Proof.
  unfold Scrape.matches. generalize (py body). intros html Hg Hin.
  apply ScrapeFacts.groups_part in Hg as (a0 & section & b0 & -> & ->).
  destruct (ScrapeFacts.finditer_sound section g Hin)
    as (H1 & H2 & a & digits & b & -> & H3 & H4).
  split; [exact H1|]. split; [exact H2|].
  exists (a0 ++ a), digits, (b ++ b0). split; [|auto]. now rewrite <- !app_assoc.
Qed.

Lemma matches_are_link_texts_witness :
  py "Show more" <> [] /\ Forall (fun c => c <> 10) (py "Show more") /\
  exists a digits b,
    py Pages.body = a ++ py "?id=" ++ digits ++ py "'>" ++ py "Show more" ++ py "</a" ++ b /\
    digits <> [] /\ Forall (fun c => Scrape.is_digit c = true) digits.
Proof.
  apply (matches_are_link_texts Pages.body (map snd Pages.entries) (py "Show more")).
  - vm_compute. reflexivity.
  - apply (bool_decide_unpack _). vm_compute. exact I.
Defined.

(** X24. From a page that holds its list in the form the site gives it,
    a [<div id='liste'>] that is the first of its kind, entries of the form
    [<li><a href='/index.php?id=N'>text</a></li>] and the closing [</div>],
    the matches taken are the texts of the entries, all of them and in
    their order, whatever stands before and after the list. The texts are
    taken to be free of line feeds and of [<]. *)
Theorem listing_is_read_back (body : string) (before : pystr)
    (entries : list (pystr * pystr)) (after : pystr) :
  py body = Scrape.listing before entries after ->
  contains (py "<div id='liste'>") before = false ->
  Forall Scrape.plain_entry entries ->
  Scrape.matches body = Some (map snd entries).
Proof.
  intros Hpage. unfold Scrape.matches. rewrite Hpage. apply ScrapeFacts.groups_listing.
Qed.

Lemma listing_is_read_back_witness :
  Scrape.matches Pages.body = Some (map snd Pages.entries).
Proof.
  apply (listing_is_read_back Pages.body (py "<html><body><div id='top'></div>")
           Pages.entries (py "<p><a href='/?id=3'>more</a></p></body></html>")).
  - vm_compute. reflexivity.
  - vm_compute. reflexivity.
  - apply ScrapeFacts.plain_entryb_ok. vm_compute. reflexivity.
Defined.

(** X25. When the first request for a browser's page is answered with the
    bytes of such a page, [get_browser_versions] returns the texts of the
    entries that do not contain [more], in any case of letters, up to the
    first [BROWSERS_COUNT_LIMIT] of them and in the order of the page, or
    raises [FakeUserAgentError] when there is none. *)
Theorem versions_of_a_listing (cfg : Utils.settings)
    (bodies : pystr -> nat -> Utils.reply string) (cache_server : nat -> Utils.reply pystr)
    (rnd_first rnd_second fuel : nat) (browser : pystr) (body : string)
    (before : pystr) (entries : list (pystr * pystr)) (after : pystr) :
  bodies browser 0%nat = Utils.Body body ->
  py body = Scrape.listing before entries after ->
  contains (py "<div id='liste'>") before = false ->
  Forall Scrape.plain_entry entries ->
  Utils.get_browser_versions cfg (Scrape.env_of bodies cache_server rnd_first rnd_second)
    (S fuel) browser
  = match listed (map snd entries) with
    | [] => Raise (FakeUserAgentError "No browsers version found")
    | versions => Ok versions
    end.
Proof.
  intros Hbody Hpage Hbefore Hentries.
  unfold Utils.get_browser_versions, Utils.get. cbn [Utils.get_loop].
  change (Z.to_nat (0 + 1 - 1)) with 0%nat. cbn [Scrape.env_of Utils.pages].
  rewrite Hbody. unfold Scrape.matches. rewrite Hpage.
  rewrite (ScrapeFacts.groups_listing before entries after Hbefore Hentries).
  cbn [option_map].
  assert (Hback : map py (map Scrape.unpy (map snd entries)) = map snd entries).
  { pose proof (ScrapeFacts.py_bytes body) as Hbytes. rewrite Hpage in Hbytes.
    apply ScrapeFacts.Forall_listing in Hbytes.
    clear -Hbytes. induction Hbytes as [|e entries He _ IH]; [reflexivity|].
    cbn [map]. rewrite IH. f_equal. now apply ScrapeFacts.py_unpy. }
  rewrite Hback.
  rewrite StrictFacts.scan_matches_listed by (unfold Utils.BROWSERS_COUNT_LIMIT; cbn; lia).
  reflexivity.
Qed.

Lemma versions_of_a_listing_witness :
  Utils.get_browser_versions Examples.S0 Pages.N_bodies 1 (py "chrome")
  = match listed (map snd Pages.entries) with
    | [] => Raise (FakeUserAgentError "No browsers version found")
    | versions => Ok versions
    end.
Proof.
  apply (versions_of_a_listing Examples.S0 Pages.bodies (fun _ => Utils.NetError) 900 1 0
           (py "chrome") Pages.body (py "<html><body><div id='top'></div>") Pages.entries
           (py "<p><a href='/?id=3'>more</a></p></body></html>")).
  - reflexivity.
  - vm_compute. reflexivity.
  - vm_compute. reflexivity.
  - apply ScrapeFacts.plain_entryb_ok. vm_compute. reflexivity.
Defined.

(** ** Two more of the lenient and the strict selector *)

(** X26. When the directory of the expanded cache path is missing and can
    be made where it belongs (what it lies in is a directory), and nothing
    stands at the target, a [dump] whose five fetches went through makes
    that directory, writes the text of the catalog to the target, and
    returns; these are its two file operations, in this order. The
    expanded path is to be spelled in the canonical way, with no slash at
    its end, so that it names a file and the file system knows its
    directory by the name [os.path.dirname] gives. *)
Theorem dump_makes_the_directory (E : UserAgent.env) (cache_path path d : string)
    (w : world) (catalog : Json.value) :
  UserAgent.harvest E = Ok catalog ->
  negb (String.eqb (Os.dirname cache_path) EmptyString)
  && negb (String.eqb (Os.dirname cache_path) ".") = true ->
  path = UserAgent.expand E cache_path ->
  Os.canonical path = true ->
  d = Os.dirname path ->
  d <> EmptyString ->
  Os.path_exists (fs w) d = false ->
  Os.parent_ok (fs w) d = true ->
  fs w !! path = None ->
  exists w1,
    UserAgent.dump E cache_path w = (Ok tt, w1) /\
    fs w1 = <[path := File (Json.dumps catalog)]> (<[d := Dir]> (fs w)) /\
    trace w1 = trace w ++ [EvMkdir d; EvWrite path (Json.dumps catalog)].
Proof.
  intros Hharvest Hchecked -> Hcanon -> Hd Hmissing Hparent Hnone.
  set (path := UserAgent.expand E cache_path) in *. set (d := Os.dirname path) in *.
  assert (Hfile : Os.names_directory path = false).
  { unfold Os.canonical in Hcanon. apply andb_true_iff in Hcanon as [Hcanon _].
    now apply negb_true_iff in Hcanon. }
  assert (Hpath : path <> EmptyString).
  { intros Hp. apply Hd. unfold d. now rewrite Hp. }
  assert (Hnotroot : Os.is_root path = false).
  { apply not_true_is_false. intros Hr. apply PathFacts.root_dirname in Hr as Hfix.
    fold d in Hfix. unfold Os.path_exists, Os.isdir in Hmissing.
    rewrite Hfix, Hr in Hmissing. rewrite orb_true_r in Hmissing. discriminate. }
  assert (Hne : path <> d).
  { intros Heq. symmetry in Heq. apply PathFacts.dirname_fixed in Heq as [Hp|Hr]; congruence. }
  assert (Hnotdot : String.eqb path "." = false).
  { apply String.eqb_neq. intros Hp. apply Hd. unfold d. now rewrite Hp. }
  assert (Hmk : Os.makedirs (S (String.length d)) d w
                = (Ok tt, log (EvMkdir d) {| fs := <[d := Dir]> (fs w); trace := trace w |})).
  { cbn [Os.makedirs]. unfold bind.
    assert (Hskip : negb (String.eqb (Os.dirname d) EmptyString)
                    && negb (String.eqb (Os.dirname d) d)
                    && negb (Os.path_exists (fs w) (Os.dirname d)) = false).
    { unfold Os.parent_ok in Hparent. apply orb_true_iff in Hparent as [He|Hdir].
      - now rewrite He.
      - unfold Os.path_exists. rewrite Hdir. cbn [orb negb]. now rewrite !andb_false_r. }
    rewrite Hskip. unfold try_except, Os.mkdir.
    rewrite (proj2 (String.eqb_neq d EmptyString)) by exact Hd.
    now rewrite Hmissing, Hparent. }
  eexists. split; [|split].
  - unfold UserAgent.dump. unfold bind at 1. unfold lift. rewrite Hharvest.
    rewrite Hchecked. unfold bind at 1. fold path. fold d. rewrite Hmissing. cbn [negb].
    unfold try_except at 1. unfold bind at 1. rewrite Hmk.
    unfold ret. unfold try_except, Os.write_text.
    rewrite (proj2 (String.eqb_neq path EmptyString)) by exact Hpath. rewrite Hfile.
    unfold Os.isdir at 1. cbn [fs log]. rewrite lookup_insert_ne by congruence.
    rewrite Hnotdot, Hnotroot, Hnone. cbn [orb].
    unfold Os.parent_ok. fold d. unfold Os.isdir. rewrite lookup_insert_eq.
    rewrite !orb_true_r. cbn [negb]. reflexivity.
  - reflexivity.
  - cbn [trace log]. now rewrite <- app_assoc.
Qed.

Lemma dump_makes_the_directory_witness :
  exists w1,
    UserAgent.dump Examples.E_live "/tmp/cache/ua.json" Examples.w_tmp = (Ok tt, w1) /\
    fs w1 = <["/tmp/cache/ua.json"%string := File (Json.dumps Samples.catalog)]>
              (<["/tmp/cache"%string := Dir]> (fs Examples.w_tmp)) /\
    trace w1 = trace Examples.w_tmp ++
               [EvMkdir "/tmp/cache";
                EvWrite "/tmp/cache/ua.json" (Json.dumps Samples.catalog)].
Proof.
  apply (dump_makes_the_directory Examples.E_live "/tmp/cache/ua.json" "/tmp/cache/ua.json"
           "/tmp/cache" Examples.w_tmp Samples.catalog).
  - vm_compute. reflexivity.
  - vm_compute. reflexivity.
  - reflexivity.
  - vm_compute. reflexivity.
  - vm_compute. reflexivity.
  - discriminate.
  - vm_compute. reflexivity.
  - vm_compute. reflexivity.
  - vm_compute. reflexivity.
Defined.

(** X27. Whatever object [get_fake_useragent] obtains as its data, from
    the cache file or from [load], is taken as it is: when it has no key
    [browsers], the call raises [KeyError] for that key, whatever the
    browser argument is, and prints nothing. A cache in the form [dump]
    writes it is such an object. *)
Theorem data_without_browsers (cfg : Utils.settings) (E : Utils.env) (fuel : nat)
    (browser : pyarg) (use_cache : bool) (w w1 : world)
    (members : list (pystr * Json.value)) :
  Utils.obtain_data cfg E fuel use_cache w = (Ok (Json.Obj members), w1) ->
  py "browsers" ∉ map fst members ->
  Utils.get_fake_useragent cfg E fuel browser use_cache w
  = (Raise (KeyError (KStr (py "browsers"))), w1).
Proof.
  intros Hdata Hkey. unfold Utils.get_fake_useragent. unfold bind at 1. rewrite Hdata.
  unfold bind, lift. cbn [subscript].
  now rewrite (StrictFacts.dict_get_none _ _ Hkey).
Qed.

Lemma data_without_browsers_witness :
  Utils.get_fake_useragent Examples.S0 Examples.N_live 5 (AStr (py "chrome")) true
    Samples.w_foreign
  = (Raise (KeyError (KStr (py "browsers"))),
     log (EvRead (Utils.DB Examples.S0)) Samples.w_foreign).
Proof.
  apply (data_without_browsers Examples.S0 Examples.N_live 5 (AStr (py "chrome")) true
           Samples.w_foreign _ Samples.members).
  - vm_compute. reflexivity.
  - apply (bool_decide_unpack _). vm_compute. exact I.
Defined.
